(** * Minutiae conversion and template rendering: a shallow embedding

    This development embeds the conversion and rendering stages of the
    fingerprint preprocessing package
    ([preprocessing/minutiae_extraction.py] and
    [preprocessing/template_rendering.py]) and states the properties of
    the specification over that embedding.

    Conventions.
    - Text is a [string]; its characters are code points below 256.
    - The file store is a finite map from paths to file contents.
      Reading a file of the store, writing a file, and removing a file
      that the program itself has just written succeed.  Directories
      and permissions are not in the store: what a directory walk or
      listing answers is an input of the batch functions, and whether
      a directory can be created or a file of the detector removed is
      answered by the environment, a parameter.
    - A Python [float] is an IEEE-754 binary64 number, given by the
      [spec_float] operations of the standard library at precision 53
      and maximal exponent 1024.
    - A computation that may raise returns a [result]; a function
      whose exceptions are all handled inside returns a plain value. *)

From Stdlib Require Import ZArith Lia List Ascii String Bool.
From Stdlib Require Import Floats.SpecFloat.
From stdpp Require Import base option list gmap strings.

Local Open Scope string_scope.
Local Open Scope Z_scope.

(** ** Exceptions *)

Module Py.

Inductive exn : Type :=
  | ValueError
  | IndexError
  | OverflowError
  | TypeError
  | ZeroDivisionError
  | FileNotFoundError
  | PermissionError
  | OSError.

Inductive result (A : Type) : Type :=
  | Ok (a : A)
  | Raise (e : exn).

Arguments Ok {A} a.
Arguments Raise {A} e.

Definition bind {A B : Type} (m : result A) (k : A -> result B) : result B :=
  match m with
  | Ok a => k a
  | Raise e => Raise e
  end.

(** [try: m  except Exception: h] *)
Definition try_except {A : Type} (m : result A) (h : exn -> A) : A :=
  match m with
  | Ok a => a
  | Raise e => h e
  end.

(** [try: m  except Exception: h], where the handler may raise too. *)
Definition catch {A : Type} (m : result A) (h : exn -> result A)
  : result A :=
  match m with
  | Ok a => Ok a
  | Raise e => h e
  end.

(** A loop whose body may raise: the first exception leaves the loop. *)
Fixpoint fold {A B : Type} (f : A -> B -> result A) (l : list B) (a : A)
  : result A :=
  match l with
  | [] => Ok a
  | b :: l' =>
      match f a b with
      | Ok a' => fold f l' a'
      | Raise e => Raise e
      end
  end.

(** [except (ValueError, IndexError)]: the two classes the record loop
    handles; every other exception passes through. *)
Definition is_value_or_index (e : exn) : bool :=
  match e with
  | ValueError | IndexError => true
  | _ => false
  end.

End Py.

Import Py.

Notation "x <-! m ; k" := (Py.bind m (fun x => k))
  (at level 100, m at next level, right associativity).

(** ** Text *)

Module Text.

Definition chars (s : string) : list ascii := list_ascii_of_string s.
Definition text (l : list ascii) : string := string_of_list_ascii l.

Definition code (c : ascii) : Z := Z.of_nat (nat_of_ascii c).

Definition LF : ascii := ascii_of_nat 10.
Definition CR : ascii := ascii_of_nat 13.

(** [str.isspace] on code points below 256. *)
Definition is_space (c : ascii) : bool :=
  let n := code c in
  ((9 <=? n) && (n <=? 13)) || ((28 <=? n) && (n <=? 32))
  || (n =? 133) || (n =? 160).

Fixpoint lstrip (l : list ascii) : list ascii :=
  match l with
  | c :: l' => if is_space c then lstrip l' else l
  | [] => []
  end.

(** [str.strip()] *)
Definition strip_chars (l : list ascii) : list ascii :=
  rev (lstrip (rev (lstrip l))).

Definition strip (s : string) : string := text (strip_chars (chars s)).

(** [s.split(sep)] for a one-character separator: never empty. *)
Fixpoint split_chars (sep : ascii) (l : list ascii) : list (list ascii) :=
  match l with
  | [] => [[]]
  | c :: l' =>
      if Ascii.eqb c sep then [] :: split_chars sep l'
      else match split_chars sep l' with
           | h :: t => (c :: h) :: t
           | [] => [[c]]
           end
  end.

Definition split (sep : ascii) (s : string) : list string :=
  map text (split_chars sep (chars s)).

(** [s.split()]: maximal runs of non-space characters. *)
Fixpoint words_from (cur : list ascii) (l : list ascii) : list (list ascii) :=
  match l with
  | [] => match cur with [] => [] | _ => [rev cur] end
  | c :: l' =>
      if is_space c
      then match cur with
           | [] => words_from [] l'
           | _ => rev cur :: words_from [] l'
           end
      else words_from (c :: cur) l'
  end.

Definition words (s : string) : list string :=
  map text (words_from [] (chars s)).

(** Lines of a file opened in text mode: ["\n"], ["\r"] and ["\r\n"]
    all end a line and are read as ["\n"]; each line keeps its end. *)
Fixpoint lines_from (after_cr : bool) (cur : list ascii) (l : list ascii)
  : list (list ascii) :=
  match l with
  | [] => match cur with [] => [] | _ => [rev cur] end
  | c :: l' =>
      if Ascii.eqb c LF then
        if after_cr then lines_from false cur l'
        else rev (LF :: cur) :: lines_from false [] l'
      else if Ascii.eqb c CR then rev (LF :: cur) :: lines_from true [] l'
      else lines_from false (c :: cur) l'
  end.

Definition readlines (s : string) : list string :=
  map text (lines_from false [] (chars s)).

Fixpoint is_prefix (p l : list ascii) : bool :=
  match p, l with
  | [], _ => true
  | a :: p', b :: l' => Ascii.eqb a b && is_prefix p' l'
  | _ :: _, [] => false
  end.

(** [sub in s] *)
Fixpoint contains_chars (sub l : list ascii) : bool :=
  is_prefix sub l ||
  match l with
  | [] => false
  | _ :: l' => contains_chars sub l'
  end.

Definition contains (sub s : string) : bool :=
  contains_chars (chars sub) (chars s).

(** [s.endswith(suffix)] *)
Definition endswith (s suffix : string) : bool :=
  is_prefix (rev (chars suffix)) (rev (chars s)).

(** [s.lower()] on the ASCII letters. *)
Definition lower_char (c : ascii) : ascii :=
  let n := code c in
  if (65 <=? n) && (n <=? 90) then ascii_of_nat (nat_of_ascii c + 32) else c.

Definition lower (s : string) : string := text (map lower_char (chars s)).

Definition digit_val (c : ascii) : option Z :=
  let n := code c in
  if (48 <=? n) && (n <=? 57) then Some (n - 48) else None.

Definition is_digit (c : ascii) : bool :=
  match digit_val c with Some _ => true | None => false end.

Definition digit_char (d : Z) : ascii := ascii_of_nat (Z.to_nat (48 + d)).

(** Decimal digits of a non-negative integer, most significant first. *)
Fixpoint digits_of (fuel : nat) (n : Z) (acc : list ascii) : list ascii :=
  match fuel with
  | O => acc
  | S fuel' =>
      if n <? 10 then digit_char n :: acc
      else digits_of fuel' (n / 10) (digit_char (n mod 10) :: acc)
  end.

Definition nat_digits (n : Z) : list ascii :=
  digits_of (S (Z.to_nat (Z.log2 n))) n [].

(** [str(n)] for an [int]. *)
Definition of_int (n : Z) : string :=
  if n <? 0 then "-" +:+ text (nat_digits (- n)) else text (nat_digits n).

End Text.

(** ** Binary64 arithmetic *)

Module F.

Definition float : Type := spec_float.

Definition prec : Z := 53.
Definition emax : Z := 1024.

Definition mul : float -> float -> float := SFmul prec emax.
Definition add : float -> float -> float := SFadd prec emax.
Definition sub : float -> float -> float := SFsub prec emax.
Definition div : float -> float -> float := SFdiv prec emax.
Definition ltb : float -> float -> bool := SFltb.

Definition is_zero (x : float) : bool :=
  match x with S754_zero _ => true | _ => false end.

Definition is_neg (x : float) : bool := SFltb x (S754_zero false).

Definition eqb (x y : float) : bool :=
  match x, y with
  | S754_zero a, S754_zero b => Bool.eqb a b
  | S754_infinity a, S754_infinity b => Bool.eqb a b
  | S754_nan, S754_nan => true
  | S754_finite a m e, S754_finite b n f =>
      Bool.eqb a b && Pos.eqb m n && Z.eqb e f
  | _, _ => false
  end.

(** The binary64 number nearest to the integer [n] (ties to even);
    infinite when [n] is out of range. *)
Definition of_Z (n : Z) : float := binary_normalize prec emax n 0 false.

(** The binary64 number nearest to [num / den], for [num], [den] > 0. *)
Definition round_div (neg : bool) (num den : Z) : float :=
  let '(q, e, l) := SFdiv_core_binary prec emax num 0 den 0 in
  binary_round_aux prec emax neg q e l.

(** The binary64 number nearest to [d * 10 ^ p], for [d] >= 0: what a
    correctly rounded decimal-to-binary conversion returns. *)
Definition of_decimal (neg : bool) (d p : Z) : float :=
  if d =? 0 then S754_zero neg
  else if 0 <=? p then binary_normalize prec emax ((if neg then - d else d) * 10 ^ p) 0 false
  else round_div neg d (10 ^ (- p)).

(** Conversion of a Python [int] operand of a float operation. *)
Definition of_int (n : Z) : result float :=
  match of_Z n with
  | S754_infinity _ => Raise OverflowError
  | x => Ok x
  end.

(** [a / b] on Python [int]s: correctly rounded true division. *)
Definition int_truediv (a b : Z) : result float :=
  if b =? 0 then Raise ZeroDivisionError
  else if a =? 0 then Ok (S754_zero (b <? 0))
  else match round_div (negb (Bool.eqb (a <? 0) (b <? 0))) (Z.abs a) (Z.abs b) with
       | S754_infinity _ => Raise OverflowError
       | x => Ok x
       end.

(** C [fmod]: the exact remainder of [x / y], with the sign of [x]. *)
Definition fmod (x y : float) : float :=
  match x, y with
  | S754_nan, _ | _, S754_nan => S754_nan
  | S754_infinity _, _ => S754_nan
  | _, S754_zero _ => S754_nan
  | _, S754_infinity _ => x
  | S754_zero _, _ => x
  | S754_finite sx mx ex, S754_finite _ my ey =>
      let e := Z.min ex ey in
      let X := Z.shiftl (Zpos mx) (ex - e) in
      let Y := Z.shiftl (Zpos my) (ey - e) in
      let r := X mod Y in
      if r =? 0 then S754_zero sx
      else binary_normalize prec emax (if sx then - r else r) e false
  end.

(** [v % w] on Python floats ([float_rem]): the remainder takes the
    sign of the divisor; a zero remainder is a zero of that sign. *)
Definition py_mod (v w : float) : result float :=
  if is_zero w then Raise ZeroDivisionError
  else
    let m := fmod v w in
    if is_zero m then Ok (S754_zero (is_neg w))
    else if negb (Bool.eqb (is_neg w) (is_neg m)) then Ok (add m w)
    else Ok m.

(** Truncation toward zero of a finite number. *)
Definition trunc (x : float) : option Z :=
  match x with
  | S754_zero _ => Some 0
  | S754_finite s m e =>
      let a := if 0 <=? e then Z.shiftl (Zpos m) e else Z.shiftr (Zpos m) (- e) in
      Some (if s then - a else a)
  | _ => None
  end.

(** [int(x)] for a float: raises on an infinity or a NaN. *)
Definition to_int (x : float) : result Z :=
  match x with
  | S754_infinity _ => Raise OverflowError
  | S754_nan => Raise ValueError
  | _ => Ok (default 0 (trunc x))
  end.

(** [float64 -> int32] as the array cast performs it on x86-64: the
    truncated value when it fits, and the integer indefinite value
    [-2^31] for a NaN, an infinity or a value out of range. *)
Definition astype_int32 (x : float) : Z :=
  match trunc x with
  | Some n => if (- 2 ^ 31 <=? n) && (n <? 2 ^ 31) then n else - 2 ^ 31
  | None => - 2 ^ 31
  end.

End F.

(** ** Conversions between text and numbers *)

Module Num.

Import Text.

(** A run [digit ("_"? digit)*]; underscores only when [us] is set.
    Returns the digits read and the rest, or nothing when an underscore
    is not followed by a digit. *)
Fixpoint span_digits (us prev : bool) (l : list ascii)
  : option (list Z * list ascii) :=
  match l with
  | [] => Some ([], [])
  | c :: l' =>
      match digit_val c with
      | Some d =>
          match span_digits us true l' with
          | Some (ds, r) => Some (d :: ds, r)
          | None => None
          end
      | None =>
          if us && prev && Ascii.eqb c "_" then
            match l' with
            | c2 :: _ => if is_digit c2 then span_digits us false l' else None
            | [] => None
            end
          else Some ([], l)
      end
  end.

Definition digits_value (ds : list Z) : Z :=
  fold_left (fun acc d => 10 * acc + d) ds 0.

Definition split_sign (l : list ascii) : bool * list ascii :=
  match l with
  | c :: l' =>
      if Ascii.eqb c "-" then (true, l')
      else if Ascii.eqb c "+" then (false, l')
      else (false, l)
  | [] => (false, [])
  end.

(** The white space that [int()] and [float()] skip around a number:
    the white space of C and, above code point 127, the Unicode
    spaces.  The separators U+001C to U+001F, which [str.strip]
    removes, are not among them. *)
Definition is_number_space (c : ascii) : bool :=
  let n := code c in
  ((9 <=? n) && (n <=? 13)) || (n =? 32) || (n =? 133) || (n =? 160).

Fixpoint lstrip_number (l : list ascii) : list ascii :=
  match l with
  | c :: l' => if is_number_space c then lstrip_number l' else l
  | [] => []
  end.

Definition strip_number (l : list ascii) : list ascii :=
  rev (lstrip_number (rev (lstrip_number l))).

(** The interpreter's default limit on the digits of a decimal integer
    literal ([sys.int_max_str_digits]). *)
Definition int_max_str_digits : nat := 4300.

(** [int(s)] in base 10: surrounding white space, an optional sign,
    digits with single underscores between them, and no more digits
    than the limit. *)
Definition parse_int (s : string) : result Z :=
  let '(neg, l) := split_sign (strip_number (chars s)) in
  match span_digits true false l with
  | Some (d :: ds, []) =>
      if (int_max_str_digits <? length (d :: ds))%nat then Raise ValueError
      else
        let v := digits_value (d :: ds) in
        Ok (if neg then - v else v)
  | _ => Raise ValueError
  end.

(** [map(int, parts)] unpacked into exactly two targets. *)
Definition parse_int_pair (parts : list string) : result (Z * Z) :=
  match parts with
  | [a; b] =>
      x <-! parse_int a;
      y <-! parse_int b;
      Ok (x, y)
  | _ => Raise ValueError
  end.

Definition lower_text (l : list ascii) : string := text (map lower_char l).

(** The exponent part [("e"|"E") sign? digits] or nothing. *)
Definition parse_exponent (us : bool) (l : list ascii) : option Z :=
  match l with
  | [] => Some 0
  | c :: l' =>
      if Ascii.eqb (lower_char c) "e" then
        let '(neg, l'') := split_sign l' in
        match span_digits us false l'' with
        | Some (d :: ds, []) =>
            let v := digits_value (d :: ds) in
            Some (if neg then - v else v)
        | _ => None
        end
      else None
  end.

(** A decimal floating-point literal, already stripped:
    [sign? (digits ("." digits?)? | "." digits) exponent?] or
    [sign? ("inf" | "infinity" | "nan")]; correctly rounded. *)
Definition parse_float_chars (us : bool) (l0 : list ascii) : result F.float :=
  let '(neg, l) := split_sign l0 in
  let w := lower_text l in
  if String.eqb w "inf" || String.eqb w "infinity" then Ok (S754_infinity neg)
  else if String.eqb w "nan" then Ok S754_nan
  else
    match span_digits us false l with
    | None => Raise ValueError
    | Some (ip, r) =>
        let '(fp, r') :=
          match r with
          | c :: r1 =>
              if Ascii.eqb c "." then
                match span_digits us false r1 with
                | Some (fp, r2) => (Some fp, r2)
                | None => (None, r1)
                end
              else (Some [], r)
          | [] => (Some [], [])
          end in
        match fp with
        | None => Raise ValueError
        | Some fp =>
            match (ip ++ fp)%list with
            | [] => Raise ValueError
            | ds =>
                match parse_exponent us r' with
                | None => Raise ValueError
                | Some ex =>
                    Ok (F.of_decimal neg (digits_value ds)
                          (ex - Z.of_nat (length fp)))
                end
            end
        end
    end.

(** [float(s)] *)
Definition parse_float (s : string) : result F.float :=
  parse_float_chars true (strip_number (chars s)).

(** The conversion of one token of a numeric text table. *)
Definition parse_token (s : string) : result F.float :=
  parse_float_chars false (chars s).

(** *** [repr] of a float: the shortest decimal that reads back *)

Fixpoint ndigits10 (fuel : nat) (n : Z) : Z :=
  match fuel with
  | O => 0
  | S fuel' => if n <? 10 then 1 else 1 + ndigits10 fuel' (n / 10)
  end.

(** Least [j >= start] with [den <= num * 10 ^ (j + 1)]. *)
Fixpoint first_scale (fuel : nat) (num den j : Z) : Z :=
  match fuel with
  | O => j
  | S fuel' =>
      if den <=? num * 10 ^ (j + 1) then j
      else first_scale fuel' num den (j + 1)
  end.

(** The [k] with [10 ^ (k - 1) <= num / den < 10 ^ k]. *)
Definition decimal_point (num den : Z) : Z :=
  if den <=? num then
    let q := num / den in ndigits10 (S (Z.to_nat (Z.log2 q))) q
  else - first_scale 400 num den 0.

(** The [n]-digit decimals next to [num / den], nearest first. *)
Definition candidates (num den k n : Z) : list Z :=
  let sn := if 0 <=? n - k then num * 10 ^ (n - k) else num in
  let sd := if 0 <=? n - k then den else den * 10 ^ (k - n) in
  let lo := sn / sd in
  let r := sn mod sd in
  match 2 * r ?= sd with
  | Lt => [lo; lo + 1]
  | Gt => [lo + 1; lo]
  | Eq => if Z.even lo then [lo; lo + 1] else [lo + 1; lo]
  end.

Fixpoint shortest (fuel : nat) (x : F.float) (num den k n : Z) : Z * Z :=
  match fuel with
  | O => (0, 0)
  | S fuel' =>
      match filter (fun c => F.eqb (F.of_decimal false c (k - n)) x)
                   (candidates num den k n) with
      | c :: _ => (c, k - n)
      | [] => shortest fuel' x num den k (n + 1)
      end
  end.

Fixpoint strip_zeros_rev (l : list ascii) : list ascii :=
  match l with
  | c :: l' => if Ascii.eqb c "0" then strip_zeros_rev l' else l
  | [] => []
  end.

Definition zeros (n : Z) : list ascii := repeat "0"%char (Z.to_nat n).

(** Layout of the digits [ds] of [0.ds * 10 ^ decpt]: fixed point with
    at least one fractional digit, or exponent form when
    [decpt <= -4] or [decpt > 16]. *)
Definition layout (ds : list ascii) (decpt : Z) : list ascii :=
  let nd := Z.of_nat (length ds) in
  if (decpt <=? -4) || (16 <? decpt) then
    let ex := decpt - 1 in
    let exd := nat_digits (Z.abs ex) in
    let exd := if Z.abs ex <? 10 then "0"%char :: exd else exd in
    let mant :=
      match ds with
      | [d] => [d]
      | d :: rest => d :: "."%char :: rest
      | [] => []
      end in
    (mant ++ ["e"%char; if ex <? 0 then "-"%char else "+"%char] ++ exd)%list
  else if decpt <=? 0 then
    (["0"%char; "."%char] ++ zeros (- decpt) ++ ds)%list
  else if nd <=? decpt then
    (ds ++ zeros (decpt - nd) ++ ["."%char; "0"%char])%list
  else
    (take (Z.to_nat decpt) ds ++ ["."%char] ++ drop (Z.to_nat decpt) ds)%list.

Definition repr_finite (x : F.float) (m : positive) (e : Z) : string :=
  let num := if 0 <=? e then Z.shiftl (Zpos m) e else Zpos m in
  let den := if 0 <=? e then 1 else 2 ^ (- e) in
  let k := decimal_point num den in
  let '(c, p) := shortest 17 x num den k 1 in
  let ds := nat_digits c in
  let decpt := Z.of_nat (length ds) + p in
  text (layout (rev (strip_zeros_rev (rev ds))) decpt).

(** [repr(x)], which is also what an f-string prints for a float. *)
Definition float_repr (x : F.float) : string :=
  match x with
  | S754_nan => "nan"
  | S754_infinity s => if s then "-inf" else "inf"
  | S754_zero s => if s then "-0.0" else "0.0"
  | S754_finite s m e =>
      (if s then "-" else "") +:+ repr_finite (S754_finite false m e) m e
  end.

End Num.

Import Num.

(** ** Paths and the file store *)

Module Path.

Import Text.

(** [os.path.basename] *)
Definition basename (p : string) : string :=
  text (List.last (split_chars "/" (chars p)) []).

Fixpoint all_dots (l : list ascii) : bool :=
  match l with
  | c :: l' => Ascii.eqb c "." && all_dots l'
  | [] => true
  end.

(** [os.path.splitext] on a name without directory part: the extension
    starts at the last dot, unless only dots come before it. *)
Definition splitext (name : string) : string * string :=
  match rev (split_chars "." (chars name)) with
  | ext :: before =>
      let root := List.concat (map (fun part => part ++ ["."%char])%list (rev before)) in
      if all_dots root then (name, "")
      else (text (removelast root), text ("."%char :: ext))
  | [] => (name, "")
  end.

(** [os.path.join] of two components. *)
Definition join (a b : string) : string :=
  if is_prefix ["/"%char] (chars b) then b
  else if String.eqb a "" || endswith a "/" then a +:+ b
  else a +:+ "/" +:+ b.

End Path.

(** The file store: path to contents. *)
Abbreviation store := (gmap string string).

(** [open(path, 'r').read()] *)
Definition read_file (fs : store) (path : string) : result string :=
  match fs !! path with
  | Some content => Ok content
  | None => Raise FileNotFoundError
  end.

(** [os.path.exists(path)] for a file. *)
Definition exists_file (fs : store) (path : string) : bool :=
  bool_decide (is_Some (fs !! path)).

(** [os.makedirs(path, exist_ok=True)].  The empty path always raises;
    for every other path the outcome depends on the directory tree and
    on the permissions, which the store does not hold: the environment
    [makedirs_env] answers with success or with the exception. *)
Definition makedirs (makedirs_env : string -> result unit) (path : string)
  : result unit :=
  if String.eqb path "" then Raise FileNotFoundError else makedirs_env path.

(** [os.remove(path)] of an existing file: the environment
    [remove_env] answers with the exception when the removal fails. *)
Definition os_remove (remove_env : string -> option exn) (fs : store)
  (path : string) : result store :=
  match remove_env path with
  | Some e => Raise e
  | None => Ok (delete path fs)
  end.

(** ** [minutiae_extraction.py]: conversion of detector files *)

(** The text the writer appends to each record: the source spells it
    with a doubled backslash, so it is the two characters backslash
    and [n], not a line feed. *)
Definition record_end : string := "\n".

Definition c11_25 : F.float := F.of_decimal false 1125 (-2).

(** [(90 - (11.25 * direction_unit)) % 360] *)
Definition orientation_deg (direction_unit : Z) : result F.float :=
  du <-! F.of_int direction_unit;
  F.py_mod (F.sub (F.of_Z 90) (F.mul c11_25 du)) (F.of_Z 360).

Definition field (i : nat) (fields : list string) : string := nth i fields "".

(** The body of the inner [try] for one stripped, non-empty line:
    [Ok None] is [continue], [Ok (Some d)] appends [d]. *)
Definition parse_record (quality_threshold : F.float) (line : string)
  : result (option string) :=
  let fields := Text.split ":" line in
  if (length fields <? 5)%nat then Ok None
  else
    xy <-! parse_int_pair (Text.split "," (field 1 fields));
    direction_unit <-! parse_int (field 2 fields);
    orientation <-! orientation_deg direction_unit;
    quality <-! parse_float (field 3 fields);
    if F.ltb quality quality_threshold then Ok None
    else
      let mn_type := Text.strip (field 4 fields) in
      let minutiae_type := if Text.contains "BIF" mn_type then 1 else 2 in
      Ok (Some (Text.of_int minutiae_type +:+ " " +:+ Text.of_int (fst xy)
                +:+ " " +:+ Text.of_int (snd xy)
                +:+ " " +:+ float_repr orientation)).

(** One pass of the loop body on a raw line: strip it, skip it when
    blank, and run the inner [try], whose handler turns a [ValueError]
    or an [IndexError] into [continue]. *)
Definition convert_line (quality_threshold : F.float) (line : string)
  : result (option string) :=
  let line := Text.strip line in
  if String.eqb line "" then Ok None
  else
    match parse_record quality_threshold line with
    | Raise e => if is_value_or_index e then Ok None else Raise e
    | r => r
    end.

(** The loop over the record lines, accumulating [minutiae_data]. *)
Fixpoint collect_records (quality_threshold : F.float) (lines : list string)
  (minutiae_data : list string) : result (list string) :=
  match lines with
  | [] => Ok minutiae_data
  | line :: rest =>
      match convert_line quality_threshold line with
      | Ok (Some d) =>
          collect_records quality_threshold rest (minutiae_data ++ [d])%list
      | Ok None => collect_records quality_threshold rest minutiae_data
      | Raise e => Raise e
      end
  end.

Definition output_path (min_file_path output_dir : string) : string :=
  let file_name := fst (Path.splitext (Path.basename min_file_path)) in
  Path.join output_dir (file_name +:+ ".txt").

(** What is written to the output file. *)
Definition file_text (minutiae_data : list string) : string :=
  String.concat "" (map (fun data => data +:+ record_end) minutiae_data).

Section Conversion.

(** What the environment answers when a directory is created. *)
Variable makedirs_env : string -> result unit.

Definition convert_min_to_txt_body (fs : store)
  (min_file_path output_dir : string) (quality_threshold : F.float)
  : result (store * option string) :=
  content <-! read_file fs min_file_path;
  let lines := Text.readlines content in
  let output_file_path := output_path min_file_path output_dir in
  made <-! makedirs makedirs_env output_dir;
  minutiae_data <-! collect_records quality_threshold (drop 3 lines) [];
  if (0 <? length minutiae_data)%nat then
    Ok (<[output_file_path := file_text minutiae_data]> fs,
        Some output_file_path)
  else Ok (fs, None).

(** Returns the store after the call and the path of the file written,
    or [None]. *)
Definition convert_min_to_txt (fs : store)
  (min_file_path output_dir : string) (quality_threshold : F.float)
  : store * option string :=
  try_except
    (convert_min_to_txt_body fs min_file_path output_dir quality_threshold)
    (fun _ => (fs, None)).

(** [sum(1 for line in f if line.strip())] *)
Definition line_count (content : string) : Z :=
  Z.of_nat (length (filter (fun line => negb (String.eqb (Text.strip line) ""))
                           (Text.readlines content))).

(** The files of a directory walk, [(root, files)] per directory, that
    satisfy [keep]. *)
Definition walk_files (keep : string -> bool)
  (walk : list (string * list string)) : list string :=
  flat_map (fun d => map (Path.join (fst d)) (filter keep (snd d))) walk.

Definition find_min_files (walk : list (string * list string)) : list string :=
  walk_files (fun file => Text.endswith file ".min") walk.

(** Batch state: the store and the counters [successful], [total]. *)
Definition batch : Type := store * Z * Z.

(** One iteration of the conversion loop.  The file removed here was
    written by the same iteration, so its removal is taken to succeed;
    were it to fail, the handler of the iteration would catch it. *)
Definition convert_step (output_dir : string) (quality_threshold : F.float)
  (min_minutiae_count : Z) (st : batch) (min_file_path : string) : batch :=
  let '(fs, successful, total) := st in
  let total := total + 1 in
  let '(fs1, txt_file) :=
    convert_min_to_txt fs min_file_path output_dir quality_threshold in
  match txt_file with
  | Some txt =>
      if String.eqb txt "" then (fs1, successful, total)
      else
        match read_file fs1 txt with
        | Ok content =>
            if min_minutiae_count <=? line_count content
            then (fs1, successful + 1, total)
            else (delete txt fs1, successful, total)
        | Raise _ => (fs1, successful, total)
        end
  | None => (fs1, successful, total)
  end.

Definition convert_loop (output_dir : string) (quality_threshold : F.float)
  (min_minutiae_count : Z) (fs : store) (min_files : list string) : batch :=
  fold_left (convert_step output_dir quality_threshold min_minutiae_count)
            min_files (fs, 0, 0).

(** The store after the run and the pair (successful, total); the
    creation of the output directory, before the loop, is not inside
    any [try]. *)
Definition convert_all_minutiae_files (fs : store)
  (walk : list (string * list string)) (output_dir : string)
  (quality_threshold : F.float) (min_minutiae_count : Z)
  : result (store * (Z * Z)) :=
  made <-! makedirs makedirs_env output_dir;
  let '(fs', successful, total) :=
    convert_loop output_dir quality_threshold min_minutiae_count fs
                 (find_min_files walk) in
  Ok (fs', (successful, total)).

End Conversion.

(** *** The reader of canonical files *)

(** A numeric array of dimension 0, 1 or 2. *)
Inductive ndarray : Type :=
  | Arr0 (x : F.float)
  | Arr1 (v : list F.float)
  | Arr2 (nrows ncols : nat) (rows : list (list F.float)).

Definition ndim (a : ndarray) : nat :=
  match a with
  | Arr0 _ => 0
  | Arr1 _ => 1
  | Arr2 _ _ _ => 2
  end.

Definition shape (a : ndarray) : list nat :=
  match a with
  | Arr0 _ => []
  | Arr1 v => [length v]
  | Arr2 n c _ => [n; c]
  end.

(** Every row of a 2-D array has the declared width, and there are as
    many rows as declared. *)
Definition well_shaped (a : ndarray) : Prop :=
  match a with
  | Arr2 n c rows => length rows = n /\ Forall (fun r => length r = c) rows
  | _ => True
  end.

Fixpoint before_comment (l : list ascii) : list ascii :=
  match l with
  | c :: l' => if Ascii.eqb c "#" then [] else c :: before_comment l'
  | [] => []
  end.

Fixpoint convert_tokens (tokens : list string) : result (list F.float) :=
  match tokens with
  | [] => Ok []
  | t :: rest =>
      x <-! parse_token t;
      xs <-! convert_tokens rest;
      Ok (x :: xs)
  end.

(** The rows of a text table: comments and blank lines are dropped,
    every other line gives one row of numbers, and all rows must be as
    wide as the first. *)
Fixpoint table_rows (width : option nat) (lines : list string)
  : result (list (list F.float)) :=
  match lines with
  | [] => Ok []
  | line :: rest =>
      match Text.words (Text.text (before_comment (Text.chars line))) with
      | [] => table_rows width rest
      | tokens =>
          row <-! convert_tokens tokens;
          if match width with
             | Some w => (length row =? w)%nat
             | None => true
             end
          then
            rows <-! table_rows (Some (length row)) rest;
            Ok (row :: rows)
          else Raise ValueError
      end
  end.

(** [np.loadtxt(file_path)]: the table with its axes of length one
    removed; an input without data is the empty vector. *)
Definition loadtxt (fs : store) (file_path : string) : result ndarray :=
  content <-! read_file fs file_path;
  rows <-! table_rows None (Text.readlines content);
  match rows with
  | [] => Ok (Arr1 [])
  | [[x]] => Ok (Arr0 x)
  | [row] => Ok (Arr1 row)
  | first :: _ =>
      match first with
      | [_] => Ok (Arr1 (map (fun r => nth 0 r S754_nan) rows))
      | _ => Ok (Arr2 (length rows) (length first) rows)
      end
  end.

(** [np.pi] *)
Definition np_pi : F.float := S754_finite false 7074237752028440 (-51).

(** [x * np.pi / 180] *)
Definition to_radians (x : F.float) : F.float :=
  F.div (F.mul x np_pi) (F.of_Z 180).

Definition parse_minutiae_file_body (fs : store) (file_path : string)
  : result ndarray :=
  data <-! loadtxt fs file_path;
  let data :=
    match data with
    | Arr1 v => Arr2 1 (length v) [v]
    | _ => data
    end in
  match data with
  | Arr2 n c rows =>
      if (3 <? c)%nat then Ok (Arr2 n c (map (alter to_radians 3%nat) rows))
      else Raise IndexError
  | _ => Raise IndexError
  end.

(** The rows of [v.reshape(r, c)]. *)
Fixpoint chunks (c r : nat) (v : list F.float) : list (list F.float) :=
  match r with
  | O => []
  | S r' => take c v :: chunks c r' (drop c v)
  end.

(** [np.array(v).reshape(r, c)] *)
Definition reshape (v : list F.float) (r c : nat) : result ndarray :=
  if (length v =? r * c)%nat then Ok (Arr2 r c (chunks c r v))
  else Raise ValueError.

(** [try: ... except Exception: return np.array([]).reshape(0, 4)] *)
Definition parse_minutiae_file (fs : store) (file_path : string)
  : result ndarray :=
  catch (parse_minutiae_file_body fs file_path) (fun _ => reshape [] 0 4).

(** ** [template_rendering.py] *)

(** A single-channel raster, row by row. *)
Abbreviation grid A := (list (list A)).

(** [len(a)] *)
Definition len (a : ndarray) : result nat :=
  match a with
  | Arr0 _ => Raise TypeError
  | Arr1 v => Ok (length v)
  | Arr2 n _ _ => Ok n
  end.

(** [a[:, j]] *)
Definition column (j : nat) (a : ndarray) : result (list F.float) :=
  match a with
  | Arr2 _ c rows =>
      if (j <? c)%nat then Ok (map (fun r => nth j r S754_nan) rows)
      else Raise IndexError
  | _ => Raise IndexError
  end.

(** [np.zeros(target_size, dtype=np.uint8)] *)
Definition zeros (target_size : Z * Z) : result (grid Z) :=
  if (fst target_size <? 0) || (snd target_size <? 0) then Raise ValueError
  else Ok (repeat (repeat 0 (Z.to_nat (snd target_size)))
                  (Z.to_nat (fst target_size))).

(** [a.clip(lo, hi)], elementwise [minimum(maximum(a, lo), hi)]. *)
Definition clip (v lo hi : Z) : Z := Z.min (Z.max v lo) hi.

(** An index into an axis of length [n]: negative indices count from
    the end, anything else out of range raises. *)
Definition axis_index (i : Z) (n : nat) : result nat :=
  if (0 <=? i) && (i <? Z.of_nat n) then Ok (Z.to_nat i)
  else if (- Z.of_nat n <=? i) && (i <? 0) then Ok (Z.to_nat (i + Z.of_nat n))
  else Raise IndexError.

(** [g[y, x] = v] *)
Definition set_pixel {A : Type} (g : grid A) (y x : Z) (v : A)
  : result (grid A) :=
  i <-! axis_index y (length g);
  match g !! i with
  | Some row =>
      j <-! axis_index x (length row);
      Ok (<[i := <[j := v]> row]> g)
  | None => Raise IndexError
  end.

(** [g[ys, xs] = v] for index arrays given as a list of pairs. *)
Fixpoint set_pixels {A : Type} (g : grid A) (coords : list (Z * Z)) (v : A)
  : result (grid A) :=
  match coords with
  | [] => Ok g
  | (y, x) :: rest =>
      g' <-! set_pixel g y x v;
      set_pixels g' rest v
  end.

(** The scaled, truncated and clipped coordinate of one value. *)
Definition scaled_coord (v scale : F.float) (target_dim : Z) : Z :=
  clip (F.astype_int32 (F.mul v scale)) 0 (target_dim - 1).

Definition create_minutiae_map (minutiae : ndarray)
  (orig_size target_size : Z * Z) : result (grid Z) :=
  n <-! len minutiae;
  if (n =? 0)%nat then zeros target_size
  else
    scale_y <-! F.int_truediv (fst target_size) (fst orig_size);
    scale_x <-! F.int_truediv (snd target_size) (snd orig_size);
    minutiae_map <-! zeros target_size;
    xs <-! column 1 minutiae;
    let x_coords := map (fun v => scaled_coord v scale_x (snd target_size)) xs in
    ys <-! column 2 minutiae;
    let y_coords := map (fun v => scaled_coord v scale_y (fst target_size)) ys in
    set_pixels minutiae_map (zip y_coords x_coords) 255.

(** Rendering parameters ([config.py]). *)
Record Config : Type := {
  ORIENTATION_LINE_LENGTH : Z;
  MINUTIAE_SIGMA : Z;
  ORIENTATION_SIGMA : Z;
  MINUTIAE_GAIN : Z;
  ORIENTATION_GAIN : Z;
  SUPPORTED_IMAGE_FORMATS : list string
}.

Definition get_default_config : Config := {|
  ORIENTATION_LINE_LENGTH := 15;
  MINUTIAE_SIGMA := 9;
  ORIENTATION_SIGMA := 3;
  MINUTIAE_GAIN := 60;
  ORIENTATION_GAIN := 3;
  SUPPORTED_IMAGE_FORMATS := [".bmp"; ".jpg"; ".jpeg"; ".png"; ".tif"; ".tiff"]
|}.

(** Single precision, the element type of the blurred fields. *)
Module F32.

Definition prec : Z := 24.
Definition emax : Z := 128.
Definition of_Z (n : Z) : F.float := binary_normalize prec emax n 0 false.
Definition mul : F.float -> F.float -> F.float := SFmul prec emax.
Definition add : F.float -> F.float -> F.float := SFadd prec emax.

(** [np.clip(x, 0, 255)]: a NaN stays a NaN. *)
Definition clip_0_255 (x : F.float) : F.float :=
  let lo := if SFltb x (of_Z 0) then of_Z 0 else x in
  if SFltb (of_Z 255) lo then of_Z 255 else lo.

(** The cast to [uint8] of a value already clipped. *)
Definition astype_uint8 (x : F.float) : Z := default 0 (F.trunc x).

End F32.

Definition grid_map {A B : Type} (f : A -> B) (g : grid A) : grid B :=
  map (map f) g.

Definition grid_zip {A B C : Type} (f : A -> B -> C) (g : grid A) (h : grid B)
  : grid C :=
  zip_with (zip_with f) g h.

Section Rendering.

(** The numeric library: cosine, sine, the pixels of a line segment
    between two points in (row, column) order, and the Gaussian
    filter of a single-precision field. *)
Variable np_cos np_sin : F.float -> F.float.
Variable line_nd : Z * Z -> Z * Z -> result (list (Z * Z)).
Variable gaussian_filter : grid F.float -> F.float -> grid F.float.

(** One orientation segment; what the inner [try] computes. *)
Definition draw_line (orientation_map : grid Z) (target_size : Z * Z)
  (y_scaled x_scaled : Z) (y2 x2 : F.float) : result (grid Z) :=
  y2i <-! F.to_int y2;
  x2i <-! F.to_int x2;
  line_coords <-! line_nd (y_scaled, x_scaled) (y2i, x2i);
  let valid :=
    filter (fun p => (0 <=? fst p) && (fst p <? fst target_size)
                     && (0 <=? snd p) && (snd p <? snd target_size))
           line_coords in
  set_pixels orientation_map valid 255.

Fixpoint draw_lines (orientation_map : grid Z) (target_size : Z * Z)
  (scale_y scale_x : F.float) (scaled_line_length : Z)
  (points : list (F.float * F.float * F.float)) : result (grid Z) :=
  match points with
  | [] => Ok orientation_map
  | (x, y, orientation) :: rest =>
      x_scaled <-! F.to_int (F.mul x scale_x);
      y_scaled <-! F.to_int (F.mul y scale_y);
      len_f <-! F.of_int scaled_line_length;
      xs_f <-! F.of_int x_scaled;
      ys_f <-! F.of_int y_scaled;
      let x2 := F.add xs_f (F.mul len_f (np_cos orientation)) in
      let y2 := F.sub ys_f (F.mul len_f (np_sin orientation)) in
      let orientation_map :=
        try_except
          (draw_line orientation_map target_size y_scaled x_scaled y2 x2)
          (fun _ => orientation_map) in
      draw_lines orientation_map target_size scale_y scale_x
                 scaled_line_length rest
  end.

Definition create_orientation_map (minutiae : ndarray)
  (orig_size target_size : Z * Z) (line_length : Z) : result (grid Z) :=
  n <-! len minutiae;
  if (n =? 0)%nat then zeros target_size
  else
    scale_y <-! F.int_truediv (fst target_size) (fst orig_size);
    scale_x <-! F.int_truediv (snd target_size) (snd orig_size);
    ll <-! F.of_int line_length;
    scaled_line_length <-! F.to_int (F.mul ll scale_x);
    orientation_map <-! zeros target_size;
    xs <-! column 1 minutiae;
    ys <-! column 2 minutiae;
    os <-! column 3 minutiae;
    draw_lines orientation_map target_size scale_y scale_x
               scaled_line_length (zip (zip xs ys) os).

(** [minutiae[np.isin(minutiae[:, 0], channel_types)]] *)
Definition filter_types (channel_types : list Z) (minutiae : ndarray)
  : result ndarray :=
  match minutiae with
  | Arr2 _ c rows =>
      if (0 <? c)%nat then
        let kept :=
          filter (fun r => existsb (fun t => SFeqb (nth 0 r S754_nan) (F.of_Z t))
                                   channel_types) rows in
        Ok (Arr2 (length kept) c kept)
      else Raise IndexError
  | _ => Raise IndexError
  end.

(** A blurred field times its gain. *)
Definition blurred (g : grid Z) (sigma gain : Z) : grid F.float :=
  grid_map (fun v => F32.mul v (F32.of_Z gain))
    (gaussian_filter (grid_map F32.of_Z g)
                     (SFsqrt F.prec F.emax (F.of_Z sigma))).

Definition render_channel (channel_types : list Z) (minutiae : ndarray)
  (orig_size target_size : Z * Z) (config : Config) : result (grid Z) :=
  if decide (channel_types = [-1]) then zeros target_size
  else
    filtered_minutiae <-! filter_types channel_types minutiae;
    n <-! len filtered_minutiae;
    if (n =? 0)%nat then zeros target_size
    else
      minutiae_map <-!
        create_minutiae_map filtered_minutiae orig_size target_size;
      orientation_map <-!
        create_orientation_map filtered_minutiae orig_size target_size
          (ORIENTATION_LINE_LENGTH config);
      let minutiae_blurred :=
        blurred minutiae_map (MINUTIAE_SIGMA config) (MINUTIAE_GAIN config) in
      let orientation_blurred :=
        blurred orientation_map (ORIENTATION_SIGMA config)
                (ORIENTATION_GAIN config) in
      Ok (grid_map (fun v => F32.astype_uint8 (F32.clip_0_255 v))
                   (grid_zip F32.add minutiae_blurred orientation_blurred)).

Fixpoint render_channels (type_channels : list (list Z)) (minutiae : ndarray)
  (orig_size target_size : Z * Z) (config : Config)
  : result (list (grid Z)) :=
  match type_channels with
  | [] => Ok []
  | channel_types :: rest =>
      channel <-!
        render_channel channel_types minutiae orig_size target_size config;
      channels <-!
        render_channels rest minutiae orig_size target_size config;
      Ok (channel :: channels)
  end.

(** The template as the list of its channels (red, green, blue). *)
Definition create_template_image (minutiae : ndarray)
  (orig_size target_size : Z * Z) (include_singular : bool)
  (config : Config) : result (list (grid Z)) :=
  let type_channels :=
    if include_singular then [[1]; [2]; [4; 5]] else [[1]; [2]; [-1]] in
  render_channels type_channels minutiae orig_size target_size config.

Definition create_template_from_file (fs : store) (minutiae_file : string)
  (target_size : Z * Z) (orig_size : option (Z * Z))
  (include_singular : bool) (config : Config) : option (list (grid Z)) :=
  try_except
    (minutiae <-! parse_minutiae_file fs minutiae_file;
     n <-! len minutiae;
     if (n =? 0)%nat then Ok None
     else
       let orig_size := default target_size orig_size in
       template_image <-!
         create_template_image minutiae orig_size target_size
                               include_singular config;
       Ok (Some template_image))
    (fun _ => None).

(** [plt.imsave(output_path, template_image)]: the store with the
    image file written, or an exception. *)
Variable imsave : store -> string -> list (grid Z) -> result store.

(** One iteration of the template loop. *)
Definition template_step (minutiae_dir output_dir : string)
  (target_size : Z * Z) (include_singular : bool) (config : Config)
  (st : batch) (filename : string) : batch :=
  let '(fs, successful, total) := st in
  let total := total + 1 in
  let minutiae_file := Path.join minutiae_dir filename in
  match create_template_from_file fs minutiae_file target_size None
                                  include_singular config with
  | Some template_image =>
      let output_filename := fst (Path.splitext filename) +:+ ".png" in
      let output_path := Path.join output_dir output_filename in
      match imsave fs output_path template_image with
      | Ok fs' => (fs', successful + 1, total)
      | Raise _ => (fs, successful, total)
      end
  | None => (fs, successful, total)
  end.

(** What the environment answers when a directory is created. *)
Variable makedirs_env : string -> result unit.

(** [listing] is what [os.listdir(minutiae_dir)] answers: the names,
    or the exception it raises.  The creation of the output directory
    and the listing come before the loop and are not inside any [try]. *)
Definition create_templates_from_folder (fs : store)
  (listing : result (list string))
  (minutiae_dir output_dir : string) (target_size : Z * Z)
  (include_singular : bool) (config : Config) : result (store * (Z * Z)) :=
  made <-! makedirs makedirs_env output_dir;
  names <-! listing;
  let txt_files := filter (fun f => Text.endswith f ".txt") names in
  let '(fs', successful, total) :=
    fold_left (template_step minutiae_dir output_dir target_size
                             include_singular config)
              txt_files (fs, 0, 0) in
  Ok (fs', (successful, total)).

End Rendering.

(** *** Extraction with the external detector *)

Section Extraction.

(** The environment: the creation of a directory and the removal of a
    file the detector left. *)
Variable makedirs_env : string -> result unit.
Variable remove_env : string -> option exn.

(** The [try] block of [call_mindtct] up to its existence test: the
    detector process is started and waited for, and its error output
    is decoded for the log.  The answer is the store that this leaves
    and the exception raised on the way, if any (the process cannot
    be started, its error output is not valid UTF-8): the files the
    detector wrote stay when the exception comes after it ran. *)
Variable run_mindtct : store -> string -> string -> store * option exn.

(** The helper of the package's utilities that splits a path into
    directory, name and extension; its code is not part of the
    sources, so it may answer with an exception. *)
Variable get_file_name_and_ext : string -> result (string * string * string).

Definition call_mindtct (fs : store) (input_file output_prefix : string)
  : store * bool :=
  let '(fs', raised) := run_mindtct fs input_file output_prefix in
  match raised with
  | Some _ => (fs', false)
  | None => (fs', exists_file fs' (output_prefix +:+ ".min"))
  end.

Definition extensions_to_remove : list string :=
  ["dm"; "hcm"; "lcm"; "lfm"; "qm"; "xyt"; "brw"].

(** The clean-up loop: [if os.path.exists(f): os.remove(f)] for each
    extension, outside any [try]. *)
Definition remove_step (output_prefix : string) (fs : store) (ext : string)
  : result store :=
  let file_to_remove := output_prefix +:+ "." +:+ ext in
  if exists_file fs file_to_remove then os_remove remove_env fs file_to_remove
  else Ok fs.

(** The store after the call and the path of the [.min] file, or
    [None]; an exception of the directory creation, of the path helper
    or of a removal leaves the function. *)
Definition extract_minutiae_from_image (fs : store)
  (image_path output_dir : string) (keep_all_files : bool)
  : result (store * option string) :=
  made <-! makedirs makedirs_env output_dir;
  parts <-! get_file_name_and_ext image_path;
  let file_name := snd (fst parts) in
  let output_prefix := Path.join output_dir file_name in
  let '(fs1, ok) := call_mindtct fs image_path output_prefix in
  if negb ok then Ok (fs1, None)
  else
    let min_file := output_prefix +:+ ".min" in
    fs2 <-! (if keep_all_files then Ok fs1
             else fold (remove_step output_prefix) extensions_to_remove fs1);
    Ok (fs2, if exists_file fs2 min_file then Some min_file else None).

(** One iteration of the extraction loop; an exception of
    [extract_minutiae_from_image] leaves the loop. *)
Definition extract_step (output_dir : string) (keep_all_files : bool)
  (st : batch) (image_path : string) : result batch :=
  let '(fs, successful, total) := st in
  let total := total + 1 in
  r <-! extract_minutiae_from_image fs image_path output_dir keep_all_files;
  let '(fs', min_file) := r in
  match min_file with
  | Some p => if String.eqb p "" then Ok (fs', successful, total)
              else Ok (fs', successful + 1, total)
  | None => Ok (fs', successful, total)
  end.

Definition find_image_files (config : Config)
  (walk : list (string * list string)) : list string :=
  walk_files
    (fun file => existsb (fun ext => Text.endswith (Text.lower file) ext)
                         (SUPPORTED_IMAGE_FORMATS config))
    walk.

Definition extract_minutiae_from_folder (fs : store)
  (walk : list (string * list string)) (output_dir : string)
  (keep_all_files : bool) (config : Config) : result (store * (Z * Z)) :=
  st <-! fold (extract_step output_dir keep_all_files)
              (find_image_files config walk) (fs, 0, 0);
  let '(fs', successful, total) := st in
  Ok (fs', (successful, total)).

End Extraction.

(** ** Projections of a batch state *)

Definition batch_store (st : batch) : store := fst (fst st).
Definition succeeded (st : batch) : Z := snd (fst st).
Definition total (st : batch) : Z := snd st.

(** [g[y][x]] for indices inside the raster. *)
Definition pixel {A : Type} (g : grid A) (y x : Z) : option A :=
  if (0 <=? y) && (0 <=? x) then
    match g !! Z.to_nat y with
    | Some row => row !! Z.to_nat x
    | None => None
    end
  else None.

(** A raster of [h] rows and [w] columns. *)
Definition rect {A : Type} (g : grid A) (h w : nat) : Prop :=
  length g = h /\ Forall (fun row => length row = w) g.

(** A line of a detector file is malformed when it has fewer than five
    fields, when its coordinate field is not two integers, or when its
    direction or quality field is not a number. *)
Definition malformed (line : string) : Prop :=
  let fields := Text.split ":" (Text.strip line) in
  (length fields < 5)%nat
  \/ (exists e, parse_int_pair (Text.split "," (field 1 fields)) = Raise e)
  \/ (exists e, parse_int (field 2 fields) = Raise e)
  \/ (exists e, parse_float (field 3 fields) = Raise e).

(** Each iteration of a batch loop counts its item and credits at most
    one success. *)
Definition counts_one {X : Type} (step : batch -> X -> batch) : Prop :=
  forall st x,
    total (step st x) = total st + 1
    /\ succeeded st <= succeeded (step st x) <= succeeded st + 1.

(** The same for a loop body that may raise: whenever it returns. *)
Definition counts_one_or_raises {X : Type} (step : batch -> X -> result batch)
  : Prop :=
  forall st x st',
    step st x = Ok st' ->
    total st' = total st + 1
    /\ succeeded st <= succeeded st' <= succeeded st + 1.

(** ** Sample inputs *)

Module Sample.

(** An environment in which every directory with a name can be
    created and every file can be removed. *)
Definition dirs_ok : string -> result unit := fun _ => Ok tt.
Definition removable : string -> option exn := fun _ => None.

Definition line_feed : string := String Text.LF "".

Definition unlines (ls : list string) : string :=
  String.concat "" (map (fun l => l +:+ line_feed) ls).

(** The three header lines of a detector file. *)
Definition header : list string :=
  ["Image (w,h) 256 256"; ""; "2 Minutiae Detected"].

(** The threshold [0.0]. *)
Definition no_threshold : F.float := S754_zero false.

(** A detector file with one record, quality before type as the
    detector prints it. *)
Definition one_record : string :=
  unlines (header ++ ["   0 :  10,  20 :  0 : 0.9 : BIF : APP"])%list.

(** The two records of the end-to-end scenario as the scenario writes
    them: type marker in the fourth field, quality in the fifth. *)
Definition scenario_as_written : string :=
  unlines (header ++ ["id:10,20:0:TYP_BIF:0.9"; "id:30,40:8:TYP_OTH:0.9"])%list.

(** The same two records with the quality in the fourth field and the
    type marker in the fifth. *)
Definition scenario_quality_first : string :=
  unlines (header ++ ["id:10,20:0:0.9:TYP_BIF"; "id:30,40:8:0.9:TYP_OTH"])%list.

(** A decimal integer of 310 digits, above the binary64 range. *)
Definition huge_direction : string :=
  Text.text (repeat "9"%char 310).

(** A well-formed record followed by a record whose quality is not a
    number and whose direction is [huge_direction]. *)
Definition good_then_bad : string :=
  unlines (header ++ ["1:10,20:0:0.9:BIF";
                      "2:1,2:" +:+ huge_direction +:+ ":oops:BIF"])%list.

Definition good_only : string :=
  unlines (header ++ ["1:10,20:0:0.9:BIF"])%list.

(** A detector file without any usable record. *)
Definition no_records : string :=
  unlines (header ++ [""; "1:2:3"; "a:b,c:d:e:f"])%list.

Definition in_store (content : string) : store :=
  {[ "in/scan.min" := content ]}.



(** A canonical file holding one record, ended by a line feed. *)
Definition canonical_one : store :=
  {[ "out/scan.txt" := unlines ["1 10 20 90.0"] ]}.

(** One point at x = 3, y = 1 of type 1. *)
Definition point_3_1 : ndarray :=
  Arr2 1 4 [[F.of_Z 1; F.of_Z 3; F.of_Z 1; F.of_Z 0]].

End Sample.

(** ** The position the specification names *)

Module Spec.

(** The integer nearest to [num / den] (ties to even), [den > 0]. *)
Definition round_div (num den : Z) : Z :=
  let q := num / den in
  let r := num mod den in
  match 2 * r ?= den with
  | Lt => q
  | Gt => q + 1
  | Eq => if Z.even q then q else q + 1
  end.

(** [round(v * target_dim / orig_dim)] clipped to [0, target_dim - 1]. *)
Definition rounded_coord (v orig_dim target_dim : Z) : Z :=
  clip (round_div (v * target_dim) orig_dim) 0 (target_dim - 1).

(** The angle [n / 4] degrees as a binary64 number. *)
Definition quarter_degrees (n : Z) : F.float :=
  binary_normalize F.prec F.emax n (-2) false.

(** [(90 - 11.25 * u) mod 360] in exact arithmetic, in degrees. *)
Definition exact_orientation (u : Z) : F.float :=
  quarter_degrees ((360 - 45 * u) mod 1440).

End Spec.


(** ** Character classes of the written text *)

(** A character that ends a line when a file is read in text mode. *)
Definition is_eol (c : ascii) : bool :=
  Ascii.eqb c Text.LF || Ascii.eqb c Text.CR.

Definition in_chars (s : string) (c : ascii) : bool :=
  existsb (Ascii.eqb c) (Text.chars s).

(** The characters of a canonical record: digits, the separating
    space, and what the printing of a float adds. *)
Definition record_char (c : ascii) : bool :=
  Text.is_digit c || in_chars " -.+einfa" c.

(** The characters of a written file: those of its records and the
    backslash of the record end. *)
Definition file_char (c : ascii) : bool :=
  record_char c || in_chars "\" c.

(** The characters a floating-point literal can hold. *)
Definition float_char (c : ascii) : bool :=
  Text.is_digit c || in_chars "+-._eEinfatyINFATY" c.

(** ** [template_rendering.py]: the type of a row *)

(** [np.isin(row[0], channel_types)] *)
Definition isin (channel_types : list Z) (row : list F.float) : bool :=
  existsb (fun t => SFeqb (nth 0 row S754_nan) (F.of_Z t)) channel_types.


(** A canonical file whose only record has a type that is neither 1
    nor 2. *)
Definition unknown_type_file : store :=
  {[ "out/scan.txt" := Sample.unlines ["7 10 20 90.0"] ]}.

(** A raster of the target size in which every pixel is 0, or is 255
    and a sample of a segment that the line routine returned. *)
Definition segments_only
  (line_nd : Z * Z -> Z * Z -> result (list (Z * Z)))
  (target_size : Z * Z) (g : grid Z) : Prop :=
  rect g (Z.to_nat (fst target_size)) (Z.to_nat (snd target_size))
  /\ forall y x v,
       pixel g y x = Some v ->
       v = 0
       \/ (v = 255
           /\ exists a b coords,
                line_nd a b = Ok coords /\ (y, x) ∈ coords).

(** A text file holding one number per line. *)
Definition single_column_file : store :=
  {[ "out/scan.txt" := Sample.unlines ["1"; "20"; "30"; "90.0"] ]}.

(** ** [__init__.py]: the pipeline *)

(** A value of a statistics dictionary: an [int] or a [float]. *)
Inductive stat : Type :=
  | SInt (n : Z)
  | SFloat (x : F.float).

(** [a / b if b > 0 else 0] *)
Definition rate (a b : Z) : result stat :=
  if 0 <? b then x <-! F.int_truediv a b; Ok (SFloat x) else Ok (SInt 0).

Section Pipeline.

(** The environment, the detector process, the path helper, the
    numeric library and the image writer, as in the sections above. *)
Variable makedirs_env : string -> result unit.
Variable remove_env : string -> option exn.
Variable run_mindtct : store -> string -> string -> store * option exn.
Variable get_file_name_and_ext : string -> result (string * string * string).
Variable np_cos np_sin : F.float -> F.float.
Variable line_nd : Z * Z -> Z * Z -> result (list (Z * Z)).
Variable gaussian_filter : grid F.float -> F.float -> grid F.float.
Variable imsave : store -> string -> list (grid Z) -> result store.

(** The image preprocessing stage of the package, whose code is not
    part of the sources: the store after it ran and its pair
    (processed, total), or the exception it raises. *)
Variable process_folder :
  store -> string -> string -> bool -> bool -> Config
  -> result (store * (Z * Z)).

(** [walk_input] and [walk_minutiae] are what walking the input
    directory and, after the extraction, the minutiae directory
    answers. *)
Definition run_minutiae_extraction_only (config : Config) (fs : store)
  (walk_input walk_minutiae : list (string * list string))
  (output_dir : string) : result (store * gmap string stat) :=
  let minutiae_dir := Path.join output_dir "minutiae" in
  let txt_dir := Path.join output_dir "minutiae_txt" in
  extraction <-!
    extract_minutiae_from_folder makedirs_env remove_env run_mindtct
      get_file_name_and_ext fs walk_input minutiae_dir false config;
  let '(fs1, (extracted_count, total_images)) := extraction in
  conversion <-!
    convert_all_minutiae_files makedirs_env fs1 walk_minutiae txt_dir
      (S754_zero false) 5;
  let '(fs2, (converted_count, _)) := conversion in
  extraction_rate <-! rate extracted_count total_images;
  conversion_rate <-! rate converted_count extracted_count;
  Ok (fs2,
      <["extracted" := SInt extracted_count]>
      (<["converted" := SInt converted_count]>
      (<["total" := SInt total_images]>
      (<["extraction_rate" := extraction_rate]>
      (<["conversion_rate" := conversion_rate]> ∅))))).

(** [listing] is what listing the minutiae directory answers. *)
Definition run_template_creation_only (config : Config) (fs : store)
  (listing : result (list string)) (minutiae_dir output_dir : string)
  (template_size : Z * Z) : result (store * gmap string stat) :=
  creation <-!
    create_templates_from_folder np_cos np_sin line_nd gaussian_filter imsave
      makedirs_env fs listing minutiae_dir output_dir template_size false
      config;
  let '(fs1, (created_count, total_files)) := creation in
  success_rate <-! rate created_count total_files;
  Ok (fs1,
      <["created" := SInt created_count]>
      (<["total" := SInt total_files]>
      (<["success_rate" := success_rate]> ∅))).

Definition run_full_pipeline (config : Config) (fs : store)
  (walk_processed walk_minutiae : list (string * list string))
  (listing_txt : result (list string)) (input_dir output_dir : string)
  (filter_quality enhance : bool) (template_size : Z * Z)
  : result (store * gmap string (gmap string stat)) :=
  let processed_dir := Path.join output_dir "processed" in
  let minutiae_dir := Path.join output_dir "minutiae" in
  let txt_dir := Path.join output_dir "minutiae_txt" in
  let templates_dir := Path.join output_dir "templates" in
  preprocessed <-!
    process_folder fs input_dir processed_dir filter_quality enhance config;
  let '(fs1, (processed_count, total_images)) := preprocessed in
  r1 <-! rate processed_count total_images;
  let preprocessing : gmap string stat :=
    <["processed" := SInt processed_count]>
    (<["total" := SInt total_images]>
    (<["success_rate" := r1]> ∅)) in
  extraction <-!
    extract_minutiae_from_folder makedirs_env remove_env run_mindtct
      get_file_name_and_ext fs1 walk_processed minutiae_dir false config;
  let '(fs2, (minutiae_count, _)) := extraction in
  r2 <-! rate minutiae_count processed_count;
  let minutiae_extraction : gmap string stat :=
    <["extracted" := SInt minutiae_count]> (<["success_rate" := r2]> ∅) in
  conversion <-!
    convert_all_minutiae_files makedirs_env fs2 walk_minutiae txt_dir
      (S754_zero false) 5;
  let '(fs3, (txt_count, _)) := conversion in
  r3 <-! rate txt_count minutiae_count;
  let minutiae_conversion : gmap string stat :=
    <["converted" := SInt txt_count]> (<["success_rate" := r3]> ∅) in
  creation <-!
    create_templates_from_folder np_cos np_sin line_nd gaussian_filter imsave
      makedirs_env fs3 listing_txt txt_dir templates_dir template_size false
      config;
  let '(fs4, (template_count, _)) := creation in
  r4 <-! rate template_count txt_count;
  let template_creation : gmap string stat :=
    <["created" := SInt template_count]> (<["success_rate" := r4]> ∅) in
  r5 <-! rate template_count total_images;
  let overall : gmap string stat :=
    <["input_images" := SInt total_images]>
    (<["final_templates" := SInt template_count]>
    (<["overall_success_rate" := r5]> ∅)) in
  Ok (fs4,
      <["preprocessing" := preprocessing]>
      (<["minutiae_extraction" := minutiae_extraction]>
      (<["minutiae_conversion" := minutiae_conversion]>
      (<["template_creation" := template_creation]>
      (<["overall" := overall]> ∅))))).

End Pipeline.
(** ** Text and its characters *)

Lemma chars_text l : Text.chars (Text.text l) = l.
Proof. apply list_ascii_of_string_of_list_ascii. Qed.

Lemma text_chars s : Text.text (Text.chars s) = s.
Proof. apply string_of_list_ascii_of_string. Qed.

Lemma chars_app s t :
  Text.chars (s +:+ t) = (Text.chars s ++ Text.chars t)%list.
Proof.
  unfold Text.chars. induction s as [|c s IH]; simpl; [done|]. by rewrite IH.
Qed.

(** ** Properties of the batch counters *)

Section Counters.

Context {X : Type}.
Variable step : batch -> X -> batch.
Hypothesis Hstep : counts_one step.

Lemma fold_counts :
  forall items st,
    total (fold_left step items st) = total st + Z.of_nat (length items)
    /\ succeeded st <= succeeded (fold_left step items st)
       <= succeeded st + Z.of_nat (length items).
Proof.
  intros items.
  induction items as [|x items IH]; intros st; simpl.
  - lia.
  - destruct (IH (step st x)) as [Ht Hs].
    destruct (Hstep st x) as [Ht1 Hs1].
    split; lia.
Qed.

Lemma fold_counts_from_zero :
  forall items fs,
    let st := fold_left step items (fs, 0, 0) in
    0 <= succeeded st <= total st
    /\ total st = Z.of_nat (length items).
Proof.
  intros items fs st.
  destruct (fold_counts items (fs, 0, 0)) as [Ht Hs].
  unfold st. cbn [total succeeded fst snd] in *. lia.
Qed.

End Counters.

(** A loop whose body never raises runs to its end. *)
Lemma fold_returns {A B : Type} (step : A -> B -> result A) :
  (forall a b, exists a', step a b = Ok a') ->
  forall items a, exists a', Py.fold step items a = Ok a'.
Proof.
  intros Hok items.
  induction items as [|x items IH]; intros a; cbn [Py.fold].
  - by eexists.
  - destruct (Hok a x) as [a1 ->]. apply IH.
Qed.

Section RaisingCounters.

Context {X : Type}.
Variable step : batch -> X -> result batch.
Hypothesis Hstep : counts_one_or_raises step.

Lemma fold_counts_returned :
  forall items st st',
    Py.fold step items st = Ok st' ->
    total st' = total st + Z.of_nat (length items)
    /\ succeeded st <= succeeded st' <= succeeded st + Z.of_nat (length items).
Proof.
  intros items.
  induction items as [|x items IH]; intros st st'; cbn [Py.fold length].
  - intros [= <-]. lia.
  - destruct (step st x) as [st1|e] eqn:Hx; [|done].
    intros Hrest. destruct (IH _ _ Hrest) as [Ht Hs].
    destruct (Hstep st x st1 Hx) as [Ht1 Hs1].
    split; lia.
Qed.

End RaisingCounters.

Lemma convert_step_counts mk output_dir q n :
  counts_one (convert_step mk output_dir q n).
Proof.
  intros [[fs s] t] f. unfold convert_step.
  destruct (convert_min_to_txt mk fs f output_dir q) as [fs1 [txt|]];
    cbn [total succeeded fst snd]; [|lia].
  destruct (String.eqb txt ""); cbn [total succeeded fst snd]; [lia|].
  destruct (read_file fs1 txt); cbn [total succeeded fst snd]; [|lia].
  destruct (n <=? line_count a); cbn [total succeeded fst snd]; lia.
Qed.

Lemma template_step_counts np_cos np_sin line_nd gaussian_filter imsave
  minutiae_dir output_dir target_size include_singular config :
  counts_one (template_step np_cos np_sin line_nd gaussian_filter imsave
                minutiae_dir output_dir target_size include_singular config).
Proof.
  intros [[fs s] t] f. unfold template_step.
  destruct (create_template_from_file _ _ _ _ _ _ _ _ _ _);
    cbn [total succeeded fst snd]; [|lia].
  destruct (imsave _ _ _); cbn [total succeeded fst snd]; lia.
Qed.

Lemma extract_step_counts mk rm run_mindtct get_file_name_and_ext
  output_dir keep :
  counts_one_or_raises
    (extract_step mk rm run_mindtct get_file_name_and_ext output_dir keep).
Proof.
  intros [[fs s] t] f st'. unfold extract_step.
  destruct (extract_minutiae_from_image _ _ _ _ _ _ _ _) as [[fs' [p|]]|e];
    cbn [Py.bind]; [| |done].
  - destruct (String.eqb p ""); intros [= <-];
      cbn [total succeeded fst snd]; lia.
  - intros [= <-]. cbn [total succeeded fst snd]. lia.
Qed.

(** The clean-up loop runs to its end when no removal fails. *)
Lemma remove_loop_returns rm prefix exts :
  (forall p, rm p = None) ->
  forall fs, exists fs', Py.fold (remove_step rm prefix) exts fs = Ok fs'.
Proof.
  intros Hrm. apply fold_returns. intros fs ext.
  unfold remove_step, os_remove. rewrite Hrm.
  destruct (exists_file fs _); by eexists.
Qed.

Lemma extract_step_returns mk rm run_mindtct get_file_name_and_ext
  output_dir keep :
  makedirs mk output_dir = Ok tt ->
  (forall p, exists parts, get_file_name_and_ext p = Ok parts) ->
  (forall p, rm p = None) ->
  forall st f,
    exists st',
      extract_step mk rm run_mindtct get_file_name_and_ext output_dir keep
        st f = Ok st'.
Proof.
  intros Hmk Hname Hrm [[fs s] t] f.
  unfold extract_step, extract_minutiae_from_image.
  rewrite Hmk. cbn [Py.bind].
  destruct (Hname f) as [parts ->]. cbn [Py.bind].
  destruct (call_mindtct _ _ _ _) as [fs1 ok].
  destruct (negb ok); cbn [Py.bind]; [by eexists|].
  destruct keep; cbn [Py.bind].
  - destruct (exists_file fs1 _); [|by eexists].
    destruct (String.eqb _ ""); by eexists.
  - destruct (remove_loop_returns rm
                (Path.join output_dir (snd (fst parts)))
                extensions_to_remove Hrm fs1) as [fs2 ->].
    cbn [Py.bind].
    destruct (exists_file fs2 _); [|by eexists].
    destruct (String.eqb _ ""); by eexists.
Qed.

(** C10 fails as stated: with the empty path as output directory the
    creation of the directory raises, and each of the three batch
    operations leaves with that exception instead of returning a
    pair. *)
Lemma batch_raises_without_output_dir :
  extract_minutiae_from_folder Sample.dirs_ok Sample.removable
    (fun fs _ _ => (fs, None)) (fun _ => Ok ("in", "scan", ".png"))
    ∅ [("in", ["scan.png"])] "" false get_default_config
  = Raise FileNotFoundError
  /\ convert_all_minutiae_files Sample.dirs_ok
       (Sample.in_store Sample.one_record) [("in", ["scan.min"])] ""
       Sample.no_threshold 5
     = Raise FileNotFoundError
  /\ create_templates_from_folder (fun x => x) (fun x => x)
       (fun _ _ => Ok []) (fun g _ => g) (fun fs _ _ => Ok fs)
       Sample.dirs_ok Sample.canonical_one (Ok ["scan.txt"]) "out" ""
       (512, 512) false get_default_config
     = Raise FileNotFoundError.
Proof. repeat split. Qed.

(** C10, amended. Whenever a batch operation (extraction over a
    folder, batch conversion, batch template creation) returns, it
    returns a pair (succeeded, total) with 0 <= succeeded <= total,
    and total is the number of input files discovered.  Batch
    conversion returns as soon as the output directory can be created,
    and batch template creation as soon as, in addition, the minutiae
    directory can be listed, whatever happens to the single items;
    batch extraction returns when, in addition to the directory, the
    path helper answers and no removal of an auxiliary file fails. *)
Theorem batch_counters_bounded
  (makedirs_env : string -> result unit)
  (remove_env : string -> option exn)
  (run_mindtct : store -> string -> string -> store * option exn)
  (get_file_name_and_ext : string -> result (string * string * string))
  (np_cos np_sin : F.float -> F.float)
  (line_nd : Z * Z -> Z * Z -> result (list (Z * Z)))
  (gaussian_filter : grid F.float -> F.float -> grid F.float)
  (imsave : store -> string -> list (grid Z) -> result store)
  (fs : store) (walk : list (string * list string))
  (listing : result (list string))
  (source_dir output_dir : string) (keep_all_files include_singular : bool)
  (quality_threshold : F.float) (min_minutiae_count : Z)
  (target_size : Z * Z) (config : Config) :
  let extraction :=
    extract_minutiae_from_folder makedirs_env remove_env run_mindtct
      get_file_name_and_ext fs walk output_dir keep_all_files config in
  let conversion :=
    convert_all_minutiae_files makedirs_env fs walk output_dir
      quality_threshold min_minutiae_count in
  let rendering :=
    create_templates_from_folder np_cos np_sin line_nd gaussian_filter
      imsave makedirs_env fs listing source_dir output_dir target_size
      include_singular config in
  let bounded (pair : Z * Z) (discovered : nat) :=
    0 <= fst pair <= snd pair /\ snd pair = Z.of_nat discovered in
  (forall fs' pair,
      extraction = Ok (fs', pair) ->
      bounded pair (length (find_image_files config walk)))
  /\ (forall fs' pair,
         conversion = Ok (fs', pair) ->
         bounded pair (length (find_min_files walk)))
  /\ (forall fs' pair names,
         rendering = Ok (fs', pair) -> listing = Ok names ->
         bounded pair
           (length (filter (fun f => Text.endswith f ".txt") names)))
  /\ (makedirs makedirs_env output_dir = Ok tt ->
      (exists fs' pair, conversion = Ok (fs', pair))
      /\ (forall names,
             listing = Ok names -> exists fs' pair, rendering = Ok (fs', pair))
      /\ ((forall p, exists parts, get_file_name_and_ext p = Ok parts) ->
          (forall p, remove_env p = None) ->
          exists fs' pair, extraction = Ok (fs', pair))).
Proof.
  cbv zeta. split; [|split; [|split]].
  - intros fs' pair. unfold extract_minutiae_from_folder.
    destruct (Py.fold _ _ _) as [[[fs1 s] t]|e] eqn:Hfold; cbn [Py.bind];
      [|done].
    intros [= <- <-].
    destruct (fold_counts_returned _
                (extract_step_counts makedirs_env remove_env run_mindtct
                   get_file_name_and_ext output_dir keep_all_files)
                _ _ _ Hfold) as [Ht Hs].
    cbn [total succeeded fst snd] in *. lia.
  - intros fs' pair. unfold convert_all_minutiae_files, convert_loop.
    destruct (makedirs makedirs_env output_dir) as [[]|e]; cbn [Py.bind];
      [|done].
    pose proof (fold_counts_from_zero _
                  (convert_step_counts makedirs_env output_dir
                     quality_threshold min_minutiae_count)
                  (find_min_files walk) fs) as Hc.
    cbv zeta in Hc. destruct (fold_left _ _ _) as [[fs1 s] t].
    intros [= <- <-]. cbn [total succeeded fst snd] in *. lia.
  - intros fs' pair names. unfold create_templates_from_folder.
    destruct (makedirs makedirs_env output_dir) as [[]|e]; cbn [Py.bind];
      [|done].
    intros Hrun ->. cbn [Py.bind] in Hrun.
    pose proof (fold_counts_from_zero _
                  (template_step_counts np_cos np_sin line_nd gaussian_filter
                     imsave source_dir output_dir target_size include_singular
                     config)
                  (filter (fun f => Text.endswith f ".txt") names) fs) as Hc.
    cbv zeta in Hc. destruct (fold_left _ _ _) as [[fs1 s] t].
    injection Hrun as <- <-. cbn [total succeeded fst snd] in *. lia.
  - intros Hmk. split; [|split].
    + unfold convert_all_minutiae_files. rewrite Hmk. cbn [Py.bind].
      destruct (convert_loop _ _ _ _ _ _) as [[fs1 s] t]. by do 2 eexists.
    + intros names ->. unfold create_templates_from_folder.
      rewrite Hmk. cbn [Py.bind].
      destruct (fold_left _ _ _) as [[fs1 s] t]. by do 2 eexists.
    + intros Hname Hrm. unfold extract_minutiae_from_folder.
      destruct (fold_returns _
                  (extract_step_returns makedirs_env remove_env run_mindtct
                     get_file_name_and_ext output_dir keep_all_files
                     Hmk Hname Hrm)
                  (find_image_files config walk) (fs, 0, 0))
        as [[[fs1 s] t] ->].
      cbn [Py.bind]. by do 2 eexists.
Qed.

Lemma batch_counters_bounded_witness :
  convert_all_minutiae_files Sample.dirs_ok
    (Sample.in_store Sample.no_records) [("in", ["scan.min"; "notes.md"])]
    "out" Sample.no_threshold 5
  = Ok (Sample.in_store Sample.no_records, (0, 1))
  /\ 0 <= 0 <= 1
  /\ 1 = Z.of_nat (length (find_min_files [("in", ["scan.min"; "notes.md"])])).
Proof.
  assert (Hrun : convert_all_minutiae_files Sample.dirs_ok
                   (Sample.in_store Sample.no_records)
                   [("in", ["scan.min"; "notes.md"])] "out"
                   Sample.no_threshold 5
                 = Ok (Sample.in_store Sample.no_records, (0, 1)))
    by (vm_compute; reflexivity).
  destruct (batch_counters_bounded Sample.dirs_ok Sample.removable
              (fun fs _ _ => (fs, None)) (fun _ => Ok ("in", "scan", ".png"))
              (fun x => x) (fun x => x) (fun _ _ => Ok []) (fun g _ => g)
              (fun fs _ _ => Ok fs)
              (Sample.in_store Sample.no_records)
              [("in", ["scan.min"; "notes.md"])] (Ok []) "in" "out" false false
              Sample.no_threshold 5 (512, 512) get_default_config)
    as (_ & Hconv & _).
  split; [exact Hrun|]. exact (Hconv _ _ Hrun).
Defined.
(** ** The conversion of one file *)

Lemma makedirs_unit mk path (u : unit) : makedirs mk path = Ok u -> u = tt.
Proof. by destruct u. Qed.

Lemma convert_min_to_txt_cases mk fs p out q :
  convert_min_to_txt mk fs p out q = (fs, None)
  \/ exists data,
       data <> []
       /\ makedirs mk out = Ok tt
       /\ collect_records q
            (drop 3 (Text.readlines (default "" (fs !! p)))) [] = Ok data
       /\ convert_min_to_txt mk fs p out q
          = (<[output_path p out := file_text data]> fs,
             Some (output_path p out)).
Proof.
  unfold convert_min_to_txt, convert_min_to_txt_body, read_file.
  destruct (fs !! p) as [content|]; cbn; [|by left].
  destruct (makedirs mk out) as [[]|e]; cbn; [|by left].
  destruct (collect_records q _ []) as [data|e]; cbn; [|by left].
  destruct data as [|d data]; cbn; [by left|].
  right. exists (d :: data). done.
Qed.

(** Without a name for the output directory nothing is converted: the
    creation of the directory raises inside the [try]. *)
Lemma conversion_needs_output_dir mk fs p q :
  convert_min_to_txt mk fs p "" q = (fs, None).
Proof.
  unfold convert_min_to_txt, convert_min_to_txt_body, read_file.
  by destruct (fs !! p).
Qed.


Lemma collect_records_no_record q lines :
  Forall (fun line => forall d, convert_line q line <> Ok (Some d)) lines ->
  forall acc,
    collect_records q lines acc = Ok acc
    \/ exists e, collect_records q lines acc = Raise e.
Proof.
  induction 1 as [|line lines Hline _ IH]; intros acc; cbn.
  - by left.
  - destruct (convert_line q line) as [[d|]|e].
    + by destruct (Hline d).
    + apply IH.
    + right. by exists e.
Qed.

(** C6. When no record of a detector file survives parsing and the
    quality filter, convert_min_to_txt writes no output file (the store
    is unchanged) and returns None. *)
Theorem empty_conversion_writes_nothing
  (makedirs_env : string -> result unit)
  (fs : store) (min_file_path output_dir : string) (q : F.float) :
  (forall content,
      fs !! min_file_path = Some content ->
      Forall (fun line => forall d, convert_line q line <> Ok (Some d))
             (drop 3 (Text.readlines content))) ->
  convert_min_to_txt makedirs_env fs min_file_path output_dir q = (fs, None).
Proof.
  intros Hnone.
  unfold convert_min_to_txt, convert_min_to_txt_body, read_file.
  destruct (fs !! min_file_path) as [content|] eqn:Hread; cbn; [|done].
  destruct (makedirs makedirs_env output_dir) as [[]|e]; cbn; [|done].
  destruct (collect_records_no_record q _ (Hnone content eq_refl) [])
    as [-> | [e ->]]; done.
Qed.

Lemma empty_conversion_writes_nothing_witness :
  convert_min_to_txt Sample.dirs_ok (Sample.in_store Sample.no_records)
    "in/scan.min" "out" Sample.no_threshold
  = (Sample.in_store Sample.no_records, None).
Proof.
  apply (empty_conversion_writes_nothing Sample.dirs_ok
           (Sample.in_store Sample.no_records)
           "in/scan.min" "out" Sample.no_threshold).
  intros content Hread.
  unfold Sample.in_store in Hread.
  rewrite lookup_singleton_eq in Hread.
  injection Hread as <-.
  repeat constructor; intros d; vm_compute; discriminate.
Defined.

(** ** The minimum-count rule of batch conversion *)







Lemma output_path_nonempty f out : String.eqb (output_path f out) "" = false.
Proof.
  apply String.eqb_neq. unfold output_path, Path.join.
  destruct (Text.is_prefix _ _); [|destruct (_ || _)]; intros Heq.
  - by destruct (fst (Path.splitext (Path.basename f))).
  - destruct out; [|discriminate].
    by destruct (fst (Path.splitext (Path.basename f))).
  - by destruct out.
Qed.










(** ** The reader of canonical files *)

Lemma table_rows_cons w line rest :
  table_rows w (line :: rest)
  = match Text.words (Text.text (before_comment (Text.chars line))) with
    | [] => table_rows w rest
    | tokens =>
        row <-! convert_tokens tokens;
        if match w with
           | Some k => (length row =? k)%nat
           | None => true
           end
        then rows <-! table_rows (Some (length row)) rest; Ok (row :: rows)
        else Raise ValueError
    end.
Proof. reflexivity. Qed.

Lemma table_rows_width lines :
  forall w rows,
    table_rows w lines = Ok rows ->
    match w, rows with
    | Some k, _ => Forall (fun r => length r = k) rows
    | None, [] => True
    | None, r :: rows' => Forall (fun r' => length r' = length r) rows'
    end.
Proof.
  induction lines as [|line lines IH]; intros w rows Hrows.
  - injection Hrows as <-. destruct w; constructor.
  - rewrite table_rows_cons in Hrows.
    destruct (Text.words _) as [|tok toks]; [exact (IH _ _ Hrows)|].
    destruct (convert_tokens (tok :: toks)) as [row|e];
      cbn [Py.bind] in Hrows; [|done].
    destruct w as [k|].
    + destruct (length row =? k)%nat eqn:Hk; [|done].
      apply Nat.eqb_eq in Hk. subst k.
      destruct (table_rows (Some (length row)) lines) as [rows'|e] eqn:Hrest;
        cbn [Py.bind] in Hrows; [|done].
      injection Hrows as <-. constructor; [done|].
      exact (IH _ _ Hrest).
    + destruct (table_rows (Some (length row)) lines) as [rows'|e] eqn:Hrest;
        cbn [Py.bind] in Hrows; [|done].
      injection Hrows as <-. exact (IH _ _ Hrest).
Qed.

Lemma alter_rows_width (f : F.float -> F.float) i c rows :
  Forall (fun r => length r = c) rows ->
  Forall (fun r : list F.float => length r = c) (map (alter f i) rows).
Proof.
  intros Hrows. apply Forall_map.
  eapply Forall_impl; [exact Hrows|].
  intros r Hr. cbn. by rewrite length_alter.
Qed.

Lemma parse_minutiae_file_body_2d fs p t :
  parse_minutiae_file_body fs p = Ok t -> ndim t = 2%nat /\ well_shaped t.
Proof.
  unfold parse_minutiae_file_body, loadtxt, read_file.
  destruct (fs !! p) as [content|]; cbn; [|done].
  destruct (table_rows None (Text.readlines content)) as [rows|e] eqn:Hrows;
    cbn; [|done].
  apply table_rows_width in Hrows.
  destruct rows as [|r1 rows]; cbn; [done|].
  destruct rows as [|r2 rows].
  - destruct r1 as [|x1 [|x2 r1]]; cbn; [done|done|].
    match goal with |- (if ?b then _ else _) = _ -> _ => destruct b end;
      [|done].
    intros [= <-]. cbn. split; [done|]. split; [done|].
    constructor; [|constructor]. cbn. by rewrite length_alter.
  - destruct r1 as [|x1 [|x2 r1]]; cbn.
    { done. }
    { match goal with |- (if ?b then _ else _) = _ -> _ => destruct b end;
        [|done].
      intros [= <-]. cbn. split; [done|]. split; [done|].
      constructor; [|constructor]. cbn. by rewrite length_alter, length_map. }
    match goal with |- (if ?b then _ else _) = _ -> _ => destruct b end;
      [|done].
    intros [= <-]. cbn. split; [done|].
    split; [by rewrite ?length_map|].
    inversion Hrows as [|? ? Hr2 Hrest]; subst.
    constructor; [cbn; by rewrite length_alter|].
    constructor; [by rewrite length_alter|].
    apply Forall_map. eapply Forall_impl; [exact Hrest|].
    intros r Hr. cbn. by rewrite length_alter.
Qed.

Lemma convert_tokens_raises tokens t :
  t ∈ tokens -> (exists e, parse_token t = Raise e) ->
  exists e, convert_tokens tokens = Raise e.
Proof.
  intros Hin [e He].
  induction tokens as [|t0 tokens IH]; [by apply elem_of_nil in Hin|].
  cbn [convert_tokens].
  destruct (parse_token t0) as [x|e0] eqn:H0; cbn [Py.bind]; [|by exists e0].
  apply elem_of_cons in Hin as [-> | Hin]; [congruence|].
  destruct (IH Hin) as [e1 ->]. by exists e1.
Qed.

(** One token that is not a number, on any line, makes the loading of
    the whole table fail. *)
Lemma table_rows_bad_token lines :
  forall w line tok,
    line ∈ lines ->
    tok ∈ Text.words (Text.text (before_comment (Text.chars line))) ->
    (exists e, parse_token tok = Raise e) ->
    exists e, table_rows w lines = Raise e.
Proof.
  induction lines as [|l lines IH]; intros w line tok Hline Htok Hbad.
  - by apply elem_of_nil in Hline.
  - rewrite table_rows_cons.
    apply elem_of_cons in Hline as [<- | Hline].
    + destruct (convert_tokens_raises _ tok Htok Hbad) as [e He].
      destruct (Text.words _) as [|t0 toks]; [by apply elem_of_nil in Htok|].
      rewrite He. by exists e.
    + destruct (Text.words (Text.text (before_comment (Text.chars l))))
        as [|t0 toks]; [by eapply IH|].
      destruct (convert_tokens (t0 :: toks)) as [row|e]; cbn [Py.bind];
        [|by exists e].
      destruct (match w with Some k => _ | None => _ end);
        [|by exists ValueError].
      destruct (IH (Some (length row)) line tok Hline Htok Hbad) as [e ->].
      by exists e.
Qed.

Lemma parse_minutiae_file_raised fs p e :
  parse_minutiae_file_body fs p = Raise e ->
  parse_minutiae_file fs p = Ok (Arr2 0 4 []).
Proof. unfold parse_minutiae_file. by intros ->. Qed.

(** C9. parse_minutiae_file never raises and always returns a
    two-dimensional table.  A file holding exactly one record (one row
    of four numbers) gives the table of shape (1, 4) with that row, its
    orientation converted to radians.  A missing file, a file with a
    token that is not a number, and in general every exception of the
    loading or of the conversion give the empty (0, 4) table. *)
Theorem parse_minutiae_file_total (fs : store) (file_path : string) :
  (exists t,
      parse_minutiae_file fs file_path = Ok t
      /\ ndim t = 2%nat /\ well_shaped t)
  /\ (forall content a b c d,
         fs !! file_path = Some content ->
         table_rows None (Text.readlines content) = Ok [[a; b; c; d]] ->
         parse_minutiae_file fs file_path
         = Ok (Arr2 1 4 [[a; b; c; to_radians d]])
         /\ shape (Arr2 1 4 [[a; b; c; to_radians d]]) = [1%nat; 4%nat])
  /\ (fs !! file_path = None ->
      parse_minutiae_file fs file_path = Ok (Arr2 0 4 []))
  /\ (forall content line tok e,
         fs !! file_path = Some content ->
         line ∈ Text.readlines content ->
         tok ∈ Text.words (Text.text (before_comment (Text.chars line))) ->
         parse_token tok = Raise e ->
         parse_minutiae_file fs file_path = Ok (Arr2 0 4 []))
  /\ (forall e,
         parse_minutiae_file_body fs file_path = Raise e ->
         parse_minutiae_file fs file_path = Ok (Arr2 0 4 [])).
Proof.
  split; [|split; [|split; [|split]]].
  - unfold parse_minutiae_file.
    destruct (parse_minutiae_file_body fs file_path) as [t|e] eqn:Hbody.
    + exists t. split; [done|]. by apply parse_minutiae_file_body_2d in Hbody.
    + exists (Arr2 0 4 []). cbn. repeat split; constructor.
  - intros content a b c d Hread Hrows. split; [|done].
    unfold parse_minutiae_file, parse_minutiae_file_body, loadtxt, read_file.
    rewrite Hread. cbn [Py.bind]. rewrite Hrows. reflexivity.
  - intros Hnone. apply (parse_minutiae_file_raised _ _ FileNotFoundError).
    unfold parse_minutiae_file_body, loadtxt, read_file. by rewrite Hnone.
  - intros content line tok e Hread Hline Htok Hbad.
    destruct (table_rows_bad_token (Text.readlines content) None line tok
                Hline Htok) as [e' Hrows]; [by exists e|].
    apply (parse_minutiae_file_raised _ _ e').
    unfold parse_minutiae_file_body, loadtxt, read_file.
    rewrite Hread. cbn [Py.bind]. by rewrite Hrows.
  - intros e. apply parse_minutiae_file_raised.
Qed.

Lemma parse_minutiae_file_total_witness :
  parse_minutiae_file Sample.canonical_one "out/scan.txt"
  = Ok (Arr2 1 4 [[F.of_Z 1; F.of_Z 10; F.of_Z 20; to_radians (F.of_Z 90)]])
  /\ parse_minutiae_file Sample.canonical_one "out/other.txt"
     = Ok (Arr2 0 4 [])
  /\ parse_minutiae_file (Sample.in_store "1 10 20 9x") "in/scan.min"
     = Ok (Arr2 0 4 []).
Proof.
  split; [|split].
  - destruct (parse_minutiae_file_total Sample.canonical_one "out/scan.txt")
      as (_ & Hone & _).
    apply (Hone (Sample.unlines ["1 10 20 90.0"])).
    + reflexivity.
    + vm_compute. reflexivity.
  - destruct (parse_minutiae_file_total Sample.canonical_one "out/other.txt")
      as (_ & _ & Hmissing & _).
    apply Hmissing. reflexivity.
  - destruct (parse_minutiae_file_total (Sample.in_store "1 10 20 9x")
                "in/scan.min") as (_ & _ & _ & Hbad & _).
    apply (Hbad "1 10 20 9x" "1 10 20 9x" "9x" ValueError).
    + reflexivity.
    + change (Text.readlines "1 10 20 9x") with ["1 10 20 9x"].
      apply list_elem_of_here.
    + change (Text.words (Text.text (before_comment (Text.chars "1 10 20 9x"))))
        with ["1"; "10"; "20"; "9x"].
      do 3 apply list_elem_of_further. apply list_elem_of_here.
    + vm_compute. reflexivity.
Defined.
(** ** Template creation from a file *)

(** C7. When the table loaded from a minutiae file has zero rows,
    create_template_from_file reports failure (returns None) instead of
    a raster. *)
Theorem empty_table_not_rendered
  (np_cos np_sin : F.float -> F.float)
  (line_nd : Z * Z -> Z * Z -> result (list (Z * Z)))
  (gaussian_filter : grid F.float -> F.float -> grid F.float)
  (fs : store) (minutiae_file : string) (target_size : Z * Z)
  (orig_size : option (Z * Z)) (include_singular : bool) (config : Config)
  (t : ndarray) :
  parse_minutiae_file fs minutiae_file = Ok t ->
  len t = Ok 0%nat ->
  create_template_from_file np_cos np_sin line_nd gaussian_filter
    fs minutiae_file target_size orig_size include_singular config = None.
Proof.
  intros Hparse Hlen. unfold create_template_from_file.
  rewrite Hparse. cbn. rewrite Hlen. reflexivity.
Qed.

Lemma empty_table_not_rendered_witness :
  create_template_from_file (fun x => x) (fun x => x) (fun _ _ => Ok [])
    (fun g _ => g) (Sample.in_store "") "in/scan.min" (512, 512) None false
    get_default_config = None.
Proof.
  apply (empty_table_not_rendered (fun x => x) (fun x => x) (fun _ _ => Ok [])
           (fun g _ => g) (Sample.in_store "") "in/scan.min" (512, 512) None
           false get_default_config (Arr2 0 4 [])).
  - vm_compute. reflexivity.
  - reflexivity.
Defined.

(** ** The position field *)

Lemma rect_zeros h w :
  0 <= h -> 0 <= w ->
  exists g, zeros (h, w) = Ok g /\ rect g (Z.to_nat h) (Z.to_nat w).
Proof.
  intros Hh Hw. unfold zeros. cbn [fst snd].
  destruct (h <? 0) eqn:E1; [lia|]. destruct (w <? 0) eqn:E2; [lia|].
  cbn. eexists. split; [reflexivity|]. split.
  - apply repeat_length.
  - apply Forall_forall. intros row Hrow.
    apply list_elem_of_In, repeat_spec in Hrow. subst row.
    apply repeat_length.
Qed.

Lemma axis_index_in_range i n :
  0 <= i < Z.of_nat n -> axis_index i n = Ok (Z.to_nat i).
Proof.
  intros Hi. unfold axis_index.
  destruct (0 <=? i) eqn:E1; [|lia]. destruct (i <? Z.of_nat n) eqn:E2; [|lia].
  reflexivity.
Qed.

Lemma pixel_lookup {A} (g : grid A) y x row :
  0 <= y -> 0 <= x ->
  g !! Z.to_nat y = Some row -> pixel g y x = row !! Z.to_nat x.
Proof.
  intros Hy Hx Hrow. unfold pixel.
  destruct (0 <=? y) eqn:E1; [|lia]. destruct (0 <=? x) eqn:E2; [|lia].
  cbn. by rewrite Hrow.
Qed.

Lemma pixel_inv {A} (g : grid A) y x v :
  pixel g y x = Some v ->
  0 <= y /\ 0 <= x
  /\ exists row, g !! Z.to_nat y = Some row /\ row !! Z.to_nat x = Some v.
Proof.
  unfold pixel.
  destruct (0 <=? y) eqn:E1; [|done]. destruct (0 <=? x) eqn:E2; [|done].
  cbn. destruct (g !! Z.to_nat y) as [row|] eqn:Hrow; [|done].
  intros Hv. repeat split; [lia|lia|]. by exists row.
Qed.

Lemma set_pixel_spec {A} (g : grid A) h w y x v :
  rect g h w ->
  0 <= y < Z.of_nat h -> 0 <= x < Z.of_nat w ->
  exists g',
    set_pixel g y x v = Ok g'
    /\ rect g' h w
    /\ pixel g' y x = Some v
    /\ forall y' x' v',
         pixel g' y' x' = Some v' ->
         (y' = y /\ x' = x /\ v' = v) \/ pixel g y' x' = Some v'.
Proof.
  intros [Hh Hw] Hy Hx.
  destruct (lookup_lt_is_Some_2 g (Z.to_nat y)) as [row Hrow]; [lia|].
  assert (Hlen : length row = w).
  { eapply Forall_forall in Hw; [exact Hw|]. eapply list_elem_of_lookup_2, Hrow. }
  exists (<[Z.to_nat y := <[Z.to_nat x := v]> row]> g).
  split.
  { unfold set_pixel.
    rewrite axis_index_in_range by lia. cbn [Py.bind]. rewrite Hrow.
    rewrite axis_index_in_range by lia. reflexivity. }
  assert (Hset : <[Z.to_nat y := <[Z.to_nat x := v]> row]> g !! Z.to_nat y
                 = Some (<[Z.to_nat x := v]> row)).
  { apply list_lookup_insert_eq. lia. }
  split; [|split].
  - split; [by rewrite length_insert|].
    apply Forall_insert; [done|]. by rewrite length_insert.
  - rewrite (pixel_lookup _ y x _ ltac:(lia) ltac:(lia) Hset).
    apply list_lookup_insert_eq. lia.
  - intros y' x' v' Hpix.
    apply pixel_inv in Hpix as (Hy' & Hx' & row' & Hrow' & Hv').
    destruct (decide (Z.to_nat y' = Z.to_nat y)) as [Ey|Ney].
    + rewrite Ey, Hset in Hrow'. injection Hrow' as <-.
      destruct (decide (Z.to_nat x' = Z.to_nat x)) as [Ex|Nex].
      * rewrite Ex, list_lookup_insert_eq in Hv' by lia.
        injection Hv' as <-. left. repeat split; lia.
      * rewrite list_lookup_insert_ne in Hv' by done.
        right. rewrite (pixel_lookup g y' x' row) by (try lia; congruence).
        done.
    + rewrite list_lookup_insert_ne in Hrow' by done.
      right. by rewrite (pixel_lookup g y' x' row') by (try lia; congruence).
Qed.

Lemma set_pixel_keeps {A} (g g' : grid A) h w y x v y' x' :
  rect g h w ->
  0 <= y < Z.of_nat h -> 0 <= x < Z.of_nat w ->
  set_pixel g y x v = Ok g' ->
  pixel g y' x' = Some v -> pixel g' y' x' = Some v.
Proof.
  intros [Hh Hw] Hy Hx. unfold set_pixel.
  rewrite axis_index_in_range by lia. cbn [Py.bind].
  destruct (g !! Z.to_nat y) as [row|] eqn:Hrow; [|done].
  assert (Hlen : length row = w).
  { eapply Forall_forall in Hw; [exact Hw|]. eapply list_elem_of_lookup_2, Hrow. }
  rewrite axis_index_in_range by lia. cbn [Py.bind].
  intros [= <-] Hpix.
  apply pixel_inv in Hpix as (Hy' & Hx' & row' & Hrow' & Hv').
  destruct (decide (Z.to_nat y' = Z.to_nat y)) as [Ey|Ney].
  - assert (row' = row) as -> by congruence.
    erewrite pixel_lookup; [|lia|lia|rewrite Ey; apply list_lookup_insert_eq; lia].
    destruct (decide (Z.to_nat x' = Z.to_nat x)) as [Ex|Nex].
    + rewrite Ex. rewrite Ex in Hv'.
      rewrite list_lookup_insert_eq by lia.
      assert (Hsame : row !! Z.to_nat x = Some v) by done.
      done.
    + by rewrite list_lookup_insert_ne.
  - erewrite pixel_lookup; [exact Hv'|lia|lia|].
    by rewrite list_lookup_insert_ne.
Qed.

Lemma set_pixels_spec {A} (coords : list (Z * Z)) (v : A) h w :
  Forall (fun p => 0 <= fst p < Z.of_nat h /\ 0 <= snd p < Z.of_nat w) coords ->
  forall g,
    rect g h w ->
    exists g',
      set_pixels g coords v = Ok g'
      /\ rect g' h w
      /\ (forall p, p ∈ coords -> pixel g' (fst p) (snd p) = Some v)
      /\ (forall y x, pixel g y x = Some v -> pixel g' y x = Some v)
      /\ (forall y x v',
             pixel g' y x = Some v' ->
             ((y, x) ∈ coords /\ v' = v) \/ pixel g y x = Some v').
Proof.
  induction 1 as [|[y x] coords [Hy Hx] _ IH]; intros g Hg; cbn [set_pixels].
  - exists g. split; [done|]. split; [done|]. split; [|split].
    + intros p Hp. by apply elem_of_nil in Hp.
    + done.
    + intros. by right.
  - cbn [fst snd] in Hy, Hx.
    destruct (set_pixel_spec g h w y x v Hg Hy Hx)
      as (g1 & Hset & Hg1 & Hpix & Hold).
    rewrite Hset. cbn [Py.bind].
    destruct (IH g1 Hg1) as (g' & Hrest & Hg' & Hall & Hkeep & Hback).
    exists g'. split; [done|]. split; [done|]. split; [|split].
    + intros p Hp. apply elem_of_cons in Hp as [-> | Hp].
      * apply Hkeep. exact Hpix.
      * by apply Hall.
    + intros y' x' Hp. apply Hkeep.
      eapply set_pixel_keeps; [exact Hg|exact Hy|exact Hx|exact Hset|exact Hp].
    + intros y' x' v' Hp.
      destruct (Hback _ _ _ Hp) as [[Hin ->] | Hp1].
      * left. split; [|done]. by apply elem_of_cons; right.
      * destruct (Hold _ _ _ Hp1) as [(-> & -> & ->) | Hp0].
        -- left. split; [|done]. by apply elem_of_cons; left.
        -- by right.
Qed.

Lemma clip_in_range v dim : 0 < dim -> 0 <= clip v 0 (dim - 1) < dim.
Proof. unfold clip. lia. Qed.

Lemma zip_map_same {A B C} (f : A -> B) (g : A -> C) (l : list A) :
  zip (map f l) (map g l) = map (fun a => (f a, g a)) l.
Proof. induction l as [|a l IH]; cbn; [done|]. by rewrite IH. Qed.

(** C2, amended. For a table with at least one row and three columns,
    original size (H, W) and target size (H', W') with positive target
    dimensions, create_minutiae_map returns a raster in which every
    point (x, y) of the table marks, with 255, the pixel at column
    trunc(x * sx) and row trunc(y * sy), where sx = W'/W and sy = H'/H
    are the binary64 quotients, the products are binary64 products and
    trunc is the truncation toward zero of the int32 cast, each clipped
    into [0, target_dim - 1]; no other pixel is marked. *)
Theorem minutiae_map_marks_truncated
  (n c : nat) (rows : list (list F.float)) (H W H' W' : Z) (sy sx : F.float) :
  n <> 0%nat -> (2 < c)%nat ->
  0 < H' -> 0 < W' ->
  F.int_truediv H' H = Ok sy ->
  F.int_truediv W' W = Ok sx ->
  exists g,
    create_minutiae_map (Arr2 n c rows) (H, W) (H', W') = Ok g
    /\ rect g (Z.to_nat H') (Z.to_nat W')
    /\ (forall r,
           r ∈ rows ->
           pixel g
             (clip (F.astype_int32 (F.mul (nth 2 r S754_nan) sy)) 0 (H' - 1))
             (clip (F.astype_int32 (F.mul (nth 1 r S754_nan) sx)) 0 (W' - 1))
           = Some 255)
    /\ (forall y x,
           pixel g y x = Some 255 ->
           exists r,
             r ∈ rows
             /\ y = clip (F.astype_int32 (F.mul (nth 2 r S754_nan) sy)) 0 (H' - 1)
             /\ x = clip (F.astype_int32 (F.mul (nth 1 r S754_nan) sx)) 0 (W' - 1)).
Proof.
  intros Hn Hc HH HW Hsy Hsx.
  unfold create_minutiae_map. cbn [len Py.bind fst snd].
  destruct (n =? 0)%nat eqn:En; [apply Nat.eqb_eq in En; lia|].
  rewrite Hsy, Hsx. cbn [Py.bind].
  destruct (rect_zeros H' W') as (g0 & Hzeros & Hrect); [lia|lia|].
  rewrite Hzeros. cbn [Py.bind]. unfold column.
  destruct (1 <? c)%nat eqn:E1; [|apply Nat.ltb_ge in E1; lia].
  destruct (2 <? c)%nat eqn:E2; [|apply Nat.ltb_ge in E2; lia].
  cbn [Py.bind]. rewrite !map_map, zip_map_same.
  unfold scaled_coord.
  set (coord := fun r : list F.float =>
         (clip (F.astype_int32 (F.mul (nth 2 r S754_nan) sy)) 0 (H' - 1),
          clip (F.astype_int32 (F.mul (nth 1 r S754_nan) sx)) 0 (W' - 1))).
  destruct (set_pixels_spec (map coord rows) 255 (Z.to_nat H') (Z.to_nat W'))
    with (g := g0) as (g & Hset & Hg & Hall & _ & Hback); [|done|].
  { apply Forall_map, Forall_forall. intros r _. unfold coord. cbn [fst snd].
    pose proof (clip_in_range (F.astype_int32 (F.mul (nth 2 r S754_nan) sy)) H' HH).
    pose proof (clip_in_range (F.astype_int32 (F.mul (nth 1 r S754_nan) sx)) W' HW).
    lia. }
  exists g. split; [exact Hset|]. split; [exact Hg|]. split.
  - intros r Hr.
    apply (Hall (coord r)). apply list_elem_of_fmap. by exists r.
  - intros y x Hp.
    destruct (Hback _ _ _ Hp) as [[Hin _] | Hzero].
    + apply list_elem_of_fmap in Hin as (r & Heq & Hr).
      exists r. unfold coord in Heq. injection Heq as -> ->. done.
    + exfalso.
      apply pixel_inv in Hzero as (_ & _ & row & Hrow & Hv).
      unfold zeros in Hzeros. cbn [fst snd] in Hzeros.
      destruct ((H' <? 0) || (W' <? 0)); [done|].
      injection Hzeros as <-.
      apply list_elem_of_lookup_2, list_elem_of_In, repeat_spec in Hrow.
      subst row.
      apply list_elem_of_lookup_2, list_elem_of_In, repeat_spec in Hv.
      done.
Qed.

Lemma minutiae_map_marks_truncated_witness :
  exists g,
    create_minutiae_map Sample.point_3_1 (4, 4) (5, 5) = Ok g
    /\ pixel g 1 3 = Some 255.
Proof.
  destruct (minutiae_map_marks_truncated 1 4
              [[F.of_Z 1; F.of_Z 3; F.of_Z 1; F.of_Z 0]] 4 4 5 5
              (F.of_decimal false 125 (-2)) (F.of_decimal false 125 (-2)))
    as (g & Hg & _ & Hall & _).
  - discriminate.
  - lia.
  - reflexivity.
  - reflexivity.
  - vm_compute. reflexivity.
  - vm_compute. reflexivity.
  - exists g. split; [exact Hg|].
    exact (Hall _ (list_elem_of_here _ _)).
Defined.

(** C2 fails as stated: for the point (3, 1) of a 4 x 4 scan rendered
    at 5 x 5, the rounded position is column round(3.75) = 4, row
    round(1.25) = 1; that pixel stays 0, and the marked pixel is at the
    truncated column 3. *)
Lemma rounded_pixel_not_marked :
  exists g,
    create_minutiae_map Sample.point_3_1 (4, 4) (5, 5) = Ok g
    /\ Spec.rounded_coord 3 4 5 = 4
    /\ Spec.rounded_coord 1 4 5 = 1
    /\ pixel g (Spec.rounded_coord 1 4 5) (Spec.rounded_coord 3 4 5) = Some 0
    /\ pixel g 1 3 = Some 255.
Proof.
  eexists. split; [vm_compute; reflexivity|].
  repeat split.
Qed.

(** ** The canonical text format *)

(** C1 fails on the code: the record written for a detector file with
    one record is the text [1 10 20 90.0] followed by a backslash and
    the letter n, not by a line feed; reading the file back fails on
    the last token and gives the empty (0, 4) table, so the record is
    not recovered. *)
Theorem written_record_not_read_back :
  let r := convert_min_to_txt Sample.dirs_ok
             (Sample.in_store Sample.one_record)
             "in/scan.min" "out" Sample.no_threshold in
  snd r = Some "out/scan.txt"
  /\ fst r !! "out/scan.txt" = Some "1 10 20 90.0\n"
  /\ String.length "1 10 20 90.0\n" = 14%nat
  /\ parse_minutiae_file (fst r) "out/scan.txt" = Ok (Arr2 0 4 []).
Proof.
  cbv zeta. repeat split; vm_compute; reflexivity.
Qed.

(** The same record ended by a line feed reads back as one row: type,
    x and y exactly, the orientation as 90 degrees in radians. *)
Lemma line_feed_record_read_back :
  parse_minutiae_file Sample.canonical_one "out/scan.txt"
  = Ok (Arr2 1 4 [[F.of_Z 1; F.of_Z 10; F.of_Z 20; to_radians (F.of_Z 90)]]).
Proof. vm_compute. reflexivity. Qed.

(** C4 fails as stated: with the type marker in the fourth field and
    the quality in the fifth, both records of the scenario are skipped
    (the fourth field is not a number); no file is written, the call
    returns None, and reading the expected output gives shape (0, 4). *)
Lemma scenario_as_written_not_converted :
  let r := convert_min_to_txt Sample.dirs_ok
             (Sample.in_store Sample.scenario_as_written)
             "in/scan.min" "out" Sample.no_threshold in
  snd r = None
  /\ fst r !! "out/scan.txt" = None
  /\ parse_minutiae_file (fst r) "out/scan.txt" = Ok (Arr2 0 4 []).
Proof.
  cbv zeta. repeat split; vm_compute; reflexivity.
Qed.

(** C4, amended. A detector file with a 3-line header followed by the
    records [id:10,20:0:0.9:TYP_BIF] and [id:30,40:8:0.9:TYP_OTH]
    (quality in the fourth field, type marker in the fifth) is
    converted, at quality threshold 0.0, into the two canonical records
    [1 10 20 90.0] and [2 30 40 0.0], in this order; the output file is
    written with them and its path is returned. *)
Theorem scenario_quality_first_converted :
  let r := convert_min_to_txt Sample.dirs_ok
             (Sample.in_store Sample.scenario_quality_first)
             "in/scan.min" "out" Sample.no_threshold in
  collect_records Sample.no_threshold
    (drop 3 (Text.readlines Sample.scenario_quality_first)) []
  = Ok ["1 10 20 90.0"; "2 30 40 0.0"]
  /\ snd r = Some "out/scan.txt"
  /\ fst r !! "out/scan.txt" = Some (file_text ["1 10 20 90.0"; "2 30 40 0.0"]).
Proof.
  cbv zeta. repeat split; vm_compute; reflexivity.
Qed.

(** ** Malformed records *)

Lemma parse_int_raises s e : parse_int s = Raise e -> e = ValueError.
Proof.
  unfold parse_int. destruct (split_sign _) as [neg l].
  destruct (span_digits true false l) as [[[|d ds] [|c r]]|]; try congruence.
  destruct (int_max_str_digits <? _)%nat; congruence.
Qed.

(** A separator character next to a number is not skipped by [int()],
    although [str.strip] removes it: the record is not converted. *)
Lemma separator_is_not_number_space :
  Text.strip (String (ascii_of_nat 28) "0") = "0"
  /\ parse_int (String (ascii_of_nat 28) "0") = Raise ValueError
  /\ convert_line Sample.no_threshold
       ("1:10,20:0" +:+ String (ascii_of_nat 28) ":0.9:BIF")
     = Ok None.
Proof. repeat split; vm_compute; reflexivity. Qed.

(** An integer literal with more digits than the limit is rejected. *)
Lemma long_integer_rejected :
  parse_int (Text.text (repeat "1"%char 4300)) <> Raise ValueError
  /\ parse_int (Text.text (repeat "1"%char 4301)) = Raise ValueError.
Proof.
  split.
  - assert (Hok : match parse_int (Text.text (repeat "1"%char 4300)) with
                  | Ok _ => true
                  | Raise _ => false
                  end = true) by (vm_compute; reflexivity).
    intros Heq. rewrite Heq in Hok. discriminate Hok.
  - vm_compute. reflexivity.
Qed.

Lemma parse_int_pair_raises parts e :
  parse_int_pair parts = Raise e -> e = ValueError.
Proof.
  unfold parse_int_pair.
  destruct parts as [|a [|b [|c parts]]]; try congruence.
  destruct (parse_int a) eqn:Ha; cbn.
  - destruct (parse_int b) eqn:Hb; cbn; [done|].
    intros [= <-]. by apply parse_int_raises in Hb.
  - intros [= <-]. by apply parse_int_raises in Ha.
Qed.

Lemma parse_float_raises s e : parse_float s = Raise e -> e = ValueError.
Proof.
  unfold parse_float, parse_float_chars.
  destruct (split_sign _) as [neg l].
  destruct (_ || _); [done|]. destruct (String.eqb _ "nan"); [done|].
  destruct (span_digits true false l) as [[ip r]|]; [|congruence].
  destruct (match r with [] => _ | _ => _ end) as [[fp|] r']; [|congruence].
  destruct (ip ++ fp)%list; [congruence|].
  destruct (parse_exponent true r'); congruence.
Qed.

Lemma py_mod_nonzero_divisor v w :
  F.is_zero w = false -> exists r, F.py_mod v w = Ok r.
Proof.
  intros Hw. unfold F.py_mod. rewrite Hw.
  destruct (F.is_zero (F.fmod v w)); [by eexists|].
  destruct (negb _); by eexists.
Qed.

Lemma orientation_deg_raises u e :
  orientation_deg u = Raise e -> e = OverflowError.
Proof.
  unfold orientation_deg, F.of_int.
  destruct (F.of_Z u) as [s|s| |s m x]; cbn [Py.bind]; try congruence.
  - destruct (py_mod_nonzero_divisor
                (F.sub (F.of_Z 90) (F.mul c11_25 (S754_zero s))) (F.of_Z 360))
      as [r ->]; [reflexivity|done].
  - destruct (py_mod_nonzero_divisor
                (F.sub (F.of_Z 90) (F.mul c11_25 S754_nan)) (F.of_Z 360))
      as [r ->]; [reflexivity|done].
  - destruct (py_mod_nonzero_divisor
                (F.sub (F.of_Z 90) (F.mul c11_25 (S754_finite s m x)))
                (F.of_Z 360))
      as [r ->]; [reflexivity|done].
Qed.

(** A malformed line is skipped, unless its direction field is an
    integer beyond the binary64 range: then the arithmetic raises an
    exception that the record handler does not catch. *)
Lemma malformed_line_outcome q line :
  malformed line ->
  convert_line q line = Ok None \/ convert_line q line = Raise OverflowError.
Proof.
  unfold malformed, convert_line. cbv zeta.
  destruct (String.eqb (Text.strip line) ""); [by left|].
  unfold parse_record.
  set (fields := Text.split ":" (Text.strip line)).
  intros Hbad.
  destruct (length fields <? 5)%nat eqn:Hlen; [by left|].
  apply Nat.ltb_ge in Hlen.
  destruct Hbad as [Hshort | [[e He] | [[e He] | [e He]]]]; [lia| | |].
  - rewrite He. cbn. apply parse_int_pair_raises in He as ->. by left.
  - destruct (parse_int_pair _) as [xy|e1] eqn:Hxy; cbn.
    + rewrite He. cbn. apply parse_int_raises in He as ->. by left.
    + apply parse_int_pair_raises in Hxy as ->. by left.
  - destruct (parse_int_pair _) as [xy|e1] eqn:Hxy; cbn.
    + destruct (parse_int (field 2 fields)) as [u|e2] eqn:Hu; cbn.
      * destruct (orientation_deg u) as [o|e3] eqn:Ho; cbn.
        -- rewrite He. cbn. apply parse_float_raises in He as ->. by left.
        -- apply orientation_deg_raises in Ho as ->. by right.
      * apply parse_int_raises in Hu as ->. by left.
    + apply parse_int_pair_raises in Hxy as ->. by left.
Qed.

(** A skipped line leaves the conversion of the other lines as it is
    without that line. *)
Lemma skipped_line_is_local q line pre post :
  convert_line q line = Ok None ->
  forall acc,
    collect_records q (pre ++ line :: post) acc
    = collect_records q (pre ++ post) acc.
Proof.
  intros Hskip. induction pre as [|l pre IH]; intros acc; cbn.
  - by rewrite Hskip.
  - destruct (convert_line q l) as [[d|]|e]; [apply IH|apply IH|done].
Qed.

(** C8 fails on the code: a record line whose quality is not a number
    and whose direction has 310 digits is malformed, yet it is not
    skipped on its own; the conversion of the whole file is abandoned
    (nothing is written, None is returned), although the well-formed
    line before it converts when it stands alone. *)
Theorem overflowing_direction_aborts_file :
  malformed ("2:1,2:" +:+ Sample.huge_direction +:+ ":oops:BIF")
  /\ convert_line Sample.no_threshold
       ("2:1,2:" +:+ Sample.huge_direction +:+ ":oops:BIF")
     = Raise OverflowError
  /\ convert_min_to_txt Sample.dirs_ok (Sample.in_store Sample.good_then_bad)
       "in/scan.min" "out" Sample.no_threshold
     = (Sample.in_store Sample.good_then_bad, None)
  /\ snd (convert_min_to_txt Sample.dirs_ok (Sample.in_store Sample.good_only)
            "in/scan.min" "out" Sample.no_threshold)
     = Some "out/scan.txt".
Proof.
  split; [|split; [|split]].
  - right. right. right. exists ValueError. vm_compute. reflexivity.
  - vm_compute. reflexivity.
  - unfold convert_min_to_txt, convert_min_to_txt_body, read_file,
      Sample.in_store.
    rewrite lookup_singleton_eq. cbn [Py.bind].
    change (makedirs Sample.dirs_ok "out") with (@Ok unit tt).
    cbn [Py.bind].
    replace (collect_records Sample.no_threshold
               (drop 3 (Text.readlines Sample.good_then_bad)) [])
      with (@Raise (list string) OverflowError)
      by (vm_compute; reflexivity).
    reflexivity.
  - vm_compute. reflexivity.
Qed.

(** ** Exact binary64 arithmetic on quarters of a degree *)

Lemma digits2_pos_size p : digits2_pos p = Pos.size p.
Proof. induction p as [p IH|p IH|]; cbn; by rewrite ?IH. Qed.

Lemma digits_log2 p : Zpos (digits2_pos p) = Z.log2 (Zpos p) + 1.
Proof.
  rewrite digits2_pos_size.
  destruct p as [p|p|]; cbn [Pos.size Z.log2]; lia.
Qed.

Lemma digits_bounds p :
  2 ^ (Zpos (digits2_pos p) - 1) <= Zpos p < 2 ^ Zpos (digits2_pos p).
Proof.
  rewrite digits_log2.
  replace (Z.log2 (Zpos p) + 1 - 1) with (Z.log2 (Zpos p)) by lia.
  replace (Z.log2 (Zpos p) + 1) with (Z.succ (Z.log2 (Zpos p))) by lia.
  apply Z.log2_spec. lia.
Qed.

Lemma digits_shift p j P :
  0 <= j -> Zpos P = Zpos p * 2 ^ j ->
  Zpos (digits2_pos P) = Zpos (digits2_pos p) + j.
Proof.
  intros Hj HP. rewrite !digits_log2, HP.
  rewrite Z.log2_mul_pow2 by lia. lia.
Qed.

Lemma digits_le_53 p : Zpos p < 2 ^ 53 -> Zpos (digits2_pos p) <= 53.
Proof.
  intros Hp. pose proof (digits_bounds p) as [Hlo _].
  destruct (Z_le_gt_dec (Zpos (digits2_pos p)) 53) as [|Hgt]; [done|].
  assert (2 ^ 53 <= 2 ^ (Zpos (digits2_pos p) - 1))
    by (apply Z.pow_le_mono_r; lia).
  lia.
Qed.

Lemma fexp_normal e : -1074 <= e - 53 -> fexp 53 1024 e = e - 53.
Proof. unfold fexp, emin. lia. Qed.

Lemma shr_1_double p :
  shr_1 {| shr_m := Zpos p~0; shr_r := false; shr_s := false |}
  = {| shr_m := Zpos p; shr_r := false; shr_s := false |}.
Proof. reflexivity. Qed.

Lemma iter_shr_exact k :
  forall m : positive,
    SpecFloat.iter_pos shr_1 k
      {| shr_m := Zpos m * 2 ^ Zpos k; shr_r := false; shr_s := false |}
    = {| shr_m := Zpos m; shr_r := false; shr_s := false |}.
Proof.
  assert (Hone : forall m : positive,
             shr_1 {| shr_m := Zpos m * 2; shr_r := false; shr_s := false |}
             = {| shr_m := Zpos m; shr_r := false; shr_s := false |}).
  { intros m. replace (Zpos m * 2) with (Zpos m~0) by lia. reflexivity. }
  assert (Hpos : forall m q : positive,
             Zpos (m * 2 ^ q) = Zpos m * 2 ^ Zpos q).
  { intros m q. by rewrite Pos2Z.inj_mul, Pos2Z.inj_pow. }
  induction k as [k IH|k IH|]; intros m; cbn [SpecFloat.iter_pos].
  - assert (Hk : Zpos m * 2 ^ Zpos k~1 = Zpos (m * 2 ^ k * 2 ^ k) * 2).
    { rewrite !Hpos.
      replace (Zpos k~1) with (Zpos k + Zpos k + 1) by lia.
      rewrite !Z.pow_add_r by lia. lia. }
    rewrite Hk, Hone, Hpos, IH, Hpos. apply IH.
  - assert (Hk : Zpos m * 2 ^ Zpos k~0 = Zpos (m * 2 ^ k) * 2 ^ Zpos k).
    { rewrite !Hpos.
      replace (Zpos k~0) with (Zpos k + Zpos k) by lia.
      rewrite !Z.pow_add_r by lia. lia. }
    rewrite Hk, IH, Hpos. apply IH.
  - rewrite Z.pow_1_r. apply Hone.
Qed.

(** A mantissa of 53 digits followed by [k] zero bits rounds to itself. *)
Lemma round_aux_exact s (M P : positive) k E :
  Zpos (digits2_pos M) = 53 ->
  0 <= k -> Zpos P = Zpos M * 2 ^ k ->
  -1074 <= E + k <= 971 ->
  binary_round_aux 53 1024 s (Zpos P) E loc_Exact = S754_finite s M (E + k).
Proof.
  intros HM Hk HP Hrange.
  assert (HdP : Zpos (digits2_pos P) = 53 + k)
    by (rewrite (digits_shift M k P Hk HP); lia).
  unfold binary_round_aux, shr_fexp.
  cbn [Zdigits2 shr_record_of_loc].
  rewrite HdP, fexp_normal by lia.
  replace (53 + k + E - 53 - E) with k by lia.
  assert (Hshr : shr {| shr_m := Zpos P; shr_r := false; shr_s := false |} E k
                 = ({| shr_m := Zpos M; shr_r := false; shr_s := false |}, E + k)).
  { unfold shr. destruct k as [|k|k]; [| |lia].
    - rewrite Z.pow_0_r, Z.mul_1_r in HP. injection HP as ->.
      by rewrite Z.add_0_r.
    - rewrite HP, iter_shr_exact. reflexivity. }
  rewrite Hshr.
  cbn [loc_of_shr_record shr_m round_nearest_even Zdigits2 shr_record_of_loc].
  rewrite HM, fexp_normal by lia.
  replace (53 + (E + k) - 53 - (E + k)) with 0 by lia.
  cbn [shr shr_m].
  destruct (E + k <=? 1024 - 53) eqn:Hle; [reflexivity|lia].
Qed.

Lemma iter_xO_value q (P : positive) :
  Zpos (Pos.iter xO P q) = Zpos P * 2 ^ Zpos q.
Proof.
  induction q as [|q IH] using Pos.peano_ind.
  - cbn. lia.
  - rewrite Pos.iter_succ, Pos2Z.inj_xO, IH, Pos2Z.inj_succ, Z.pow_succ_r; lia.
Qed.

Lemma shl_align_value m e e' :
  e' <= e ->
  shl_align m e e' = (Z.to_pos (Zpos m * 2 ^ (e - e')), e').
Proof.
  intros Hle. unfold shl_align.
  destruct (e' - e) as [|d|d] eqn:Hd; [|lia|].
  - replace (e - e') with 0 by lia. replace e' with e by lia.
    by rewrite Z.pow_0_r, Z.mul_1_r.
  - replace (e - e') with (Zpos d) by lia.
    by rewrite <- iter_xO_value.
Qed.

Lemma shl_align_none m e e' : e <= e' -> shl_align m e e' = (m, e).
Proof.
  intros Hle. unfold shl_align. destruct (e' - e) eqn:Hd; [done|done|lia].
Qed.

(** Rounding a value [p * 2 ^ (E + j)] whose odd part fits in 53 bits
    gives its canonical representation, whatever the scaling [j]. *)
Lemma round_canonical s p j E P :
  Zpos P = Zpos p * 2 ^ j -> 0 <= j -> Zpos p < 2 ^ 53 ->
  -1074 <= E + j - (53 - Zpos (digits2_pos p)) <= 971 ->
  exists M,
    Zpos M = Zpos p * 2 ^ (53 - Zpos (digits2_pos p))
    /\ binary_round 53 1024 s P E
       = S754_finite s M (E + j - (53 - Zpos (digits2_pos p))).
Proof.
  intros HP Hj Hp Hrange.
  pose proof (digits_le_53 p Hp) as Hd.
  set (d := Zpos (digits2_pos p)) in *.
  assert (Hpow : 0 < 2 ^ (53 - d)) by (apply Z.pow_pos_nonneg; lia).
  set (M := Z.to_pos (Zpos p * 2 ^ (53 - d))).
  assert (HM : Zpos M = Zpos p * 2 ^ (53 - d)) by (unfold M; lia).
  assert (HdM : Zpos (digits2_pos M) = 53).
  { rewrite (digits_shift p (53 - d) M) by (lia || done). fold d. lia. }
  exists M. split; [exact HM|].
  unfold binary_round.
  rewrite (digits_shift p j P Hj HP). fold d.
  rewrite fexp_normal by lia.
  destruct (Z_le_gt_dec (d + j) 53) as [Hsmall|Hbig].
  - rewrite shl_align_value by lia.
    replace (Z.to_pos (Zpos P * 2 ^ (E - (d + j + E - 53)))) with M.
    + rewrite (round_aux_exact s M M 0 (d + j + E - 53)); [|done|lia|lia|lia].
      f_equal. lia.
    + unfold M. f_equal. rewrite HP, <- Z.mul_assoc, <- Z.pow_add_r by lia.
      do 2 f_equal. lia.
  - rewrite shl_align_none by lia.
    rewrite (round_aux_exact s M P (d + j - 53) E); [|done|lia| |lia].
    + f_equal. lia.
    + rewrite HP, HM, <- Z.mul_assoc, <- Z.pow_add_r by lia.
      do 2 f_equal. lia.
Qed.

(** The same with the mantissa already at least 53 bits wide, as the
    product of two mantissas is. *)
Lemma round_aux_canonical s p j E P :
  Zpos P = Zpos p * 2 ^ j -> Zpos p < 2 ^ 53 ->
  53 <= Zpos (digits2_pos p) + j ->
  -1074 <= E + j - (53 - Zpos (digits2_pos p)) <= 971 ->
  binary_round_aux 53 1024 s (Zpos P) E loc_Exact = binary_round 53 1024 s P E.
Proof.
  intros HP Hp Hwide Hrange.
  pose proof (digits_le_53 p Hp) as Hd.
  unfold binary_round.
  rewrite (digits_shift p j P) by (lia || done).
  rewrite fexp_normal by lia.
  by rewrite shl_align_none by lia.
Qed.

Lemma normalize_exact n j E :
  Z.abs n < 2 ^ 53 -> 0 <= j -> E + j = -2 ->
  binary_normalize 53 1024 (n * 2 ^ j) E false = Spec.quarter_degrees n.
Proof.
  intros Hn Hj HE. unfold Spec.quarter_degrees, F.prec, F.emax.
  assert (Hpow : 0 < 2 ^ j) by (apply Z.pow_pos_nonneg; lia).
  destruct n as [|p|p].
  - reflexivity.
  - pose proof (digits_le_53 p Hn) as Hd.
    pose proof (digits_bounds p) as Hb.
    assert (Hd1 : 1 <= Zpos (digits2_pos p)) by lia.
    destruct (Zpos p * 2 ^ j) as [|P|P] eqn:HP; [lia| |lia].
    cbn [binary_normalize].
    destruct (round_canonical false p j E P) as (M & HM & ->);
      [lia|lia|lia|lia|].
    destruct (round_canonical false p 0 (-2) p) as (M' & HM' & ->);
      [lia|lia|lia|lia|].
    assert (M = M') as -> by lia. f_equal. lia.
  - pose proof (digits_le_53 p Hn) as Hd.
    pose proof (digits_bounds p) as Hb.
    assert (Hd1 : 1 <= Zpos (digits2_pos p)) by lia.
    destruct (Zneg p * 2 ^ j) as [|P|P] eqn:HP; [lia|lia|].
    cbn [binary_normalize].
    destruct (round_canonical true p j E P) as (M & HM & ->);
      [lia|lia|lia|lia|].
    destruct (round_canonical true p 0 (-2) p) as (M' & HM' & ->);
      [lia|lia|lia|lia|].
    assert (M = M') as -> by lia. f_equal. lia.
Qed.

(** The representation of a non-zero number of quarters. *)
Lemma quarter_finite n :
  n <> 0 -> Z.abs n < 2 ^ 53 ->
  exists M d,
    Spec.quarter_degrees n = S754_finite (n <? 0) M (d - 55)
    /\ Zpos M = Z.abs n * 2 ^ (53 - d)
    /\ 1 <= d <= 53.
Proof.
  intros Hn0 Hn. unfold Spec.quarter_degrees, F.prec, F.emax.
  destruct n as [|p|p]; [done| |].
  - pose proof (digits_le_53 p Hn) as Hd.
    destruct (round_canonical false p 0 (-2) p) as (M & HM & Hround);
      [lia|lia|lia|lia|].
    exists M, (Zpos (digits2_pos p)). cbn [binary_normalize].
    rewrite Hround. split; [f_equal; lia|]. split; [exact HM|lia].
  - pose proof (digits_le_53 p Hn) as Hd.
    destruct (round_canonical true p 0 (-2) p) as (M & HM & Hround);
      [lia|lia|lia|lia|].
    exists M, (Zpos (digits2_pos p)). cbn [binary_normalize].
    rewrite Hround. split; [f_equal; lia|]. split; [exact HM|lia].
Qed.

Lemma aligned_quarter n M d ez :
  n <> 0 -> Zpos M = Z.abs n * 2 ^ (53 - d) -> 1 <= d <= 53 -> ez <= d - 55 ->
  cond_Zopp (n <? 0) (Zpos (fst (shl_align M (d - 55) ez))) = n * 2 ^ (-2 - ez).
Proof.
  intros Hn HM Hd Hez.
  rewrite shl_align_value by lia. cbn [fst].
  assert (Hpow : 0 < 2 ^ (d - 55 - ez)) by (apply Z.pow_pos_nonneg; lia).
  rewrite Z2Pos.id by lia.
  rewrite HM, <- Z.mul_assoc, <- Z.pow_add_r by lia.
  replace (53 - d + (d - 55 - ez)) with (-2 - ez) by lia.
  unfold cond_Zopp. destruct (n <? 0) eqn:Hs.
  - rewrite Z.abs_neq by lia. lia.
  - rewrite Z.abs_eq by lia. lia.
Qed.

Lemma sub_finite sx mx ex sy my ey :
  F.sub (S754_finite sx mx ex) (S754_finite sy my ey)
  = binary_normalize 53 1024
      (cond_Zopp sx (Zpos (fst (shl_align mx ex (Z.min ex ey))))
       - cond_Zopp sy (Zpos (fst (shl_align my ey (Z.min ex ey)))))
      (Z.min ex ey) false.
Proof. reflexivity. Qed.

Lemma add_finite sx mx ex sy my ey :
  F.add (S754_finite sx mx ex) (S754_finite sy my ey)
  = binary_normalize 53 1024
      (cond_Zopp sx (Zpos (fst (shl_align mx ex (Z.min ex ey))))
       + cond_Zopp sy (Zpos (fst (shl_align my ey (Z.min ex ey)))))
      (Z.min ex ey) false.
Proof. reflexivity. Qed.

Lemma mul_finite sx mx ex sy my ey :
  F.mul (S754_finite sx mx ex) (S754_finite sy my ey)
  = binary_round_aux 53 1024 (xorb sx sy) (Zpos (mx * my)) (ex + ey) loc_Exact.
Proof. reflexivity. Qed.

Lemma quarter_sub a b :
  a <> 0 -> b <> 0 ->
  Z.abs a < 2 ^ 53 -> Z.abs b < 2 ^ 53 -> Z.abs (a - b) < 2 ^ 53 ->
  F.sub (Spec.quarter_degrees a) (Spec.quarter_degrees b)
  = Spec.quarter_degrees (a - b).
Proof.
  intros Ha0 Hb0 Ha Hb Hab.
  destruct (quarter_finite a Ha0 Ha) as (Ma & da & -> & HMa & Hda).
  destruct (quarter_finite b Hb0 Hb) as (Mb & db & -> & HMb & Hdb).
  rewrite sub_finite.
  rewrite (aligned_quarter a), (aligned_quarter b) by (done || lia).
  rewrite <- Z.mul_sub_distr_r.
  apply normalize_exact; lia.
Qed.

Lemma quarter_add a b :
  a <> 0 -> b <> 0 ->
  Z.abs a < 2 ^ 53 -> Z.abs b < 2 ^ 53 -> Z.abs (a + b) < 2 ^ 53 ->
  F.add (Spec.quarter_degrees a) (Spec.quarter_degrees b)
  = Spec.quarter_degrees (a + b).
Proof.
  intros Ha0 Hb0 Ha Hb Hab.
  destruct (quarter_finite a Ha0 Ha) as (Ma & da & -> & HMa & Hda).
  destruct (quarter_finite b Hb0 Hb) as (Mb & db & -> & HMb & Hdb).
  rewrite add_finite.
  rewrite (aligned_quarter a), (aligned_quarter b) by (done || lia).
  rewrite <- Z.mul_add_distr_r.
  apply normalize_exact; lia.
Qed.

(** The binary64 number of an integer below [2 ^ 53]. *)
Lemma of_Z_finite u :
  u <> 0 -> Z.abs u < 2 ^ 53 ->
  exists M d,
    F.of_Z u = S754_finite (u <? 0) M (d - 53)
    /\ Zpos M = Z.abs u * 2 ^ (53 - d)
    /\ 1 <= d <= 53
    /\ 2 ^ (d - 1) <= Z.abs u.
Proof.
  intros Hu0 Hu. unfold F.of_Z, F.prec, F.emax.
  destruct u as [|p|p]; [done| |].
  - pose proof (digits_le_53 p Hu) as Hd.
    pose proof (digits_bounds p) as Hb.
    destruct (round_canonical false p 0 0 p) as (M & HM & Hround);
      [lia|lia|lia|lia|].
    exists M, (Zpos (digits2_pos p)). cbn [binary_normalize].
    rewrite Hround. split; [f_equal; lia|]. split; [exact HM|].
    split; [lia|]. cbn [Z.abs]. lia.
  - pose proof (digits_le_53 p Hu) as Hd.
    pose proof (digits_bounds p) as Hb.
    destruct (round_canonical true p 0 0 p) as (M & HM & Hround);
      [lia|lia|lia|lia|].
    exists M, (Zpos (digits2_pos p)). cbn [binary_normalize].
    rewrite Hround. split; [f_equal; lia|]. split; [exact HM|].
    split; [lia|]. cbn [Z.abs]. lia.
Qed.

Lemma c11_25_value : c11_25 = S754_finite false 6333186975989760 (-49).
Proof. vm_compute. reflexivity. Qed.

(** [11.25 * u] is exact while [45 * u] fits in 53 bits. *)
Lemma mul_quarter u :
  Z.abs u <= 2 ^ 47 ->
  F.mul c11_25 (F.of_Z u) = Spec.quarter_degrees (45 * u).
Proof.
  intros Hu. destruct (Z.eq_dec u 0) as [->|Hu0]; [vm_compute; reflexivity|].
  assert (Hpow47 : 2 ^ 47 = 140737488355328) by reflexivity.
  assert (Hpow53 : 2 ^ 53 = 9007199254740992) by reflexivity.
  destruct (of_Z_finite u Hu0) as (M & d & -> & HM & Hd & Hlo); [lia|].
  rewrite c11_25_value, mul_finite. cbn [xorb].
  set (p := Z.to_pos (45 * Z.abs u)).
  assert (Hp : Zpos p = 45 * Z.abs u) by (unfold p; lia).
  assert (Hpow : 0 < 2 ^ (53 - d)) by (apply Z.pow_pos_nonneg; lia).
  assert (HP : Zpos (6333186975989760 * M) = Zpos p * 2 ^ (100 - d)).
  { rewrite Pos2Z.inj_mul, HM, Hp.
    replace (100 - d) with (47 + (53 - d)) by lia.
    rewrite Z.pow_add_r by lia. rewrite Hpow47. lia. }
  assert (Hdp : d + 5 <= Zpos (digits2_pos p)).
  { pose proof (digits_bounds p) as [_ Hhi].
    destruct (Z_le_gt_dec (d + 5) (Zpos (digits2_pos p))) as [|Hgt]; [done|].
    assert (2 ^ Zpos (digits2_pos p) <= 2 ^ (d + 4))
      by (apply Z.pow_le_mono_r; lia).
    replace (d + 4) with (5 + (d - 1)) in * by lia.
    rewrite Z.pow_add_r in * by lia.
    change (2 ^ 5) with 32 in *. lia. }
  assert (Hp53 : Zpos p < 2 ^ 53) by lia.
  pose proof (digits_le_53 p Hp53) as Hdp53.
  rewrite (round_aux_canonical (u <? 0) p (100 - d) (-49 + (d - 53))
             (6333186975989760 * M)) by (done || lia).
  rewrite <- (normalize_exact (45 * u) (100 - d) (-49 + (d - 53)))
    by lia.
  destruct (u <? 0) eqn:Hs.
  - replace (45 * u * 2 ^ (100 - d)) with (Zneg (6333186975989760 * M)).
    + reflexivity.
    + rewrite <- Pos2Z.opp_pos, HP, Hp. rewrite Z.abs_neq by lia. lia.
  - replace (45 * u * 2 ^ (100 - d)) with (Zpos (6333186975989760 * M)).
    + reflexivity.
    + rewrite HP, Hp. rewrite Z.abs_eq by lia. lia.
Qed.

Lemma quarter_1440_value :
  Spec.quarter_degrees 1440 = S754_finite false 6333186975989760 (-44).
Proof. vm_compute. reflexivity. Qed.

Lemma fmod_finite sx mx ex sy my ey :
  F.fmod (S754_finite sx mx ex) (S754_finite sy my ey)
  = let e := Z.min ex ey in
    let r := Z.shiftl (Zpos mx) (ex - e) mod Z.shiftl (Zpos my) (ey - e) in
    if r =? 0 then S754_zero sx
    else binary_normalize 53 1024 (if sx then - r else r) e false.
Proof. reflexivity. Qed.

(** The remainder of a number of quarters by a full turn is exact. *)
Lemma fmod_quarter n :
  n <> 0 -> Z.abs n < 2 ^ 53 ->
  F.fmod (Spec.quarter_degrees n) (Spec.quarter_degrees 1440)
  = if Z.abs n mod 1440 =? 0 then S754_zero (n <? 0)
    else Spec.quarter_degrees (Z.sgn n * (Z.abs n mod 1440)).
Proof.
  intros Hn0 Hn.
  destruct (quarter_finite n Hn0 Hn) as (M & d & -> & HM & Hd).
  rewrite quarter_1440_value, fmod_finite. cbv zeta.
  set (e := Z.min (d - 55) (-44)).
  assert (He : e <= -44 /\ e <= d - 55) by (unfold e; lia).
  assert (Hpj : 0 < 2 ^ (-2 - e)) by (apply Z.pow_pos_nonneg; lia).
  assert (HX : Z.shiftl (Zpos M) (d - 55 - e) = Z.abs n * 2 ^ (-2 - e)).
  { rewrite Z.shiftl_mul_pow2 by lia.
    rewrite HM, <- Z.mul_assoc, <- Z.pow_add_r by lia.
    do 2 f_equal. lia. }
  assert (HY : Z.shiftl 6333186975989760 (-44 - e) = 1440 * 2 ^ (-2 - e)).
  { rewrite Z.shiftl_mul_pow2 by lia.
    replace (-2 - e) with (42 + (-44 - e)) by lia.
    rewrite Z.pow_add_r by lia.
    change (2 ^ 42) with 4398046511104. lia. }
  rewrite HX, HY.
  rewrite Z.mul_mod_distr_r by lia.
  pose proof (Z.mod_pos_bound (Z.abs n) 1440 ltac:(lia)) as Hr.
  destruct (Z.abs n mod 1440 =? 0) eqn:Hz.
  - apply Z.eqb_eq in Hz. by rewrite Hz.
  - apply Z.eqb_neq in Hz.
    destruct (Z.abs n mod 1440 * 2 ^ (-2 - e) =? 0) eqn:Hz'; [lia|].
    rewrite <- (normalize_exact (Z.sgn n * (Z.abs n mod 1440)) (-2 - e) e)
      by lia.
    f_equal. destruct (n <? 0) eqn:Hs.
    + rewrite Z.sgn_neg by lia. lia.
    + rewrite Z.sgn_pos by lia. lia.
Qed.

Lemma py_mod_quarter n :
  Z.abs n < 2 ^ 53 ->
  F.py_mod (Spec.quarter_degrees n) (Spec.quarter_degrees 1440)
  = Ok (Spec.quarter_degrees (n mod 1440)).
Proof.
  intros Hn.
  destruct (Z.eq_dec n 0) as [->|Hn0]; [vm_compute; reflexivity|].
  unfold F.py_mod.
  rewrite fmod_quarter by done.
  change (F.is_zero (Spec.quarter_degrees 1440)) with false.
  change (F.is_neg (Spec.quarter_degrees 1440)) with false.
  cbv iota.
  pose proof (Z.mod_pos_bound (Z.abs n) 1440 ltac:(lia)) as Hr.
  destruct (Z.abs n mod 1440 =? 0) eqn:Hz.
  - apply Z.eqb_eq in Hz. cbn [F.is_zero].
    assert (n mod 1440 = 0) as ->; [|reflexivity].
    destruct (Z.abs_spec n) as [[_ Habs] | [_ Habs]]; rewrite Habs in Hz.
    + done.
    + replace n with (- - n) by lia. by apply Z.mod_opp_l_z.
  - apply Z.eqb_neq in Hz.
    set (r := Z.sgn n * (Z.abs n mod 1440)).
    assert (Hr0 : r <> 0) by (unfold r; lia).
    assert (Hr53 : Z.abs r < 2 ^ 53).
    { change (2 ^ 53) with 9007199254740992. unfold r. lia. }
    destruct (quarter_finite r Hr0 Hr53) as (M & d & Hfin & _ & _).
    assert (Hneg : F.is_neg (Spec.quarter_degrees r) = (n <? 0)).
    { rewrite Hfin. unfold r.
      destruct (n <? 0) eqn:Hs.
      - rewrite Z.sgn_neg by lia.
        destruct (-1 * (Z.abs n mod 1440) <? 0) eqn:Hs'; [reflexivity|lia].
      - rewrite Z.sgn_pos by lia.
        destruct (1 * (Z.abs n mod 1440) <? 0) eqn:Hs'; [lia|reflexivity]. }
    rewrite Hneg.
    rewrite Hfin at 1. cbn [F.is_zero].
    destruct (n <? 0) eqn:Hs; cbn [Bool.eqb negb].
    + rewrite quarter_add;
        [|done|done|done|reflexivity|
         change (2 ^ 53) with 9007199254740992; unfold r; lia].
      do 2 f_equal. unfold r. rewrite Z.sgn_neg by lia.
      rewrite Z.abs_neq in * by lia.
      pose proof (Z.mod_opp_l_nz (- n) 1440 ltac:(lia) Hz) as Hopp.
      rewrite Z.opp_involutive in Hopp. lia.
    + do 2 f_equal. unfold r. rewrite Z.sgn_pos by lia.
      rewrite Z.abs_eq by lia. lia.
Qed.

(** Within the range where [45 * u] fits in 53 bits the orientation is
    the exact value of [(90 - 11.25 * u) mod 360]. *)
Lemma orientation_deg_exact u :
  Z.abs u <= 2 ^ 47 ->
  orientation_deg u = Ok (Spec.exact_orientation u).
Proof.
  intros Hu.
  assert (Hpow47 : 2 ^ 47 = 140737488355328) by reflexivity.
  assert (Hpow53 : 2 ^ 53 = 9007199254740992) by reflexivity.
  unfold orientation_deg, Spec.exact_orientation.
  assert (Hint : F.of_int u = Ok (F.of_Z u)).
  { unfold F.of_int. destruct (Z.eq_dec u 0) as [->|Hu0]; [reflexivity|].
    destruct (of_Z_finite u Hu0) as (M & d & -> & _); [lia|reflexivity]. }
  rewrite Hint. cbn [Py.bind].
  rewrite mul_quarter by done.
  change (F.of_Z 90) with (Spec.quarter_degrees 360).
  change (F.of_Z 360) with (Spec.quarter_degrees 1440).
  assert (Hsub : F.sub (Spec.quarter_degrees 360) (Spec.quarter_degrees (45 * u))
                 = Spec.quarter_degrees (360 - 45 * u)).
  { destruct (Z.eq_dec u 0) as [->|Hu0]; [vm_compute; reflexivity|].
    apply quarter_sub; lia. }
  rewrite Hsub. apply py_mod_quarter. lia.
Qed.

(** C3, amended. For every integer direction unit u with |u| <= 2^47
    (the detector emits 0..31), convert_min_to_txt computes the
    orientation in degrees as exactly (90 - 11.25 * u) mod 360; u = 0
    gives 90 degrees, u = 8 gives 0 degrees, and u and u + 32 give the
    same angle when both lie within the bound. *)
Theorem orientation_quantization_bounded (u : Z) :
  - 2 ^ 47 <= u <= 2 ^ 47 ->
  orientation_deg u = Ok (Spec.exact_orientation u)
  /\ orientation_deg 0 = Ok (F.of_Z 90)
  /\ orientation_deg 8 = Ok (S754_zero false)
  /\ (u + 32 <= 2 ^ 47 -> orientation_deg (u + 32) = orientation_deg u).
Proof.
  intros Hu.
  assert (Hpow47 : 2 ^ 47 = 140737488355328) by reflexivity.
  split; [apply orientation_deg_exact; lia|].
  split; [vm_compute; reflexivity|].
  split; [vm_compute; reflexivity|].
  intros Hu32.
  rewrite !orientation_deg_exact by lia.
  unfold Spec.exact_orientation. do 2 f_equal.
  replace (360 - 45 * (u + 32)) with (360 - 45 * u + (-1) * 1440) by lia.
  apply Z.mod_add. lia.
Qed.

Lemma orientation_quantization_bounded_witness :
  orientation_deg 5 = Ok (Spec.exact_orientation 5)
  /\ orientation_deg 37 = orientation_deg 5.
Proof.
  destruct (orientation_quantization_bounded 5) as (Hexact & _ & _ & Hwrap).
  - vm_compute. split; discriminate.
  - split; [exact Hexact|]. apply Hwrap. vm_compute. discriminate.
Defined.

(** C3 fails as stated: at u = 2^57 the binary64 arithmetic gives 0
    degrees where (90 - 11.25 * u) mod 360 is 90, and u + 32 gives 104
    degrees, a different angle. *)
Lemma wraparound_fails_at_2_pow_57 :
  orientation_deg (2 ^ 57) = Ok (S754_zero false)
  /\ Spec.exact_orientation (2 ^ 57) = F.of_Z 90
  /\ orientation_deg (2 ^ 57 + 32) = Ok (F.of_Z 104)
  /\ orientation_deg (2 ^ 57 + 32) <> orientation_deg (2 ^ 57).
Proof.
  repeat split; try (vm_compute; reflexivity).
  vm_compute. discriminate.
Qed.

(** ** The text of the written records *)

Lemma digit_char_is_digit d :
  0 <= d < 10 -> Text.is_digit (Text.digit_char d) = true.
Proof.
  intros Hd.
  assert (d = 0 \/ d = 1 \/ d = 2 \/ d = 3 \/ d = 4 \/ d = 5 \/ d = 6
          \/ d = 7 \/ d = 8 \/ d = 9) as Hcases by lia.
  repeat (destruct Hcases as [-> | Hcases]; [reflexivity|]).
  by subst d.
Qed.

Lemma digits_of_digits fuel :
  forall n acc,
    0 <= n ->
    Forall (fun c => Text.is_digit c = true) acc ->
    Forall (fun c => Text.is_digit c = true) (Text.digits_of fuel n acc).
Proof.
  induction fuel as [|fuel IH]; intros n acc Hn Hacc; cbn; [done|].
  destruct (n <? 10) eqn:Hlt.
  - constructor; [|done]. apply digit_char_is_digit. lia.
  - apply IH.
    + apply Z.div_pos; lia.
    + constructor; [|done]. apply digit_char_is_digit.
      apply Z.mod_pos_bound. lia.
Qed.

Lemma nat_digits_digits n :
  0 <= n -> Forall (fun c => Text.is_digit c = true) (Text.nat_digits n).
Proof. intros Hn. by apply digits_of_digits. Qed.

Lemma digit_record_char c : Text.is_digit c = true -> record_char c = true.
Proof. intros Hc. unfold record_char. by rewrite Hc. Qed.

Lemma of_int_chars n :
  Forall (fun c => record_char c = true) (Text.chars (Text.of_int n)).
Proof.
  unfold Text.of_int. destruct (n <? 0) eqn:Hs.
  - rewrite chars_app, chars_text. apply Forall_app. split.
    + by repeat constructor.
    + eapply Forall_impl; [apply nat_digits_digits; lia|].
      apply digit_record_char.
  - rewrite chars_text.
    eapply Forall_impl; [apply nat_digits_digits; lia|].
    apply digit_record_char.
Qed.

Lemma strip_zeros_rev_forall (P : ascii -> Prop) l :
  Forall P l -> Forall P (strip_zeros_rev l).
Proof.
  induction 1 as [|c l Hc Hl IH]; cbn; [done|].
  destruct (Ascii.eqb c "0"); [done|]. by constructor.
Qed.

Lemma zeros_record_chars n :
  Forall (fun c => record_char c = true) (Num.zeros n).
Proof.
  unfold Num.zeros. apply Forall_forall. intros c Hc.
  apply list_elem_of_In, repeat_spec in Hc. by subst c.
Qed.

Lemma layout_chars ds decpt :
  Forall (fun c => Text.is_digit c = true) ds ->
  Forall (fun c => record_char c = true) (layout ds decpt).
Proof.
  intros Hds.
  assert (Hrec : Forall (fun c => record_char c = true) ds).
  { eapply Forall_impl; [exact Hds|]. apply digit_record_char. }
  unfold layout.
  destruct ((decpt <=? -4) || (16 <? decpt)).
  - apply Forall_app. split.
    + destruct ds as [|d [|d' rest]]; [done|done|].
      inversion Hrec as [|? ? Hd Hrest]; subst.
      constructor; [done|]. by constructor.
    + constructor; [done|]. constructor; [by destruct (_ <? 0)|].
      assert (Hex : Forall (fun c => record_char c = true)
                      (Text.nat_digits (Z.abs (decpt - 1)))).
      { eapply Forall_impl; [apply nat_digits_digits; lia|].
        apply digit_record_char. }
      destruct (Z.abs (decpt - 1) <? 10); [by constructor|done].
  - destruct (decpt <=? 0).
    + constructor; [done|]. constructor; [done|].
      apply Forall_app. split; [apply zeros_record_chars|done].
    + destruct (_ <=? decpt).
      * apply Forall_app. split; [done|].
        apply Forall_app. split; [apply zeros_record_chars|].
        by repeat constructor.
      * apply Forall_app. split; [by apply Forall_take|].
        constructor; [done|]. by apply Forall_drop.
Qed.

Lemma candidates_nonneg num den k n c :
  0 < num -> 0 < den -> c ∈ candidates num den k n -> 0 <= c.
Proof.
  intros Hnum Hden. unfold candidates.
  set (sn := if 0 <=? n - k then num * 10 ^ (n - k) else num).
  set (sd := if 0 <=? n - k then den else den * 10 ^ (k - n)).
  assert (Hsn : 0 <= sn).
  { unfold sn. destruct (0 <=? n - k) eqn:E; [|lia].
    apply Z.mul_nonneg_nonneg; [lia|]. apply Z.pow_nonneg. lia. }
  assert (Hsd : 0 < sd).
  { unfold sd. destruct (0 <=? n - k) eqn:E; [done|].
    apply Z.mul_pos_pos; [done|]. apply Z.pow_pos_nonneg; lia. }
  assert (Hlo : 0 <= sn / sd) by (apply Z.div_pos; lia).
  destruct (2 * (sn mod sd) ?= sd); [destruct (Z.even _)| |];
    intros Hc; apply elem_of_cons in Hc as [-> | Hc];
    try apply list_elem_of_singleton in Hc; subst; lia.
Qed.

Lemma shortest_nonneg fuel x num den k :
  0 < num -> 0 < den ->
  forall n, 0 <= fst (shortest fuel x num den k n).
Proof.
  intros Hnum Hden.
  induction fuel as [|fuel IH]; intros n; cbn [shortest]; [done|].
  destruct (filter _ (candidates num den k n)) as [|c cs] eqn:Hf; [apply IH|].
  cbn [fst].
  assert (Hin : c ∈ filter (fun c => F.eqb (F.of_decimal false c (k - n)) x)
                  (candidates num den k n))
    by (rewrite Hf; apply list_elem_of_here).
  apply list_elem_of_filter in Hin as [_ Hin].
  exact (candidates_nonneg num den k n c Hnum Hden Hin).
Qed.

Lemma repr_finite_chars x m e :
  Forall (fun c => record_char c = true) (Text.chars (repr_finite x m e)).
Proof.
  unfold repr_finite.
  set (num := if 0 <=? e then Z.shiftl (Zpos m) e else Zpos m).
  set (den := if 0 <=? e then 1 else 2 ^ (- e)).
  assert (Hnum : 0 < num).
  { unfold num. destruct (0 <=? e) eqn:E; [|done].
    rewrite Z.shiftl_mul_pow2 by lia.
    apply Z.mul_pos_pos; [done|]. apply Z.pow_pos_nonneg; lia. }
  assert (Hden : 0 < den).
  { unfold den. destruct (0 <=? e) eqn:E; [done|].
    apply Z.pow_pos_nonneg; lia. }
  pose proof (shortest_nonneg 17 x num den (decimal_point num den)
                Hnum Hden 1) as Hc.
  destruct (shortest 17 x num den (decimal_point num den) 1) as [c p].
  cbn [fst] in Hc. rewrite chars_text.
  apply layout_chars.
  apply Forall_rev, strip_zeros_rev_forall, Forall_rev.
  by apply nat_digits_digits.
Qed.

Lemma float_repr_chars x :
  Forall (fun c => record_char c = true) (Text.chars (float_repr x)).
Proof.
  destruct x as [s|s| |s m e]; cbn [float_repr].
  - destruct s; by repeat constructor.
  - destruct s; by repeat constructor.
  - by repeat constructor.
  - rewrite chars_app. apply Forall_app. split.
    + destruct s; by repeat constructor.
    + apply repr_finite_chars.
Qed.

Lemma parse_record_chars q line d :
  parse_record q line = Ok (Some d) ->
  Forall (fun c => record_char c = true) (Text.chars d).
Proof.
  unfold parse_record.
  destruct (length _ <? 5)%nat; [done|].
  destruct (parse_int_pair _) as [xy|]; cbn [Py.bind]; [|done].
  destruct (parse_int _) as [u|]; cbn [Py.bind]; [|done].
  destruct (orientation_deg u) as [o|]; cbn [Py.bind]; [|done].
  destruct (parse_float _) as [quality|]; cbn [Py.bind]; [|done].
  destruct (F.ltb quality q); [done|].
  intros [= <-].
  rewrite !chars_app. repeat (apply Forall_app; split).
  all: first [ apply of_int_chars | apply float_repr_chars
             | by repeat constructor ].
Qed.

Lemma convert_line_chars q line d :
  convert_line q line = Ok (Some d) ->
  Forall (fun c => record_char c = true) (Text.chars d).
Proof.
  unfold convert_line.
  destruct (String.eqb _ ""); [done|].
  destruct (parse_record q (Text.strip line)) as [[d'|]|e] eqn:Hrec.
  - intros [= <-]. by eapply parse_record_chars.
  - done.
  - by destruct (is_value_or_index e).
Qed.

Lemma collect_records_chars q lines :
  forall acc data,
    collect_records q lines acc = Ok data ->
    Forall (fun d => Forall (fun c => record_char c = true) (Text.chars d)) acc ->
    Forall (fun d => Forall (fun c => record_char c = true) (Text.chars d)) data.
Proof.
  induction lines as [|line lines IH]; intros acc data; cbn [collect_records].
  - by intros [= <-].
  - destruct (convert_line q line) as [[d|]|e] eqn:Hline; [| |done].
    + intros Hrest Hacc. apply (IH _ _ Hrest).
      apply Forall_app. split; [done|].
      constructor; [|done]. by eapply convert_line_chars.
    + apply IH.
Qed.

Lemma chars_concat (l : list string) :
  Text.chars (String.concat "" l) = List.concat (map Text.chars l).
Proof.
  induction l as [|s l IH]; [done|].
  destruct l as [|s' l].
  - cbn. by rewrite app_nil_r.
  - change (String.concat "" (s :: s' :: l))
      with (s +:+ "" +:+ String.concat "" (s' :: l)).
    rewrite !chars_app, IH. reflexivity.
Qed.

Lemma file_text_chars data :
  Forall (fun d => Forall (fun c => record_char c = true) (Text.chars d)) data ->
  Forall (fun c => file_char c = true) (Text.chars (file_text data)).
Proof.
  intros Hdata. unfold file_text. rewrite chars_concat.
  induction Hdata as [|d data Hd _ IH]; cbn; [done|].
  rewrite chars_app. rewrite <- app_assoc.
  apply Forall_app. split.
  - eapply Forall_impl; [exact Hd|].
    intros c Hc. unfold file_char. by rewrite Hc.
  - apply Forall_app. split; [by repeat constructor|done].
Qed.

Lemma file_text_last data :
  data <> [] ->
  exists l, Text.chars (file_text data) = (l ++ ["n"%char])%list.
Proof.
  intros Hne. unfold file_text. rewrite chars_concat.
  destruct (exists_last Hne) as (init & d & ->).
  rewrite !map_app, concat_app. cbn.
  rewrite chars_app, app_nil_r.
  exists (List.concat (map Text.chars (map (fun data => data +:+ record_end) init))
          ++ Text.chars d ++ ["\"%char])%list.
  rewrite <- !app_assoc. reflexivity.
Qed.

Lemma file_char_not_eol c : file_char c = true -> is_eol c = false.
Proof.
  destruct c as [[] [] [] [] [] [] [] []]; vm_compute; congruence.
Qed.

Lemma file_char_not_hash c : file_char c = true -> Ascii.eqb c "#" = false.
Proof.
  destruct c as [[] [] [] [] [] [] [] []]; vm_compute; congruence.
Qed.

Lemma lines_from_no_eol l :
  forall after_cr cur,
    Forall (fun c => is_eol c = false) l ->
    Text.lines_from after_cr cur l
    = match (rev cur ++ l)%list with
      | [] => []
      | line => [line]
      end.
Proof.
  induction l as [|c l IH]; intros after_cr cur Hl; cbn [Text.lines_from].
  - rewrite app_nil_r. destruct cur as [|c cur]; [done|].
    cbn. by destruct (rev cur ++ [c])%list eqn:E; [destruct (rev cur)|].
  - inversion Hl as [|? ? Hc Hrest]; subst.
    unfold is_eol in Hc. apply orb_false_iff in Hc as [-> ->].
    rewrite (IH false (c :: cur) Hrest). cbn [rev].
    by rewrite <- app_assoc.
Qed.

Lemma lstrip_keeps_last l x :
  Text.is_space x = false ->
  exists l', Text.lstrip (l ++ [x]) = (l' ++ [x])%list.
Proof.
  intros Hx. induction l as [|c l IH]; cbn.
  - rewrite Hx. by exists [].
  - destruct (Text.is_space c); [exact IH|]. by exists (c :: l).
Qed.

Lemma strip_chars_nonempty l x :
  Text.is_space x = false -> Text.strip_chars (l ++ [x]) <> [].
Proof.
  intros Hx. unfold Text.strip_chars.
  destruct (lstrip_keeps_last l x Hx) as [l' ->].
  rewrite rev_app_distr. cbn. rewrite Hx. cbn.
  by destruct (rev (rev l')).
Qed.

(** A written file is one line of text, however many records it holds. *)
Lemma file_text_one_line data :
  data <> [] ->
  Forall (fun d => Forall (fun c => record_char c = true) (Text.chars d)) data ->
  Text.readlines (file_text data) = [file_text data]
  /\ line_count (file_text data) = 1.
Proof.
  intros Hne Hdata.
  pose proof (file_text_chars data Hdata) as Hchars.
  destruct (file_text_last data Hne) as [l Hlast].
  assert (Hlines : Text.readlines (file_text data) = [file_text data]).
  { unfold Text.readlines.
    rewrite lines_from_no_eol.
    - cbn [rev app].
      destruct (Text.chars (file_text data)) as [|c cs] eqn:E.
      + rewrite Hlast in E. by destruct l.
      + rewrite <- E. cbn [map]. by rewrite text_chars.
    - eapply Forall_impl; [exact Hchars|]. apply file_char_not_eol. }
  split; [exact Hlines|].
  unfold line_count. rewrite Hlines, filter_cons, filter_nil.
  destruct (String.eqb (Text.strip (file_text data)) "") eqn:Hblank.
  - apply String.eqb_eq in Hblank. unfold Text.strip in Hblank.
    rewrite Hlast in Hblank.
    pose proof (strip_chars_nonempty l "n"%char eq_refl) as Hstrip.
    by destruct (Text.strip_chars (l ++ ["n"%char])).
  - destruct (decide _) as [_|Hn]; [reflexivity|]. by destruct Hn.
Qed.

Lemma convert_min_to_txt_written mk fs p out q fs' txt :
  convert_min_to_txt mk fs p out q = (fs', Some txt) ->
  exists data,
    data <> []
    /\ Forall (fun d => Forall (fun c => record_char c = true) (Text.chars d))
              data
    /\ txt = output_path p out
    /\ fs' = <[txt := file_text data]> fs.
Proof.
  intros Hconv.
  destruct (convert_min_to_txt_cases mk fs p out q)
    as [Hnone | (data & Hne & _ & Hdata & Hsome)]; [congruence|].
  rewrite Hsome in Hconv. injection Hconv as <- <-.
  exists data. split; [done|]. split; [|done].
  by eapply collect_records_chars.
Qed.

(** X1. Whatever the number of records, the file that
    convert_min_to_txt writes is a single line of text: the records
    follow each other on it, and counting its non-blank lines gives 1. *)
Theorem written_file_is_one_line
  (makedirs_env : string -> result unit)
  (fs fs' : store) (min_file_path output_dir txt : string) (q : F.float) :
  convert_min_to_txt makedirs_env fs min_file_path output_dir q
  = (fs', Some txt) ->
  exists content,
    fs' !! txt = Some content
    /\ Text.readlines content = [content]
    /\ line_count content = 1.
Proof.
  intros Hconv.
  destruct (convert_min_to_txt_written _ _ _ _ _ _ _ Hconv)
    as (data & Hne & Hchars & _ & ->).
  exists (file_text data). split; [apply lookup_insert_eq|].
  by apply file_text_one_line.
Qed.

Lemma written_file_is_one_line_witness :
  exists content,
    fst (convert_min_to_txt Sample.dirs_ok
           (Sample.in_store Sample.scenario_quality_first)
           "in/scan.min" "out" Sample.no_threshold) !! "out/scan.txt"
    = Some content
    /\ Text.readlines content = [content]
    /\ line_count content = 1.
Proof.
  apply (written_file_is_one_line Sample.dirs_ok
           (Sample.in_store Sample.scenario_quality_first) _
           "in/scan.min" "out" "out/scan.txt" Sample.no_threshold).
  vm_compute. reflexivity.
Defined.

Lemma convert_step_keeps_nothing mk out q n st f :
  2 <= n ->
  succeeded (convert_step mk out q n st f) = succeeded st
  /\ forall p c,
       batch_store (convert_step mk out q n st f) !! p = Some c ->
       batch_store st !! p = Some c.
Proof.
  intros Hn. destruct st as [[fs s] t]. unfold convert_step.
  destruct (convert_min_to_txt mk fs f out q) as [fs1 [txt|]] eqn:Hconv;
    cbn [batch_store succeeded fst snd].
  - destruct (convert_min_to_txt_written _ _ _ _ _ _ _ Hconv)
      as (data & Hne & Hchars & -> & ->).
    rewrite output_path_nonempty. unfold read_file.
    rewrite lookup_insert_eq.
    destruct (file_text_one_line data Hne Hchars) as [_ ->].
    destruct (n <=? 1) eqn:Hle; [lia|].
    cbn [batch_store succeeded fst snd]. split; [done|].
    intros p c Hp.
    destruct (decide (p = output_path f out)) as [->|Hneq].
    + by rewrite lookup_delete_eq in Hp.
    + by rewrite lookup_delete_ne, lookup_insert_ne in Hp.
  - destruct (convert_min_to_txt_cases mk fs f out q)
      as [Hnone | (data & _ & _ & _ & Hsome)]; [|congruence].
    rewrite Hnone in Hconv. injection Hconv as <-. done.
Qed.

Lemma convert_loop_keeps_nothing mk out q n :
  2 <= n ->
  forall files st,
    succeeded (fold_left (convert_step mk out q n) files st) = succeeded st
    /\ forall p c,
         batch_store (fold_left (convert_step mk out q n) files st) !! p
         = Some c ->
         batch_store st !! p = Some c.
Proof.
  intros Hn. induction files as [|f files IH]; intros st; cbn [fold_left];
    [done|].
  destruct (IH (convert_step mk out q n st f)) as [Hs Hp].
  destruct (convert_step_keeps_nothing mk out q n st f Hn) as [Hs1 Hp1].
  split; [congruence|]. intros p c Hpc. by apply Hp1, Hp.
Qed.



(** ** Reading back a written file *)

Lemma digit_val_float_char c d :
  Text.digit_val c = Some d -> float_char c = true.
Proof.
  intros Hd. unfold float_char, Text.is_digit. by rewrite Hd.
Qed.

Lemma lower_float_char c :
  float_char (Text.lower_char c) = true -> float_char c = true.
Proof.
  destruct c as [[] [] [] [] [] [] [] []]; vm_compute; congruence.
Qed.

Lemma span_digits_chars us l :
  forall prev ds r,
    span_digits us prev l = Some (ds, r) ->
    exists pre,
      l = (pre ++ r)%list /\ Forall (fun c => float_char c = true) pre.
Proof.
  induction l as [|c l IH]; intros prev ds r; cbn [span_digits].
  - intros [= <- <-]. by exists [].
  - destruct (Text.digit_val c) as [d|] eqn:Hd.
    + destruct (span_digits us true l) as [[ds' r']|] eqn:Hrest; [|done].
      intros [= <- <-].
      destruct (IH _ _ _ Hrest) as (pre & -> & Hpre).
      exists (c :: pre). split; [done|].
      constructor; [by eapply digit_val_float_char|done].
    + destruct (us && prev && Ascii.eqb c "_") eqn:Hus.
      * destruct l as [|c2 l']; [done|].
        destruct (Text.is_digit c2); [|done].
        intros Hrest.
        destruct (IH _ _ _ Hrest) as (pre & Hl & Hpre).
        exists (c :: pre). split; [by rewrite Hl|].
        constructor; [|done].
        apply andb_true_iff in Hus as [_ Hc].
        apply Ascii.eqb_eq in Hc. by subst c.
      * intros [= <- <-]. by exists [].
Qed.

Lemma split_sign_chars l neg l' :
  split_sign l = (neg, l') ->
  Forall (fun c => float_char c = true) l' ->
  Forall (fun c => float_char c = true) l.
Proof.
  unfold split_sign. destruct l as [|c l]; [by intros [= <- <-]|].
  destruct (Ascii.eqb c "-") eqn:Hm.
  - intros [= <- <-] Hl. apply Ascii.eqb_eq in Hm. subst c. by constructor.
  - destruct (Ascii.eqb c "+") eqn:Hp.
    + intros [= <- <-] Hl. apply Ascii.eqb_eq in Hp. subst c. by constructor.
    + by intros [= <- <-].
Qed.

Lemma parse_exponent_chars us l ex :
  parse_exponent us l = Some ex -> Forall (fun c => float_char c = true) l.
Proof.
  unfold parse_exponent. destruct l as [|c l]; [done|].
  destruct (Ascii.eqb (Text.lower_char c) "e") eqn:He; [|done].
  destruct (split_sign l) as [neg l'] eqn:Hsign.
  destruct (span_digits us false l') as [[[|d ds] [|c' r]]|] eqn:Hspan;
    try done.
  intros _. constructor.
  - apply lower_float_char. apply Ascii.eqb_eq in He. by rewrite He.
  - apply (split_sign_chars _ _ _ Hsign).
    destruct (span_digits_chars _ _ _ _ _ Hspan) as (pre & -> & Hpre).
    by rewrite app_nil_r.
Qed.

Lemma lower_text_chars l s :
  lower_text l = s ->
  Forall (fun c => float_char c = true) (Text.chars s) ->
  Forall (fun c => float_char c = true) l.
Proof.
  intros <-. unfold lower_text. rewrite chars_text.
  intros Hl. apply Forall_map in Hl.
  eapply Forall_impl; [exact Hl|]. intros c. apply lower_float_char.
Qed.

(** A literal that converts holds only characters of a literal. *)
Lemma parse_float_chars_ok us l0 x :
  parse_float_chars us l0 = Ok x ->
  Forall (fun c => float_char c = true) l0.
Proof.
  unfold parse_float_chars.
  destruct (split_sign l0) as [neg l] eqn:Hsign.
  intros Hparse. apply (split_sign_chars _ _ _ Hsign). revert Hparse.
  destruct (String.eqb (lower_text l) "inf") eqn:Hinf.
  { intros _. apply String.eqb_eq in Hinf.
    apply (lower_text_chars _ _ Hinf). by repeat constructor. }
  destruct (String.eqb (lower_text l) "infinity") eqn:Hinfinity.
  { intros _. apply String.eqb_eq in Hinfinity.
    apply (lower_text_chars _ _ Hinfinity). by repeat constructor. }
  cbn [orb].
  destruct (String.eqb (lower_text l) "nan") eqn:Hnan.
  { intros _. apply String.eqb_eq in Hnan.
    apply (lower_text_chars _ _ Hnan). by repeat constructor. }
  destruct (span_digits us false l) as [[ip r]|] eqn:Hip; [|done].
  destruct (span_digits_chars _ _ _ _ _ Hip) as (pre & -> & Hpre).
  intros Hparse. apply Forall_app. split; [done|]. revert Hparse.
  destruct r as [|c r1].
  - done.
  - destruct (Ascii.eqb c ".") eqn:Hdot.
    + apply Ascii.eqb_eq in Hdot. subst c.
      destruct (span_digits us false r1) as [[fp r2]|] eqn:Hfp; [|done].
      destruct (span_digits_chars _ _ _ _ _ Hfp) as (pre2 & -> & Hpre2).
      destruct (ip ++ fp)%list; [done|].
      destruct (parse_exponent us r2) as [ex|] eqn:Hex; [|done].
      intros _. constructor; [done|].
      apply Forall_app. split; [done|].
      by eapply parse_exponent_chars.
    + destruct (ip ++ [])%list; [done|].
      destruct (parse_exponent us (c :: r1)) as [ex|] eqn:Hex; [|done].
      intros _. by eapply parse_exponent_chars.
Qed.

Lemma parse_token_raises t c :
  c ∈ Text.chars t -> float_char c = false ->
  exists e, parse_token t = Raise e.
Proof.
  intros Hin Hc. unfold parse_token.
  destruct (parse_float_chars false (Text.chars t)) as [x|e] eqn:Hparse;
    [|by exists e].
  apply parse_float_chars_ok in Hparse.
  eapply Forall_forall in Hparse; [|exact Hin]. congruence.
Qed.

Lemma elem_of_rev_list {A} (x : A) l : x ∈ l -> x ∈ rev l.
Proof.
  intros Hin. apply list_elem_of_In. apply -> in_rev. by apply list_elem_of_In.
Qed.

Lemma words_from_cover l :
  forall cur c,
    c ∈ cur \/ c ∈ l -> Text.is_space c = false ->
    exists w, w ∈ Text.words_from cur l /\ c ∈ w.
Proof.
  induction l as [|a l IH]; intros cur c Hin Hc; cbn [Text.words_from].
  - destruct Hin as [Hin | Hin]; [|by apply elem_of_nil in Hin].
    destruct cur as [|c0 cur]; [by apply elem_of_nil in Hin|].
    exists (rev (c0 :: cur)). split; [apply list_elem_of_here|].
    by apply elem_of_rev_list.
  - destruct (Text.is_space a) eqn:Ha.
    + assert (Hca : c <> a) by congruence.
      destruct cur as [|c0 cur].
      * apply IH; [|done]. right.
        destruct Hin as [Hin | Hin]; [by apply elem_of_nil in Hin|].
        by apply elem_of_cons in Hin as [? | ?].
      * destruct Hin as [Hin | Hin].
        -- exists (rev (c0 :: cur)). split; [apply list_elem_of_here|].
           by apply elem_of_rev_list.
        -- apply elem_of_cons in Hin as [? | Hin]; [done|].
           destruct (IH [] c (or_intror Hin) Hc) as (w & Hw & Hcw).
           exists w. split; [by apply list_elem_of_further|done].
    + apply IH; [|done].
      destruct Hin as [Hin | Hin].
      * left. by apply list_elem_of_further.
      * apply elem_of_cons in Hin as [-> | Hin].
        -- left. apply list_elem_of_here.
        -- by right.
Qed.

Lemma before_comment_no_hash l :
  Forall (fun c => Ascii.eqb c "#" = false) l -> before_comment l = l.
Proof.
  induction 1 as [|c l Hc _ IH]; cbn; [done|]. by rewrite Hc, IH.
Qed.

(** A line that holds a backslash and no comment sign cannot be a row
    of numbers. *)
Lemma table_row_with_backslash_raises w line lines :
  "\"%char ∈ Text.chars line ->
  Forall (fun c => Ascii.eqb c "#" = false) (Text.chars line) ->
  exists e, table_rows w (line :: lines) = Raise e.
Proof.
  intros Hin Hhash. rewrite table_rows_cons.
  rewrite before_comment_no_hash, text_chars by done.
  destruct (words_from_cover (Text.chars line) [] "\"%char (or_intror Hin)
              eq_refl) as (wd & Hwd & Hc).
  assert (Htok : Text.text wd ∈ Text.words line).
  { unfold Text.words. apply list_elem_of_fmap. by exists wd. }
  destruct (convert_tokens_raises (Text.words line) (Text.text wd) Htok)
    as [e He].
  { apply (parse_token_raises _ "\"%char); [|reflexivity].
    by rewrite chars_text. }
  destruct (Text.words line) as [|t0 toks]; [by apply elem_of_nil in Htok|].
  rewrite He. by exists e.
Qed.

Lemma file_text_backslash data :
  data <> [] -> "\"%char ∈ Text.chars (file_text data).
Proof.
  intros Hne. unfold file_text. rewrite chars_concat.
  destruct data as [|d data]; [done|]. cbn [map List.concat].
  rewrite chars_app. apply elem_of_app. left. apply elem_of_app. right.
  apply list_elem_of_here.
Qed.

Lemma written_file_not_loaded fs txt data :
  data <> [] ->
  Forall (fun d => Forall (fun c => record_char c = true) (Text.chars d)) data ->
  exists e, loadtxt (<[txt := file_text data]> fs) txt = Raise e.
Proof.
  intros Hne Hchars. unfold loadtxt, read_file.
  rewrite lookup_insert_eq. cbn [Py.bind].
  destruct (file_text_one_line data Hne Hchars) as [-> _].
  destruct (table_row_with_backslash_raises None (file_text data) [])
    as [e ->].
  - by apply file_text_backslash.
  - eapply Forall_impl; [by apply file_text_chars|].
    apply file_char_not_hash.
  - by exists e.
Qed.

(** X3. No file written by convert_min_to_txt can be read back: for
    every store, input and threshold, parse_minutiae_file on the file
    just written returns the empty (0, 4) table, and
    create_template_from_file on it reports failure. *)
Theorem written_file_reads_back_empty
  (np_cos np_sin : F.float -> F.float)
  (line_nd : Z * Z -> Z * Z -> result (list (Z * Z)))
  (gaussian_filter : grid F.float -> F.float -> grid F.float)
  (makedirs_env : string -> result unit)
  (fs fs' : store) (min_file_path output_dir txt : string) (q : F.float)
  (target_size : Z * Z) (orig_size : option (Z * Z))
  (include_singular : bool) (config : Config) :
  convert_min_to_txt makedirs_env fs min_file_path output_dir q
  = (fs', Some txt) ->
  parse_minutiae_file fs' txt = Ok (Arr2 0 4 [])
  /\ create_template_from_file np_cos np_sin line_nd gaussian_filter
       fs' txt target_size orig_size include_singular config = None.
Proof.
  intros Hconv.
  destruct (convert_min_to_txt_written _ _ _ _ _ _ _ Hconv)
    as (data & Hne & Hchars & _ & ->).
  destruct (written_file_not_loaded fs txt data Hne Hchars) as [e Hload].
  assert (Hparse : parse_minutiae_file (<[txt := file_text data]> fs) txt
                   = Ok (Arr2 0 4 [])).
  { unfold parse_minutiae_file, parse_minutiae_file_body.
    by rewrite Hload. }
  split; [exact Hparse|].
  unfold create_template_from_file. by rewrite Hparse.
Qed.

Lemma written_file_reads_back_empty_witness :
  parse_minutiae_file
    (fst (convert_min_to_txt Sample.dirs_ok
            (Sample.in_store Sample.scenario_quality_first)
            "in/scan.min" "out" Sample.no_threshold)) "out/scan.txt"
  = Ok (Arr2 0 4 []).
Proof.
  apply (written_file_reads_back_empty (fun x => x) (fun x => x)
           (fun _ _ => Ok []) (fun g _ => g) Sample.dirs_ok
           (Sample.in_store Sample.scenario_quality_first) _
           "in/scan.min" "out" "out/scan.txt" Sample.no_threshold
           (512, 512) None false get_default_config).
  vm_compute. reflexivity.
Defined.

(** ** The statistics of the pipeline *)

Lemma shr_1_scale r :
  0 <= shr_m r -> 0 <= shr_m (shr_1 r) /\ shr_m (shr_1 r) * 2 <= shr_m r.
Proof.
  destruct r as [m rr ss]. cbn [shr_m].
  destruct m as [|[p|p|]|p]; cbn; lia.
Qed.

Lemma iter_shr_scale p :
  forall r,
    0 <= shr_m r ->
    0 <= shr_m (SpecFloat.iter_pos shr_1 p r)
    /\ shr_m (SpecFloat.iter_pos shr_1 p r) * 2 ^ Zpos p <= shr_m r.
Proof.
  induction p as [p IH|p IH|]; intros r Hr; cbn [SpecFloat.iter_pos].
  - destruct (shr_1_scale r Hr) as [H0 H1].
    destruct (IH _ H0) as [H2 H3]. destruct (IH _ H2) as [H4 H5].
    split; [done|].
    replace (Zpos p~1) with (Zpos p + Zpos p + 1) by lia.
    rewrite !Z.pow_add_r by lia.
    assert (0 < 2 ^ Zpos p) by (apply Z.pow_pos_nonneg; lia). nia.
  - destruct (IH _ Hr) as [H2 H3]. destruct (IH _ H2) as [H4 H5].
    split; [done|].
    replace (Zpos p~0) with (Zpos p + Zpos p) by lia.
    rewrite !Z.pow_add_r by lia.
    assert (0 < 2 ^ Zpos p) by (apply Z.pow_pos_nonneg; lia). nia.
  - rewrite Z.pow_1_r. by apply shr_1_scale.
Qed.

Lemma Zdigits2_le m k : 0 <= k -> 0 <= m < 2 ^ k -> Zdigits2 m <= k.
Proof.
  intros Hk Hm. destruct m as [|p|p]; [done| |lia].
  cbn [Zdigits2]. pose proof (digits_bounds p) as [Hlo _].
  destruct (Z_le_gt_dec (Zpos (digits2_pos p)) k) as [|Hgt]; [done|].
  assert (2 ^ k <= 2 ^ (Zpos (digits2_pos p) - 1))
    by (apply Z.pow_le_mono_r; lia).
  lia.
Qed.

Lemma Zdigits2_nonneg m : 0 <= Zdigits2 m.
Proof. by destruct m. Qed.

(** What one rounding shift does to mantissa and exponent. *)
Lemma shr_fexp_bounds m e l D :
  0 <= m < 2 ^ D -> 0 <= D -> e <= 971 -> D + e <= 1023 ->
  let r := shr_fexp 53 1024 m e l in
  0 <= shr_m (fst r) /\ snd r <= 971
  /\ exists D',
       0 <= D' /\ shr_m (fst r) < 2 ^ D' /\ D' + snd r <= Z.max (D + e) 971.
Proof.
  intros Hm HD He HDe. unfold shr_fexp.
  pose proof (Zdigits2_le m D HD Hm) as Hdig.
  pose proof (Zdigits2_nonneg m) as Hdig0.
  set (n := fexp 53 1024 (Zdigits2 m + e) - e).
  assert (Hn : e + n <= 971 /\ (0 < n -> e + n <= Z.max (Zdigits2 m + e - 53) (-1074)))
    by (unfold n, fexp, emin; lia).
  assert (Hrec : shr_m (shr_record_of_loc m l) = m)
    by (destruct l as [|[]]; reflexivity).
  unfold shr. destruct n as [|p|p] eqn:En; cbn [fst snd].
  - rewrite Hrec. split; [lia|]. split; [lia|]. exists D. lia.
  - destruct (iter_shr_scale p (shr_record_of_loc m l)) as [H0 Hscale];
      [rewrite Hrec; lia|].
    rewrite Hrec in Hscale.
    split; [done|]. split; [lia|].
    assert (Hpow : 0 < 2 ^ Zpos p) by (apply Z.pow_pos_nonneg; lia).
    destruct (Z_le_gt_dec (Zpos p) D) as [Hle|Hgt].
    + exists (D - Zpos p). split; [lia|]. split; [|lia].
      assert (2 ^ D = 2 ^ (D - Zpos p) * 2 ^ Zpos p)
        by (rewrite <- Z.pow_add_r by lia; f_equal; lia).
      nia.
    + exists 0. split; [lia|]. split; [|lia].
      assert (2 ^ D < 2 ^ Zpos p) by (apply Z.pow_lt_mono_r; lia).
      change (2 ^ 0) with 1. nia.
  - rewrite Hrec. split; [lia|]. split; [lia|]. exists D. lia.
Qed.

Lemma round_nearest_even_bounds m l :
  0 <= m -> m <= round_nearest_even m l <= m + 1.
Proof.
  intros Hm. unfold round_nearest_even.
  destruct l as [|[]]; try destruct (Z.even m); lia.
Qed.

(** Rounding a number below [2 ^ 1022] never gives an infinity. *)
Lemma round_aux_no_overflow s m e l D :
  0 <= m < 2 ^ D -> 0 <= D -> e <= 971 -> D + e <= 1022 ->
  forall s', binary_round_aux 53 1024 s m e l <> S754_infinity s'.
Proof.
  intros Hm HD He HDe s'. unfold binary_round_aux.
  destruct (shr_fexp_bounds m e l D Hm HD He ltac:(lia))
    as (H0 & He1 & D1 & HD1 & Hm1 & HDe1).
  destruct (shr_fexp 53 1024 m e l) as [mrs1 e1]. cbn [fst snd] in *.
  pose proof (round_nearest_even_bounds (shr_m mrs1) (loc_of_shr_record mrs1) H0)
    as Hround.
  set (m1 := round_nearest_even (shr_m mrs1) (loc_of_shr_record mrs1)) in *.
  assert (Hm1' : 0 <= m1 < 2 ^ (D1 + 1)).
  { rewrite Z.pow_add_r by lia. change (2 ^ 1) with 2. lia. }
  destruct (shr_fexp_bounds m1 e1 loc_Exact (D1 + 1) Hm1' ltac:(lia) He1
              ltac:(lia)) as (_ & He2 & _).
  destruct (shr_fexp 53 1024 m1 e1 loc_Exact) as [mrs2 e2]. cbn [fst snd] in *.
  destruct (shr_m mrs2); [done| |done].
  destruct (e2 <=? 1024 - 53) eqn:Hle; [done|lia].
Qed.

(** A quotient of counts is a float: the division neither finds a zero
    divisor nor overflows. *)
Lemma int_truediv_ok a b :
  0 <= a -> 0 < b -> a < b * 2 ^ 1021 ->
  exists x, F.int_truediv a b = Ok x.
Proof.
  intros Ha Hb Hab. unfold F.int_truediv.
  destruct (b =? 0) eqn:Hb0; [lia|].
  destruct (a =? 0) eqn:Ha0; [by eexists|].
  assert (Hinf : forall s neg, F.round_div neg (Z.abs a) (Z.abs b)
                               <> S754_infinity s).
  { intros s neg. rewrite !Z.abs_eq by lia.
    unfold F.round_div, SFdiv_core_binary, F.prec, F.emax.
    set (e' := Z.min (fexp 53 1024 (Zdigits2 a + 0 - (Zdigits2 b + 0))) (0 - 0)).
    assert (He' : e' <= 0) by (unfold e'; lia).
    set (m' := match 0 - 0 - e' with
               | 0 => a
               | Zpos _ => Z.shiftl a (0 - 0 - e')
               | Zneg _ => 0
               end).
    assert (Hm' : m' = a * 2 ^ (- e')).
    { unfold m'. destruct (0 - 0 - e') as [|p|p] eqn:Es; [| |lia].
      - replace (- e') with 0 by lia. lia.
      - rewrite Z.shiftl_mul_pow2 by lia. do 2 f_equal. lia. }
    destruct (Z.div_eucl m' b) as [qt r] eqn:Hdiv.
    assert (Hq : qt = m' / b) by (unfold Z.div; by rewrite Hdiv).
    assert (Hpow : 0 < 2 ^ (- e')) by (apply Z.pow_pos_nonneg; lia).
    apply (round_aux_no_overflow neg qt e' _ (1021 - e')); [|lia|lia|lia].
    subst qt. split.
    - apply Z.div_pos; nia.
    - apply Z.div_lt_upper_bound; [lia|].
      replace (1021 - e') with (1021 + - e') by lia.
      rewrite Z.pow_add_r by lia. rewrite Hm'. nia. }
  destruct (F.round_div _ (Z.abs a) (Z.abs b)) as [s|s| |s m e] eqn:Hr;
    try by eexists.
  by destruct (Hinf s (negb (Bool.eqb (a <? 0) (b <? 0)))).
Qed.

Lemma rate_ok a b :
  0 <= a -> a <= b \/ a < 2 ^ 1021 ->
  exists r, rate a b = Ok r /\ (b <= 0 -> r = SInt 0)
            /\ (a = 0 -> r = SInt 0 \/ r = SFloat (S754_zero false)).
Proof.
  intros Ha Hab. unfold rate.
  destruct (0 <? b) eqn:Hb.
  - destruct (int_truediv_ok a b) as [x Hx]; [lia|lia| |].
    { assert (0 < 2 ^ 1021) by (apply Z.pow_pos_nonneg; lia). nia. }
    rewrite Hx. cbn [Py.bind]. eexists. split; [reflexivity|].
    split; [lia|]. intros ->. right.
    unfold F.int_truediv in Hx.
    destruct (b =? 0) eqn:Hb0; [lia|]. cbn in Hx.
    destruct (b <? 0) eqn:Hbn; [lia|]. by injection Hx as <-.
  - exists (SInt 0). split; [done|]. split; [done|]. by left.
Qed.

Lemma rate_of_zero b :
  rate 0 b = Ok (if 0 <? b then SFloat (S754_zero false) else SInt 0).
Proof.
  unfold rate. destruct (0 <? b) eqn:Hb; [|done].
  unfold F.int_truediv. destruct (b =? 0) eqn:Hb0; [lia|]. cbn.
  destruct (b <? 0) eqn:Hbn; [lia|]. reflexivity.
Qed.

Lemma convert_all_at_5 mk fs walk out q fs' s t :
  convert_all_minutiae_files mk fs walk out q 5 = Ok (fs', (s, t)) -> s = 0.
Proof.
  unfold convert_all_minutiae_files, convert_loop.
  destruct (makedirs mk out) as [[]|e]; cbn [Py.bind]; [|done].
  destruct (convert_loop_keeps_nothing mk out q 5 ltac:(lia)
              (find_min_files walk) (fs, 0, 0)) as [Hs _].
  destruct (fold_left _ _ _) as [[fs1 s1] t1].
  cbn [succeeded fst snd] in Hs. by intros [= <- <- <-].
Qed.

Lemma extract_folder_counts mk rm run_mindtct get_file_name_and_ext
  fs walk out keep config fs' s t :
  extract_minutiae_from_folder mk rm run_mindtct get_file_name_and_ext
    fs walk out keep config = Ok (fs', (s, t)) ->
  0 <= s <= t /\ t = Z.of_nat (length (find_image_files config walk)).
Proof.
  unfold extract_minutiae_from_folder.
  destruct (Py.fold _ _ _) as [[[fs1 s1] t1]|e] eqn:Hfold; cbn [Py.bind];
    [|done].
  intros [= <- <- <-].
  destruct (fold_counts_returned _
              (extract_step_counts mk rm run_mindtct get_file_name_and_ext
                 out keep) _ _ _ Hfold) as [Ht Hs].
  cbn [total succeeded fst snd] in *. lia.
Qed.

Lemma templates_folder_counts np_cos np_sin line_nd gaussian_filter imsave mk
  fs listing dir out size incl config fs' s t :
  create_templates_from_folder np_cos np_sin line_nd gaussian_filter imsave mk
    fs listing dir out size incl config = Ok (fs', (s, t)) ->
  exists names,
    listing = Ok names
    /\ 0 <= s <= t
    /\ t = Z.of_nat (length (filter (fun f => Text.endswith f ".txt") names)).
Proof.
  unfold create_templates_from_folder.
  destruct (makedirs mk out) as [[]|e]; cbn [Py.bind]; [|done].
  destruct listing as [names|e]; cbn [Py.bind]; [|done].
  pose proof (fold_counts_from_zero _
                (template_step_counts np_cos np_sin line_nd gaussian_filter
                   imsave dir out size incl config)
                (filter (fun f => Text.endswith f ".txt") names) fs) as Hc.
  cbv zeta in Hc.
  destruct (fold_left _ _ _) as [[fs1 s1] t1].
  intros [= <- <- <-]. exists names.
  cbn [total succeeded fst snd] in *. split; [done|]. lia.
Qed.

Section PipelineStatistics.

Variable makedirs_env : string -> result unit.
Variable remove_env : string -> option exn.
Variable run_mindtct : store -> string -> string -> store * option exn.
Variable get_file_name_and_ext : string -> result (string * string * string).
Variable np_cos np_sin : F.float -> F.float.
Variable line_nd : Z * Z -> Z * Z -> result (list (Z * Z)).
Variable gaussian_filter : grid F.float -> F.float -> grid F.float.
Variable imsave : store -> string -> list (grid Z) -> result store.
Variable process_folder :
  store -> string -> string -> bool -> bool -> Config
  -> result (store * (Z * Z)).

(** X4. Whenever run_minutiae_extraction_only returns, 'total' is the
    number of image files found, 'extracted' lies between 0 and
    'total', 'converted' is 0 (the conversion runs with a minimum
    count of 5), and 'conversion_rate' is the integer 0 when nothing
    was extracted and the float 0.0 otherwise.  It raises only what
    one of its two batches raises: computing the rates never fails. *)
Theorem extraction_only_reports_no_conversion
  (config : Config) (fs : store)
  (walk_input walk_minutiae : list (string * list string))
  (output_dir : string) :
  let run :=
    run_minutiae_extraction_only makedirs_env remove_env run_mindtct
      get_file_name_and_ext config fs walk_input walk_minutiae output_dir in
  let extraction :=
    extract_minutiae_from_folder makedirs_env remove_env run_mindtct
      get_file_name_and_ext fs walk_input (Path.join output_dir "minutiae")
      false config in
  (forall fs' stats,
      run = Ok (fs', stats) ->
      exists extracted,
        stats !! "total"
        = Some (SInt (Z.of_nat (length (find_image_files config walk_input))))
        /\ stats !! "extracted" = Some (SInt extracted)
        /\ 0 <= extracted <= Z.of_nat (length (find_image_files config walk_input))
        /\ stats !! "converted" = Some (SInt 0)
        /\ stats !! "conversion_rate"
           = Some (if 0 <? extracted then SFloat (S754_zero false)
                   else SInt 0))
  /\ (forall e,
         run = Raise e ->
         extraction = Raise e
         \/ exists fs1 counts,
              extraction = Ok (fs1, counts)
              /\ convert_all_minutiae_files makedirs_env fs1 walk_minutiae
                   (Path.join output_dir "minutiae_txt") (S754_zero false) 5
                 = Raise e).
Proof.
  cbv zeta. unfold run_minutiae_extraction_only.
  destruct (extract_minutiae_from_folder _ _ _ _ _ _ _ _ _)
    as [[fs1 [extracted total_images]]|e1] eqn:Hext; cbn [Py.bind].
  2:{ split; [done|]. intros e [= <-]. by left. }
  apply extract_folder_counts in Hext as [Hle Htotal].
  destruct (convert_all_minutiae_files _ _ _ _ _ _)
    as [[fs2 [converted t2]]|e2] eqn:Hconv; cbn [Py.bind].
  2:{ split; [done|]. intros e [= <-]. right. by eexists _, _. }
  apply convert_all_at_5 in Hconv as ->.
  destruct (rate_ok extracted total_images) as (r1 & -> & _); [lia|lia|].
  rewrite rate_of_zero. cbn [Py.bind].
  split; [|done].
  intros fs' stats [= <- <-]. exists extracted.
  rewrite <- Htotal.
  split; [reflexivity|]. split; [reflexivity|]. split; [lia|].
  split; reflexivity.
Qed.

(** X5. Whenever run_template_creation_only returns, the listing of
    the minutiae directory succeeded, 'total' is the number of listed
    names ending in .txt, 'created' lies between 0 and 'total', and
    with no such name the success rate is the integer 0 (no division
    takes place).  It raises only what create_templates_from_folder
    raises: computing the rate never fails. *)
Theorem template_creation_only_total
  (config : Config) (fs : store) (listing : result (list string))
  (minutiae_dir output_dir : string) (template_size : Z * Z) :
  let run :=
    run_template_creation_only makedirs_env np_cos np_sin line_nd
      gaussian_filter imsave config fs listing minutiae_dir output_dir
      template_size in
  (forall fs' stats,
      run = Ok (fs', stats) ->
      exists names created rate_value,
        listing = Ok names
        /\ stats !! "total"
           = Some (SInt (Z.of_nat
                           (length (filter (fun f => Text.endswith f ".txt")
                                           names))))
        /\ stats !! "created" = Some (SInt created)
        /\ 0 <= created
             <= Z.of_nat (length (filter (fun f => Text.endswith f ".txt")
                                         names))
        /\ stats !! "success_rate" = Some rate_value
        /\ (filter (fun f => Text.endswith f ".txt") names = [] ->
            rate_value = SInt 0))
  /\ (forall e,
         run = Raise e ->
         create_templates_from_folder np_cos np_sin line_nd gaussian_filter
           imsave makedirs_env fs listing minutiae_dir output_dir
           template_size false config = Raise e).
Proof.
  cbv zeta. unfold run_template_creation_only.
  destruct (create_templates_from_folder _ _ _ _ _ _ _ _ _ _ _ _ _)
    as [[fs1 [created total_files]]|e1] eqn:Hrun; cbn [Py.bind].
  2:{ split; [done|]. by intros e [= <-]. }
  apply templates_folder_counts in Hrun as (names & Hnames & Hle & Htotal).
  destruct (rate_ok created total_files) as (r & -> & Hzero & _); [lia|lia|].
  cbn [Py.bind]. split; [|done].
  intros fs' stats [= <- <-]. exists names, created, r.
  split; [done|]. rewrite <- Htotal.
  split; [reflexivity|]. split; [reflexivity|].
  split; [lia|]. split; [reflexivity|].
  intros Hnone. apply Hzero. rewrite Htotal, Hnone. done.
Qed.

(** X6. Whenever run_full_pipeline returns, its conversion stage
    reports 'converted' = 0, with a 'success_rate' that is the integer
    0 when nothing was extracted and the float 0.0 otherwise, and the
    'success_rate' of the template stage, whose divisor is that count,
    is the integer 0 whatever number of templates was created. *)
Theorem full_pipeline_reports_no_conversion
  (config : Config) (fs : store)
  (walk_processed walk_minutiae : list (string * list string))
  (listing_txt : result (list string)) (input_dir output_dir : string)
  (filter_quality enhance : bool) (template_size : Z * Z)
  (fs' : store) (stats : gmap string (gmap string stat)) :
  run_full_pipeline makedirs_env remove_env run_mindtct get_file_name_and_ext
    np_cos np_sin line_nd gaussian_filter imsave process_folder config fs
    walk_processed walk_minutiae listing_txt input_dir output_dir
    filter_quality enhance template_size = Ok (fs', stats) ->
  exists extraction conversion creation extracted,
    stats !! "minutiae_extraction" = Some extraction
    /\ extraction !! "extracted" = Some (SInt extracted)
    /\ stats !! "minutiae_conversion" = Some conversion
    /\ conversion !! "converted" = Some (SInt 0)
    /\ conversion !! "success_rate"
       = Some (if 0 <? extracted then SFloat (S754_zero false) else SInt 0)
    /\ stats !! "template_creation" = Some creation
    /\ creation !! "success_rate" = Some (SInt 0).
Proof.
  unfold run_full_pipeline.
  destruct (process_folder _ _ _ _ _ _)
    as [[fs1 [processed total_images]]|e0]; cbn [Py.bind]; [|done].
  destruct (rate processed total_images) as [r1|e1]; cbn [Py.bind]; [|done].
  destruct (extract_minutiae_from_folder _ _ _ _ _ _ _ _ _)
    as [[fs2 [minutiae_count t2]]|e2]; cbn [Py.bind]; [|done].
  destruct (rate minutiae_count processed) as [r2|e3]; cbn [Py.bind];
    [|done].
  destruct (convert_all_minutiae_files _ _ _ _ _ _)
    as [[fs3 [txt_count t3]]|e4] eqn:Hconv; cbn [Py.bind]; [|done].
  apply convert_all_at_5 in Hconv as ->.
  rewrite rate_of_zero. cbn [Py.bind].
  destruct (create_templates_from_folder _ _ _ _ _ _ _ _ _ _ _ _ _)
    as [[fs4 [template_count t4]]|e5]; cbn [Py.bind]; [|done].
  change (rate template_count 0) with (@Ok stat (SInt 0)). cbn [Py.bind].
  destruct (rate template_count total_images) as [r5|e6]; cbn [Py.bind];
    [|done].
  intros [= <- <-].
  eexists _, _, _, minutiae_count.
  split; [reflexivity|]. split; [reflexivity|].
  split; [reflexivity|]. split; [reflexivity|].
  split; [reflexivity|]. split; reflexivity.
Qed.

End PipelineStatistics.

Lemma template_creation_only_total_witness :
  exists fs' stats,
    run_template_creation_only Sample.dirs_ok (fun x => x) (fun x => x)
      (fun _ _ => Ok []) (fun g _ => g) (fun fs _ _ => Ok fs)
      get_default_config (Sample.in_store "") (Ok ["notes.md"]) "txt"
      "templates" (512, 512)
    = Ok (fs', stats)
    /\ stats !! "success_rate" = Some (SInt 0).
Proof.
  destruct (template_creation_only_total Sample.dirs_ok (fun x => x)
              (fun x => x) (fun _ _ => Ok []) (fun g _ => g)
              (fun fs _ _ => Ok fs) get_default_config (Sample.in_store "")
              (Ok ["notes.md"]) "txt" "templates" (512, 512))
    as [Hok _].
  cbv zeta in Hok.
  remember (run_template_creation_only _ _ _ _ _ _ _ _ _ _ _ _) as r eqn:Hr.
  assert (Hrun : match r with Ok _ => true | Raise _ => false end = true)
    by (rewrite Hr; vm_compute; reflexivity).
  destruct r as [[fs' stats]|e]; [|discriminate Hrun].
  destruct (Hok fs' stats eq_refl)
    as (names & created & r & Hnames & _ & _ & _ & Hrate & Hzero).
  exists fs', stats. split; [reflexivity|].
  rewrite Hrate, Hzero; [reflexivity|].
  injection Hnames as <-. vm_compute. reflexivity.
Defined.

Lemma extraction_only_reports_no_conversion_witness :
  exists fs' stats,
    run_minutiae_extraction_only Sample.dirs_ok Sample.removable
      (fun fs _ prefix => (<[prefix +:+ ".min" := Sample.one_record]> fs, None))
      (fun _ => Ok ("in", "scan", ".png")) get_default_config ∅
      [("in", ["scan.png"])] [("out/minutiae", ["scan.min"])] "out"
    = Ok (fs', stats)
    /\ stats !! "extracted" = Some (SInt 1)
    /\ stats !! "conversion_rate" = Some (SFloat (S754_zero false)).
Proof.
  destruct (extraction_only_reports_no_conversion Sample.dirs_ok
              Sample.removable
              (fun fs _ prefix =>
                 (<[prefix +:+ ".min" := Sample.one_record]> fs, None))
              (fun _ => Ok ("in", "scan", ".png")) get_default_config ∅
              [("in", ["scan.png"])] [("out/minutiae", ["scan.min"])] "out")
    as [Hok _].
  cbv zeta in Hok.
  remember (run_minutiae_extraction_only _ _ _ _ _ _ _ _ _) as r eqn:Hr.
  assert (Hrun : match r with
                 | Ok (_, stats) =>
                     match stats !! "extracted" with
                     | Some (SInt 1) => true
                     | _ => false
                     end
                 | Raise _ => false
                 end = true)
    by (rewrite Hr; vm_compute; reflexivity).
  destruct r as [[fs' stats]|e]; [|discriminate Hrun].
  destruct (Hok fs' stats eq_refl)
    as (extracted & _ & Hext & _ & _ & Hrate).
  exists fs', stats. split; [reflexivity|].
  rewrite Hext in Hrun.
  clear Hr. destruct extracted as [|[| |]|]; try discriminate Hrun.
  split; [exact Hext|exact Hrate].
Defined.

Lemma full_pipeline_reports_no_conversion_witness :
  exists fs' stats creation,
    run_full_pipeline Sample.dirs_ok Sample.removable
      (fun fs _ prefix => (<[prefix +:+ ".min" := Sample.one_record]> fs, None))
      (fun _ => Ok ("in", "scan", ".png"))
      (fun x => x) (fun x => x) (fun _ _ => Ok []) (fun g _ => g)
      (fun fs _ _ => Ok fs)
      (fun fs _ _ _ _ _ => Ok (fs, (1, 1)))
      get_default_config ∅ [("out/processed", ["scan.png"])]
      [("out/minutiae", ["scan.min"])] (Ok []) "in" "out" false false
      (512, 512)
    = Ok (fs', stats)
    /\ stats !! "template_creation" = Some creation
    /\ creation !! "success_rate" = Some (SInt 0).
Proof.
  remember (run_full_pipeline _ _ _ _ _ _ _ _ _ _ _ _ _ _ _ _ _ _ _ _) as r
    eqn:Hr.
  assert (Hrun : match r with Ok _ => true | Raise _ => false end = true)
    by (rewrite Hr; vm_compute; reflexivity).
  destruct r as [[fs' stats]|e]; [|discriminate Hrun].
  symmetry in Hr.
  destruct (full_pipeline_reports_no_conversion _ _ _ _ _ _ _ _ _ _ _ _ _ _
              _ _ _ _ _ _ _ _ Hr)
    as (extraction & conversion & creation & extracted & _ & _ & _ & _ & _
        & Hc & Hz).
  exists fs', stats, creation.
  split; [reflexivity|]. split; [exact Hc|exact Hz].
Defined.

(** ** More on the orientation and the record loop *)

(** X7. For |u| <= 2^47 the orientation depends only on u mod 32 and
    is one of the 32 multiples of 11.25 degrees in [0, 360): it is
    the binary64 number 11.25 * ((8 - u) mod 32). *)
Theorem orientation_has_32_values (u : Z) :
  - 2 ^ 47 <= u <= 2 ^ 47 ->
  orientation_deg u = Ok (Spec.quarter_degrees (45 * ((8 - u) mod 32)))
  /\ 0 <= 45 * ((8 - u) mod 32) < 1440
  /\ orientation_deg (u mod 32) = orientation_deg u.
Proof.
  intros Hu.
  assert (Hpow47 : 2 ^ 47 = 140737488355328) by reflexivity.
  assert (Hform : forall v, (360 - 45 * v) mod 1440 = 45 * ((8 - v) mod 32)).
  { intros v. replace (360 - 45 * v) with (45 * (8 - v)) by lia.
    change 1440 with (45 * 32). apply Z.mul_mod_distr_l; lia. }
  pose proof (Z.mod_pos_bound (8 - u) 32 ltac:(lia)) as Hr.
  pose proof (Z.mod_pos_bound u 32 ltac:(lia)) as Hu32.
  split; [|split; [lia|]].
  - rewrite orientation_deg_exact by lia.
    unfold Spec.exact_orientation. by rewrite Hform.
  - rewrite !orientation_deg_exact by lia.
    unfold Spec.exact_orientation. rewrite !Hform.
    do 3 f_equal. by rewrite Zminus_mod_idemp_r.
Qed.

Lemma orientation_has_32_values_witness :
  orientation_deg (-3) = Ok (Spec.quarter_degrees (45 * 11))
  /\ orientation_deg 29 = orientation_deg (-3).
Proof.
  destruct (orientation_has_32_values (-3)) as (Hval & _ & Hmod).
  - vm_compute. split; discriminate.
  - split; [exact Hval|exact Hmod].
Defined.

Lemma collect_records_app q l1 :
  forall l2 acc,
    collect_records q (l1 ++ l2) acc
    = (d <-! collect_records q l1 acc; collect_records q l2 d).
Proof.
  induction l1 as [|line l1 IH]; intros l2 acc; cbn [collect_records app].
  - reflexivity.
  - destruct (convert_line q line) as [[d|]|e]; [apply IH|apply IH|done].
Qed.

(** X8. The record loop keeps the order of the lines and gives at most
    one record per line: it returns a list exactly when no line raises
    an uncaught exception, and that list is then the records of the
    surviving lines in file order, appended to what was collected. *)
Theorem collect_records_in_order (q : F.float) (lines : list string)
  (acc data : list string) :
  collect_records q lines acc = Ok data
  <-> Forall (fun line => exists r, convert_line q line = Ok r) lines
      /\ data = (acc ++ omap (fun line =>
                                match convert_line q line with
                                | Ok r => r
                                | Raise _ => None
                                end) lines)%list.
Proof.
  revert acc. induction lines as [|line lines IH]; intros acc.
  - cbn [collect_records]. change (omap _ []) with (@nil string).
    rewrite app_nil_r. split.
    + intros [= <-]. by split.
    + by intros [_ ->].
  - cbn [collect_records]. rewrite Forall_cons.
    change (omap ?f (line :: lines))
      with (match f line with
            | Some d => d :: omap f lines
            | None => omap f lines
            end).
    cbv beta.
    destruct (convert_line q line) as [[d|]|e] eqn:Hline.
    + rewrite IH, <- app_assoc. cbn [app]. split.
      * intros [Hall ->]. split; [split; [by eexists|done]|done].
      * intros [[_ Hall] ->]. by split.
    + rewrite IH. split.
      * intros [Hall ->]. split; [split; [by eexists|done]|done].
      * intros [[_ Hall] ->]. by split.
    + split; [done|].
      intros [[[r Hr] _] _]. done.
Qed.

Lemma collect_records_in_order_witness :
  length (omap (fun line =>
                  match convert_line Sample.no_threshold line with
                  | Ok r => r
                  | Raise _ => None
                  end)
               (drop 3 (Text.readlines Sample.scenario_quality_first)))
  = 2%nat.
Proof.
  destruct (collect_records_in_order Sample.no_threshold
              (drop 3 (Text.readlines Sample.scenario_quality_first)) []
              ["1 10 20 90.0"; "2 30 40 0.0"]) as [Hto _].
  destruct Hto as [_ Hdata]; [vm_compute; reflexivity|].
  cbn [app] in Hdata. by rewrite <- Hdata.
Defined.

(** ** The quality threshold *)

Lemma ltb_leb_trans (x a b : F.float) :
  F.ltb x a = true -> SFleb a b = true -> F.ltb x b = true.
Proof.
  unfold F.ltb, SFltb, SFleb, SFcompare.
  destruct x as [sx|sx| |sx mx ex], a as [sa|sa| |sa ma ea],
    b as [sb|sb| |sb mb eb];
    try destruct sx; try destruct sa; try destruct sb;
    try done.
  all: change (Pos.compare_cont Eq ?p ?q) with (Pos.compare p q).
  all: destruct (Z.compare_spec ex ea); try done;
    destruct (Z.compare_spec ea eb); try done;
    destruct (Z.compare_spec ex eb); try done; try lia.
  all: destruct (Pos.compare_spec mx ma); try done;
    destruct (Pos.compare_spec ma mb); try done;
    destruct (Pos.compare_spec mx mb); try done; lia.
Qed.

Lemma parse_record_threshold (q1 q2 : F.float) (line : string) :
  SFleb q1 q2 = true ->
  match parse_record q1 line, parse_record q2 line with
  | Ok r1, Ok r2 => r2 = r1 \/ r2 = None
  | Raise e1, Raise e2 => e1 = e2
  | _, _ => False
  end.
Proof.
  intros Hq. unfold parse_record.
  destruct (length _ <? 5)%nat; [by left|].
  destruct (parse_int_pair _) as [xy|e]; cbn [Py.bind]; [|done].
  destruct (parse_int _) as [u|e]; cbn [Py.bind]; [|done].
  destruct (orientation_deg u) as [o|e]; cbn [Py.bind]; [|done].
  destruct (parse_float _) as [quality|e]; cbn [Py.bind]; [|done].
  destruct (F.ltb quality q1) eqn:H1.
  - rewrite (ltb_leb_trans _ _ _ H1 Hq). by left.
  - destruct (F.ltb quality q2); [by right|by left].
Qed.

Lemma convert_line_threshold (q1 q2 : F.float) (line : string) :
  SFleb q1 q2 = true ->
  match convert_line q1 line, convert_line q2 line with
  | Ok r1, Ok r2 => r2 = r1 \/ r2 = None
  | Raise e1, Raise e2 => e1 = e2
  | _, _ => False
  end.
Proof.
  intros Hq. unfold convert_line.
  destruct (String.eqb _ ""); [by left|].
  pose proof (parse_record_threshold q1 q2 (Text.strip line) Hq) as Hrec.
  destruct (parse_record q1 _) as [r1|e1], (parse_record q2 _) as [r2|e2];
    try done.
  subst e2. destruct (is_value_or_index e1); [by left|done].
Qed.

Lemma collect_records_threshold (q1 q2 : F.float) (lines : list string) :
  SFleb q1 q2 = true ->
  forall acc1 acc2,
    sublist acc2 acc1 ->
    match collect_records q1 lines acc1, collect_records q2 lines acc2 with
    | Ok d1, Ok d2 => sublist d2 d1
    | Raise e1, Raise e2 => e1 = e2
    | _, _ => False
    end.
Proof.
  intros Hq. induction lines as [|line lines IH]; intros acc1 acc2 Hsub;
    cbn [collect_records]; [done|].
  pose proof (convert_line_threshold q1 q2 line Hq) as Hline.
  destruct (convert_line q1 line) as [r1|e1],
    (convert_line q2 line) as [r2|e2]; try done.
  destruct Hline as [->| ->].
  - destruct r1 as [d|]; apply IH; [|done].
    by apply sublist_app.
  - destruct r1 as [d|]; apply IH; [|done].
    by apply sublist_inserts_r.
Qed.

(** X9. Raising the quality threshold only removes records: with
    q1 <= q2 the record loop fails on the same lines with the same
    exception under both thresholds, the records kept under q2 are a
    subsequence of those kept under q1, and a file that is converted
    under q2 is also converted, to the same path, under q1. *)
Theorem stricter_threshold_keeps_fewer
  (makedirs_env : string -> result unit) (q1 q2 : F.float) :
  SFleb q1 q2 = true ->
  (forall lines e,
      collect_records q1 lines [] = Raise e
      <-> collect_records q2 lines [] = Raise e)
  /\ (forall lines d2,
         collect_records q2 lines [] = Ok d2 ->
         exists d1, collect_records q1 lines [] = Ok d1 /\ sublist d2 d1)
  /\ (forall fs min_file_path output_dir fs2 txt,
         convert_min_to_txt makedirs_env fs min_file_path output_dir q2
         = (fs2, Some txt) ->
         exists fs1,
           convert_min_to_txt makedirs_env fs min_file_path output_dir q1
           = (fs1, Some txt)).
Proof.
  intros Hq.
  assert (Hloop : forall lines,
             match collect_records q1 lines [], collect_records q2 lines [] with
             | Ok d1, Ok d2 => sublist d2 d1
             | Raise e1, Raise e2 => e1 = e2
             | _, _ => False
             end)
    by (intros lines; by apply collect_records_threshold).
  split; [|split].
  - intros lines e. specialize (Hloop lines).
    destruct (collect_records q1 lines []), (collect_records q2 lines []);
      try done.
    subst. done.
  - intros lines d2 H2. specialize (Hloop lines). rewrite H2 in Hloop.
    destruct (collect_records q1 lines []) as [d1|]; [|done].
    by exists d1.
  - intros fs p out fs2 txt H2.
    destruct (convert_min_to_txt_cases makedirs_env fs p out q2)
      as [Hnone | (d2 & Hne & Hmk & Hd2 & Hsome)]; [congruence|].
    rewrite Hsome in H2. injection H2 as <- <-.
    specialize (Hloop (drop 3 (Text.readlines (default "" (fs !! p))))).
    rewrite Hd2 in Hloop.
    unfold convert_min_to_txt, convert_min_to_txt_body, read_file.
    destruct (fs !! p) as [content|] eqn:Hp; cbn [default] in *.
    + cbn [Py.bind]. rewrite Hmk. cbn [Py.bind].
      destruct (collect_records q1 _ []) as [d1|]; [|done].
      cbn [Py.bind].
      destruct d1 as [|d d1].
      * apply sublist_nil_r in Hloop. done.
      * cbn. by eexists.
    + change (Text.readlines "") with (@nil string) in Hd2.
      cbn in Hd2. injection Hd2 as <-. done.
Qed.

Lemma stricter_threshold_keeps_fewer_witness :
  exists d1,
    collect_records (F.of_Z 0)
      (drop 3 (Text.readlines Sample.scenario_quality_first)) [] = Ok d1
    /\ sublist ["1 10 20 90.0"; "2 30 40 0.0"] d1.
Proof.
  destruct (stricter_threshold_keeps_fewer Sample.dirs_ok (F.of_Z 0)
              (F.of_decimal false 5 (-1)))
    as (_ & Hsub & _); [reflexivity|].
  apply Hsub. vm_compute. reflexivity.
Defined.

(** ** The name of the written file *)

Lemma split_chars_nonempty sep l : Text.split_chars sep l <> [].
Proof.
  destruct l as [|c l]; cbn; [done|].
  destruct (Ascii.eqb c sep); [done|].
  by destruct (Text.split_chars sep l).
Qed.

Lemma split_chars_app_sep sep l r :
  Text.split_chars sep (l ++ sep :: r)
  = (Text.split_chars sep l ++ Text.split_chars sep r)%list.
Proof.
  induction l as [|c l IH]; cbn [app Text.split_chars].
  - by rewrite Ascii.eqb_refl.
  - rewrite IH. destruct (Ascii.eqb c sep); [done|].
    pose proof (split_chars_nonempty sep l) as Hne.
    by destruct (Text.split_chars sep l).
Qed.

Lemma split_chars_no_sep sep r :
  Forall (fun c => c <> sep) r -> Text.split_chars sep r = [r].
Proof.
  induction 1 as [|c r Hc _ IH]; cbn [Text.split_chars]; [done|].
  apply Ascii.eqb_neq in Hc. by rewrite Hc, IH.
Qed.

Lemma concat_split_chars sep l :
  List.concat (map (fun part => part ++ [sep])%list (Text.split_chars sep l))
  = (l ++ [sep])%list.
Proof.
  induction l as [|c l IH]; cbn [Text.split_chars app]; [done|].
  destruct (Ascii.eqb c sep) eqn:Hc.
  - apply Ascii.eqb_eq in Hc as ->. cbn. by rewrite IH.
  - pose proof (split_chars_nonempty sep l) as Hne.
    destruct (Text.split_chars sep l) as [|h t]; [done|].
    cbn in *. by rewrite IH.
Qed.

Lemma all_dots_snoc l : Path.all_dots (l ++ ["."%char]) = Path.all_dots l.
Proof.
  induction l as [|c l IH]; cbn; [done|]. by rewrite IH.
Qed.

Lemma no_slash_chars l :
  Text.contains_chars ["/"%char] l = false ->
  Forall (fun c => c <> "/"%char) l.
Proof.
  induction l as [|c l IH]; [done|].
  cbn [Text.contains_chars Text.is_prefix].
  rewrite Bool.andb_true_r. intros [Hc Hl]%orb_false_elim.
  constructor; [|by apply IH].
  apply Ascii.eqb_neq. by rewrite Ascii.eqb_sym.
Qed.

Lemma basename_join root name :
  Text.contains "/" name = false ->
  Path.basename (Path.join root name) = name.
Proof.
  intros Hname%no_slash_chars.
  assert (Hlast : forall A,
             List.last (Text.split_chars "/" (A ++ "/"%char :: Text.chars name)) []
             = Text.chars name).
  { intros A. rewrite split_chars_app_sep, (split_chars_no_sep _ _ Hname).
    apply last_last. }
  unfold Path.join.
  assert (Hpre : Text.is_prefix ["/"%char] (Text.chars name) = false).
  { destruct Hname as [|c l Hc _]; [done|].
    cbn [Text.is_prefix]. rewrite Bool.andb_true_r.
    apply Ascii.eqb_neq. congruence. }
  rewrite Hpre. unfold Path.basename.
  destruct (String.eqb root "") eqn:Hroot; cbn [orb].
  - apply String.eqb_eq in Hroot as ->.
    change ("" +:+ name) with name.
    rewrite (split_chars_no_sep _ _ Hname). cbn [List.last].
    apply text_chars.
  - destruct (Text.endswith root "/") eqn:Hend.
    + unfold Text.endswith in Hend. cbn [Text.chars list_ascii_of_string rev app] in Hend.
      rewrite chars_app.
      destruct (rev (Text.chars root)) as [|c X] eqn:Hrev; [done|].
      cbn [Text.is_prefix] in Hend. rewrite Bool.andb_true_r in Hend.
      apply Ascii.eqb_eq in Hend as <-.
      apply (f_equal (@rev ascii)) in Hrev. rewrite rev_involutive in Hrev.
      cbn [rev] in Hrev. rewrite Hrev, <- app_assoc. cbn [app].
      by rewrite Hlast, text_chars.
    + rewrite !chars_app. cbn [Text.chars list_ascii_of_string app].
      change (list_ascii_of_string ?s) with (Text.chars s).
      by rewrite Hlast, text_chars.
Qed.

Lemma splitext_min stem :
  Path.splitext (stem +:+ ".min")
  = if Path.all_dots (Text.chars stem) then (stem +:+ ".min", "")
    else (stem, ".min").
Proof.
  unfold Path.splitext. rewrite chars_app.
  change (Text.chars ".min") with ("."%char :: Text.chars "min").
  rewrite split_chars_app_sep.
  rewrite (split_chars_no_sep "." (Text.chars "min"))
    by (repeat constructor; discriminate).
  rewrite rev_app_distr. cbn [rev app].
  rewrite rev_involutive, concat_split_chars, all_dots_snoc.
  destruct (Path.all_dots (Text.chars stem)); [done|].
  by rewrite removelast_last, text_chars.
Qed.

(** X10. The written file is named after the detector file alone: for
    a file <stem>.min in any directory the output path is
    <output_dir>/<stem>.txt, whatever the directory, so files of the
    same name in different directories are written to the same path;
    when the stem is empty or made of dots only, the whole name is
    kept and the output is <output_dir>/<stem>.min.txt. *)
Theorem output_path_of_min_file (root stem output_dir : string) :
  Text.contains "/" stem = false ->
  output_path (Path.join root (stem +:+ ".min")) output_dir
  = Path.join output_dir
      ((if Path.all_dots (Text.chars stem) then stem +:+ ".min" else stem)
       +:+ ".txt").
Proof.
  intros Hstem. unfold output_path.
  rewrite basename_join.
  - rewrite splitext_min.
    by destruct (Path.all_dots (Text.chars stem)).
  - unfold Text.contains in *. rewrite chars_app.
    change (Text.chars "/") with ["/"%char] in *.
    revert Hstem. generalize (Text.chars stem) as l.
    induction l as [|c l IH]; [done|].
    cbn [app Text.contains_chars].
    intros [Hc Hl]%orb_false_elim. rewrite IH by done.
    cbn [Text.is_prefix] in *. by rewrite Hc.
Qed.

Lemma output_path_of_min_file_witness :
  output_path (Path.join "in/a" "scan.1.min") "out" = "out/scan.1.txt"
  /\ output_path (Path.join "in/b/" "scan.1.min") "out" = "out/scan.1.txt"
  /\ output_path (Path.join "in" ".min") "out" = "out/.min.txt".
Proof.
  split; [|split].
  - apply (output_path_of_min_file "in/a" "scan.1" "out"). reflexivity.
  - apply (output_path_of_min_file "in/b/" "scan.1" "out"). reflexivity.
  - apply (output_path_of_min_file "in" "" "out"). reflexivity.
Defined.

(** ** The point raster *)

Lemma rect_pixel_some {A} (g : grid A) h w y x :
  rect g h w ->
  0 <= y < Z.of_nat h -> 0 <= x < Z.of_nat w ->
  exists v, pixel g y x = Some v.
Proof.
  intros [Hh Hw] Hy Hx.
  destruct (lookup_lt_is_Some_2 g (Z.to_nat y)) as [row Hrow]; [lia|].
  assert (Hlen : length row = w).
  { eapply Forall_forall in Hw; [exact Hw|]. eapply list_elem_of_lookup_2, Hrow. }
  destruct (lookup_lt_is_Some_2 row (Z.to_nat x)) as [v Hv]; [lia|].
  exists v. by rewrite (pixel_lookup g y x row) by (lia || done).
Qed.

Lemma zeros_pixel target g y x v :
  zeros target = Ok g -> pixel g y x = Some v -> v = 0.
Proof.
  unfold zeros. destruct ((fst target <? 0) || (snd target <? 0)); [done|].
  intros [= <-] (_ & _ & row & Hrow & Hv)%pixel_inv.
  apply list_elem_of_lookup_2, list_elem_of_In, repeat_spec in Hrow.
  subst row.
  by apply list_elem_of_lookup_2, list_elem_of_In, repeat_spec in Hv.
Qed.

Lemma grid_ext {A} (g g' : grid A) h w :
  rect g h w -> rect g' h w ->
  (forall y x, 0 <= y < Z.of_nat h -> 0 <= x < Z.of_nat w ->
               pixel g y x = pixel g' y x) ->
  g = g'.
Proof.
  intros [Hh Hw] [Hh' Hw'] Hpix.
  apply list_eq. intros i.
  destruct (decide (i < h)%nat) as [Hi|Hi].
  - destruct (lookup_lt_is_Some_2 g i) as [row Hrow]; [lia|].
    destruct (lookup_lt_is_Some_2 g' i) as [row' Hrow']; [lia|].
    rewrite Hrow, Hrow'. f_equal.
    assert (Hlen : length row = w).
    { eapply Forall_forall in Hw; [exact Hw|].
      eapply list_elem_of_lookup_2, Hrow. }
    assert (Hlen' : length row' = w).
    { eapply Forall_forall in Hw'; [exact Hw'|].
      eapply list_elem_of_lookup_2, Hrow'. }
    apply list_eq. intros j.
    destruct (decide (j < w)%nat) as [Hj|Hj].
    + specialize (Hpix (Z.of_nat i) (Z.of_nat j) ltac:(lia) ltac:(lia)).
      rewrite (pixel_lookup g _ _ row) in Hpix
        by (try lia; by rewrite Nat2Z.id).
      rewrite (pixel_lookup g' _ _ row') in Hpix
        by (try lia; by rewrite Nat2Z.id).
      by rewrite Nat2Z.id in Hpix.
    + rewrite !lookup_ge_None_2 by lia. done.
  - rewrite !lookup_ge_None_2 by lia. done.
Qed.

(** The raster of a table with rows, once both scale factors exist. *)
Lemma minutiae_map_pixels
  (n c : nat) (rows : list (list F.float)) (orig : Z * Z) (H' W' : Z)
  (sy sx : F.float) :
  n <> 0%nat -> (2 < c)%nat ->
  0 < H' -> 0 < W' ->
  F.int_truediv H' (fst orig) = Ok sy ->
  F.int_truediv W' (snd orig) = Ok sx ->
  exists g,
    create_minutiae_map (Arr2 n c rows) orig (H', W') = Ok g
    /\ rect g (Z.to_nat H') (Z.to_nat W')
    /\ (forall r,
           r ∈ rows ->
           pixel g (scaled_coord (nth 2 r S754_nan) sy H')
                   (scaled_coord (nth 1 r S754_nan) sx W') = Some 255)
    /\ (forall y x v,
           pixel g y x = Some v ->
           v = 0
           \/ exists r,
                r ∈ rows
                /\ y = scaled_coord (nth 2 r S754_nan) sy H'
                /\ x = scaled_coord (nth 1 r S754_nan) sx W').
Proof.
  intros Hn Hc HH HW Hsy Hsx.
  unfold create_minutiae_map. cbn [len Py.bind fst snd].
  destruct (n =? 0)%nat eqn:En; [apply Nat.eqb_eq in En; lia|].
  rewrite Hsy, Hsx. cbn [Py.bind].
  destruct (rect_zeros H' W') as (g0 & Hzeros & Hrect); [lia|lia|].
  rewrite Hzeros. cbn [Py.bind]. unfold column.
  destruct (1 <? c)%nat eqn:E1; [|apply Nat.ltb_ge in E1; lia].
  destruct (2 <? c)%nat eqn:E2; [|apply Nat.ltb_ge in E2; lia].
  cbn [Py.bind]. rewrite !map_map, zip_map_same.
  set (coord := fun r : list F.float =>
         (scaled_coord (nth 2 r S754_nan) sy H',
          scaled_coord (nth 1 r S754_nan) sx W')).
  destruct (set_pixels_spec (map coord rows) 255 (Z.to_nat H') (Z.to_nat W'))
    with (g := g0) as (g & Hset & Hg & Hall & _ & Hback); [|done|].
  { apply Forall_map, Forall_forall. intros r _. unfold coord, scaled_coord.
    cbn [fst snd].
    pose proof (clip_in_range (F.astype_int32 (F.mul (nth 2 r S754_nan) sy)) H' HH).
    pose proof (clip_in_range (F.astype_int32 (F.mul (nth 1 r S754_nan) sx)) W' HW).
    lia. }
  exists g. split; [exact Hset|]. split; [exact Hg|]. split.
  - intros r Hr.
    apply (Hall (coord r)). apply list_elem_of_fmap. by exists r.
  - intros y x v Hp.
    destruct (Hback _ _ _ Hp) as [[Hin _] | Hzero].
    + right. apply list_elem_of_fmap in Hin as (r & Heq & Hr).
      exists r. unfold coord in Heq. injection Heq as -> ->. done.
    + left. by eapply zeros_pixel.
Qed.

(** X11. The point raster depends only on the set of points: two
    tables with rows, over the same set of rows, give the same result
    (the same raster, or the same exception), whatever the order of
    the rows and however often a row is repeated. *)
Theorem minutiae_map_set_of_points
  (n1 n2 c : nat) (rows1 rows2 : list (list F.float))
  (orig_size : Z * Z) (H' W' : Z) :
  n1 <> 0%nat -> n2 <> 0%nat -> (2 < c)%nat ->
  0 < H' -> 0 < W' ->
  (forall r, r ∈ rows1 <-> r ∈ rows2) ->
  create_minutiae_map (Arr2 n1 c rows1) orig_size (H', W')
  = create_minutiae_map (Arr2 n2 c rows2) orig_size (H', W').
Proof.
  intros Hn1 Hn2 Hc HH HW Hrows.
  destruct (F.int_truediv H' (fst orig_size)) as [sy|e] eqn:Hsy.
  2:{ unfold create_minutiae_map. cbn [len Py.bind fst snd].
      destruct (n1 =? 0)%nat eqn:E1; [apply Nat.eqb_eq in E1; lia|].
      destruct (n2 =? 0)%nat eqn:E2; [apply Nat.eqb_eq in E2; lia|].
      by rewrite Hsy. }
  destruct (F.int_truediv W' (snd orig_size)) as [sx|e] eqn:Hsx.
  2:{ unfold create_minutiae_map. cbn [len Py.bind fst snd].
      destruct (n1 =? 0)%nat eqn:E1; [apply Nat.eqb_eq in E1; lia|].
      destruct (n2 =? 0)%nat eqn:E2; [apply Nat.eqb_eq in E2; lia|].
      by rewrite Hsy, Hsx. }
  destruct (minutiae_map_pixels n1 c rows1 orig_size H' W' sy sx)
    as (g1 & -> & Hg1 & Hall1 & Hback1); try done.
  destruct (minutiae_map_pixels n2 c rows2 orig_size H' W' sy sx)
    as (g2 & -> & Hg2 & Hall2 & Hback2); try done.
  f_equal. apply (grid_ext g1 g2 _ _ Hg1 Hg2). intros y x Hy Hx.
  destruct (rect_pixel_some g1 _ _ y x Hg1 Hy Hx) as [v1 Hv1].
  destruct (rect_pixel_some g2 _ _ y x Hg2 Hy Hx) as [v2 Hv2].
  destruct (Hback1 _ _ _ Hv1) as [-> | (r & Hr & -> & ->)].
  - destruct (Hback2 _ _ _ Hv2) as [-> | (r & Hr & -> & ->)]; [congruence|].
    apply Hrows, Hall1 in Hr. congruence.
  - rewrite (Hall1 r Hr). symmetry. apply Hall2. by apply Hrows.
Qed.

Lemma minutiae_map_set_of_points_witness :
  create_minutiae_map
    (Arr2 3 4 [[F.of_Z 1; F.of_Z 3; F.of_Z 1; F.of_Z 0];
               [F.of_Z 2; F.of_Z 0; F.of_Z 2; F.of_Z 0];
               [F.of_Z 1; F.of_Z 3; F.of_Z 1; F.of_Z 0]]) (4, 4) (5, 5)
  = create_minutiae_map
      (Arr2 2 4 [[F.of_Z 2; F.of_Z 0; F.of_Z 2; F.of_Z 0];
                 [F.of_Z 1; F.of_Z 3; F.of_Z 1; F.of_Z 0]]) (4, 4) (5, 5).
Proof.
  apply minutiae_map_set_of_points; [discriminate|discriminate|lia|lia|lia|].
  intros r. rewrite !elem_of_cons, !elem_of_nil. tauto.
Defined.

(** ** Rendering at the original size *)

Lemma of_Z_canonical u :
  u <> 0 -> Z.abs u < 2 ^ 53 ->
  exists M d,
    F.of_Z u = S754_finite (u <? 0) M (d - 53)
    /\ Zpos M = Z.abs u * 2 ^ (53 - d)
    /\ 1 <= d <= 53
    /\ Zpos (digits2_pos M) = 53.
Proof.
  intros Hu0 Hu. unfold F.of_Z, F.prec, F.emax.
  destruct u as [|p|p]; [done| |].
  - pose proof (digits_le_53 p Hu) as Hd.
    pose proof (digits_bounds p) as Hb.
    destruct (round_canonical false p 0 0 p) as (M & HM & Hround);
      [lia|lia|lia|lia|].
    exists M, (Zpos (digits2_pos p)). cbn [binary_normalize].
    rewrite Hround. split; [f_equal; lia|]. split; [exact HM|].
    split; [lia|].
    rewrite (digits_shift p (53 - Zpos (digits2_pos p)) M) by (lia || done).
    lia.
  - pose proof (digits_le_53 p Hu) as Hd.
    pose proof (digits_bounds p) as Hb.
    destruct (round_canonical true p 0 0 p) as (M & HM & Hround);
      [lia|lia|lia|lia|].
    exists M, (Zpos (digits2_pos p)). cbn [binary_normalize].
    rewrite Hround. split; [f_equal; lia|]. split; [exact HM|].
    split; [lia|].
    rewrite (digits_shift p (53 - Zpos (digits2_pos p)) M) by (lia || done).
    lia.
Qed.

Lemma round_div_self p : F.round_div false (Z.pos p) (Z.pos p) = F.of_Z 1.
Proof.
  unfold F.round_div, SFdiv_core_binary.
  replace (Zdigits2 (Z.pos p) + 0 - (Zdigits2 (Z.pos p) + 0)) with 0 by lia.
  change (Z.min (fexp F.prec F.emax 0) (0 - 0)) with (-53).
  change (0 - 0 - -53) with 53. cbv beta iota zeta.
  change (IntDef.Z.div_eucl ?a ?b) with (Z.div_eucl a b).
  assert (Hdiv : Z.div_eucl (Z.shiftl (Z.pos p) 53) (Z.pos p) = (2 ^ 53, 0)).
  { rewrite Z.shiftl_mul_pow2 by lia.
    pose proof (Z.div_mul (2 ^ 53) (Z.pos p) ltac:(lia)) as Hq.
    pose proof (Z.mod_mul (2 ^ 53) (Z.pos p) ltac:(lia)) as Hr.
    rewrite (Z.mul_comm (2 ^ 53)) in Hq, Hr.
    unfold Z.div, Z.modulo in Hq, Hr.
    destruct (Z.div_eucl (Z.pos p * 2 ^ 53) (Z.pos p)) as [q r].
    cbn [fst snd] in Hq, Hr. by subst. }
  rewrite Hdiv.
  assert (Hloc : new_location (Z.pos p) 0 = new_location 2 0).
  { unfold new_location, new_location_even, new_location_odd.
    by destruct (Z.even (Z.pos p)). }
  rewrite Hloc. reflexivity.
Qed.

(** An integer divided by itself is exactly 1.0. *)
Lemma int_truediv_self n :
  0 < n -> F.int_truediv n n = Ok (F.of_Z 1).
Proof.
  intros Hn. destruct n as [|p|p]; [lia| |lia].
  unfold F.int_truediv.
  change (Z.pos p =? 0) with false. change (Z.pos p <? 0) with false.
  change (Z.abs (Z.pos p)) with (Z.pos p).
  cbn [Bool.eqb negb]. by rewrite round_div_self.
Qed.

Lemma mul_one_of_Z u :
  Z.abs u < 2 ^ 53 -> F.mul (F.of_Z u) (F.of_Z 1) = F.of_Z u.
Proof.
  intros Hu. destruct (decide (u = 0)) as [->|Hu0]; [reflexivity|].
  destruct (of_Z_canonical u Hu0 Hu) as (M & d & -> & HM & Hd & HdM).
  change (F.of_Z 1) with (S754_finite false 4503599627370496 (-52)).
  rewrite mul_finite.
  rewrite (round_aux_exact _ M (M * 4503599627370496) 52 (d - 53 + -52));
    [|done|lia|lia|lia].
  f_equal; [by destruct (u <? 0)|lia].
Qed.

Lemma astype_int32_of_Z u :
  - 2 ^ 31 <= u < 2 ^ 31 -> F.astype_int32 (F.of_Z u) = u.
Proof.
  intros Hu.
  assert (Hpow : 2 ^ 31 < 2 ^ 53) by (apply Z.pow_lt_mono_r; lia).
  destruct (decide (u = 0)) as [->|Hu0]; [reflexivity|].
  destruct (of_Z_canonical u Hu0 ltac:(lia)) as (M & d & -> & HM & Hd & _).
  unfold F.astype_int32, F.trunc.
  assert (Ha : (if 0 <=? d - 53
                then Z.shiftl (Z.pos M) (d - 53)
                else Z.shiftr (Z.pos M) (- (d - 53))) = Z.abs u).
  { destruct (0 <=? d - 53) eqn:E.
    - assert (d = 53) as -> by lia.
      replace (53 - 53) with 0 in * by lia.
      rewrite Z.shiftl_0_r, HM, Z.pow_0_r. lia.
    - rewrite Z.shiftr_div_pow2 by lia.
      replace (- (d - 53)) with (53 - d) by lia.
      rewrite HM. apply Z.div_mul.
      apply Z.pow_nonzero; lia. }
  rewrite Ha.
  assert (Hval : (if u <? 0 then - Z.abs u else Z.abs u) = u)
    by (destruct (u <? 0) eqn:E; lia).
  rewrite Hval.
  destruct (- 2 ^ 31 <=? u) eqn:E1; [|lia].
  destruct (u <? 2 ^ 31) eqn:E2; [|lia].
  reflexivity.
Qed.

(** X12. Rendering at the original size, as create_template_from_file
    does when no original size is given: the scale factors are exactly
    1.0, and a point with integer coordinates (x, y) in the int32
    range marks the pixel at row y and column x when it lies inside
    the raster, and otherwise the nearest border pixel (each
    coordinate clipped); such a point is never dropped. *)
Theorem minutiae_map_identity_scale
  (n c : nat) (rows : list (list F.float)) (H W x y : Z)
  (r : list F.float) :
  n <> 0%nat -> (2 < c)%nat ->
  0 < H -> 0 < W ->
  r ∈ rows ->
  nth 1 r S754_nan = F.of_Z x -> nth 2 r S754_nan = F.of_Z y ->
  - 2 ^ 31 <= x < 2 ^ 31 -> - 2 ^ 31 <= y < 2 ^ 31 ->
  exists g,
    create_minutiae_map (Arr2 n c rows) (H, W) (H, W) = Ok g
    /\ pixel g (clip y 0 (H - 1)) (clip x 0 (W - 1)) = Some 255
    /\ (0 <= y < H -> 0 <= x < W -> pixel g y x = Some 255).
Proof.
  intros Hn Hc HH HW Hr Hx Hy Hxr Hyr.
  assert (Hpow : 2 ^ 31 < 2 ^ 53) by (apply Z.pow_lt_mono_r; lia).
  destruct (minutiae_map_pixels n c rows (H, W) H W (F.of_Z 1) (F.of_Z 1))
    as (g & Hg & _ & Hall & _); try done.
  { by apply int_truediv_self. }
  { by apply int_truediv_self. }
  exists g. split; [exact Hg|].
  specialize (Hall r Hr). unfold scaled_coord in Hall.
  change (@nth F.float) with (@nth spec_float) in Hx, Hy.
  rewrite Hx, Hy in Hall.
  rewrite !mul_one_of_Z, !astype_int32_of_Z in Hall by lia.
  split; [exact Hall|].
  intros Hyin Hxin. unfold clip in Hall.
  by replace (Z.min (Z.max y 0) (H - 1)) with y in Hall by lia;
     replace (Z.min (Z.max x 0) (W - 1)) with x in Hall by lia.
Qed.

Lemma minutiae_map_identity_scale_witness :
  exists g,
    create_minutiae_map
      (Arr2 1 4 [[F.of_Z 1; F.of_Z 700; F.of_Z 2; F.of_Z 0]])
      (512, 512) (512, 512) = Ok g
    /\ pixel g 2 511 = Some 255.
Proof.
  destruct (minutiae_map_identity_scale 1 4
              [[F.of_Z 1; F.of_Z 700; F.of_Z 2; F.of_Z 0]] 512 512 700 2
              [F.of_Z 1; F.of_Z 700; F.of_Z 2; F.of_Z 0])
    as (g & Hg & Hpix & _).
  - discriminate.
  - lia.
  - lia.
  - lia.
  - apply list_elem_of_here.
  - reflexivity.
  - reflexivity.
  - vm_compute. split; [discriminate|reflexivity].
  - vm_compute. split; [discriminate|reflexivity].
  - exists g. split; [exact Hg|exact Hpix].
Defined.

(** ** The channels of a template *)

Lemma filter_filter_sub {A} (P Q : A -> bool) (l : list A) :
  (forall a, P a = true -> Q a = true) ->
  filter (fun a => P a) (filter (fun a => Q a) l) = filter (fun a => P a) l.
Proof.
  intros HPQ. induction l as [|a l IH]; [done|].
  rewrite (filter_cons (fun a => Q a)), (filter_cons (fun a => P a) a l).
  destruct (decide (Q a)) as [HQ|HQ].
  - rewrite filter_cons. destruct (decide (P a)); by rewrite IH.
  - destruct (decide (P a)) as [HP|HP]; [|done].
    exfalso. apply HQ. apply Is_true_true, HPQ. by apply Is_true_true.
Qed.


Lemma isin_sub t r : isin [t] r = true -> t = 1 \/ t = 2 -> isin [1; 2] r = true.
Proof.
  unfold isin. cbn [existsb]. rewrite !Bool.orb_false_r.
  intros Ht [-> | ->]; rewrite Ht; [done|]. apply Bool.orb_true_r.
Qed.


Section Channels.

Variable np_cos np_sin : F.float -> F.float.
Variable line_nd : Z * Z -> Z * Z -> result (list (Z * Z)).
Variable gaussian_filter : grid F.float -> F.float -> grid F.float.

Lemma render_channel_of_type (t : Z) (n c : nat) (rows : list (list F.float))
  (orig_size target_size : Z * Z) (config : Config) :
  t = 1 \/ t = 2 ->
  render_channel np_cos np_sin line_nd gaussian_filter [t]
    (Arr2 n c rows) orig_size target_size config
  = render_channel np_cos np_sin line_nd gaussian_filter [t]
      (Arr2 (length (filter (fun r => isin [1; 2] r) rows)) c
            (filter (fun r => isin [1; 2] r) rows))
      orig_size target_size config.
Proof.
  intros Ht. unfold render_channel.
  destruct (decide ([t] = [-1])) as [Heq|_]; [done|].
  unfold filter_types.
  destruct (0 <? c)%nat; [|done].
  change (fun r : list F.float =>
            existsb (fun t0 => SFeqb (nth 0 r S754_nan) (F.of_Z t0)) [t])
    with (fun r : list F.float => isin [t] r).
  rewrite (filter_filter_sub (isin [t]) (isin [1; 2])); [done|].
  intros r Hr. by apply (isin_sub t).
Qed.

(** X13. Without singular points (the default), rows whose type is
    neither 1 nor 2 have no effect on the template: the table and the
    table with those rows removed give the same result, channel by
    channel (the same image, or the same exception). *)
Theorem default_template_ignores_other_types
  (n c : nat) (rows : list (list F.float))
  (orig_size target_size : Z * Z) (config : Config) :
  create_template_image np_cos np_sin line_nd gaussian_filter
    (Arr2 n c rows) orig_size target_size false config
  = create_template_image np_cos np_sin line_nd gaussian_filter
      (Arr2 (length (filter (fun r => isin [1; 2] r) rows)) c
            (filter (fun r => isin [1; 2] r) rows))
      orig_size target_size false config.
Proof.
  unfold create_template_image. cbn [render_channels].
  rewrite (render_channel_of_type 1 n c rows) by (by left).
  rewrite (render_channel_of_type 2 n c rows) by (by right).
  reflexivity.
Qed.



End Channels.


(** ** Running the detector on one image *)

Lemma append_cancel_l (s a b : string) : s +:+ a = s +:+ b -> a = b.
Proof.
  induction s as [|c s IH]; cbn; [done|]. intros [= H]. by apply IH.
Qed.

Lemma fold_delete_other (f : string -> string) (exts : list string)
  (p : string) :
  (forall ext, ext ∈ exts -> p <> f ext) ->
  forall m : store,
    fold_left (fun acc ext => delete (f ext) acc) exts m !! p = m !! p.
Proof.
  induction exts as [|e exts IH]; intros Hp m; cbn [fold_left]; [done|].
  rewrite IH by (intros ext Hext; apply Hp; by apply elem_of_cons; right).
  apply lookup_delete_ne. intros Heq. apply (Hp e); [|done].
  by apply elem_of_cons; left.
Qed.

Lemma fold_delete_gone (f : string -> string) (exts : list string)
  (p : string) :
  p ∈ map f exts ->
  forall m : store,
    fold_left (fun acc ext => delete (f ext) acc) exts m !! p = None.
Proof.
  induction exts as [|e exts IH]; intros Hin m; cbn [fold_left map] in *.
  - by apply elem_of_nil in Hin.
  - destruct (decide (p ∈ map f exts)) as [Hrest|Hrest]; [by apply IH|].
    apply elem_of_cons in Hin as [-> | Hin]; [|done].
    rewrite fold_delete_other.
    + apply lookup_delete_eq.
    + intros x Hx Heq. apply Hrest. rewrite Heq.
      apply list_elem_of_fmap. by exists x.
Qed.

Section Cleanup.

Variable makedirs_env : string -> result unit.
Variable remove_env : string -> option exn.
Variable run_mindtct : store -> string -> string -> store * option exn.
Variable get_file_name_and_ext : string -> result (string * string * string).

(** A step of the clean-up that returns has removed its file. *)
Lemma remove_step_returned prefix fs ext fs' :
  remove_step remove_env prefix fs ext = Ok fs' ->
  fs' = delete (prefix +:+ "." +:+ ext) fs.
Proof.
  unfold remove_step, exists_file, os_remove.
  destruct (bool_decide _) eqn:Hex.
  - destruct (remove_env _); [done|]. by intros [= <-].
  - intros [= <-]. symmetry. apply delete_id.
    apply bool_decide_eq_false in Hex.
    by apply eq_None_not_Some.
Qed.

Lemma remove_loop_returned prefix exts :
  forall fs fs',
    Py.fold (remove_step remove_env prefix) exts fs = Ok fs' ->
    fs' = fold_left (fun acc ext => delete (prefix +:+ "." +:+ ext) acc)
                    exts fs.
Proof.
  induction exts as [|ext exts IH]; intros fs fs'; cbn [Py.fold fold_left].
  - by intros [= <-].
  - destruct (remove_step remove_env prefix fs ext) as [fs1|e] eqn:Hstep;
      [|done].
    apply remove_step_returned in Hstep as ->. apply IH.
Qed.

(** X15. Once the output directory exists and the path helper has
    answered, what extract_minutiae_from_image returns depends on the
    detector's .min file alone.  If the detector block raised, or left
    no <prefix>.min, the call returns None and removes nothing,
    whatever the detector left behind.  If <prefix>.min exists, then
    with keep_all_files the call returns that path and leaves the
    store as the detector left it; without it, whenever the call
    returns, it returns that path, the seven auxiliary files
    <prefix>.dm, .hcm, .lcm, .lfm, .qm, .xyt and .brw are gone, and
    the .min file and every other file are as the detector left them;
    it does return when no removal fails. *)
Theorem extraction_cleans_up
  (fs fs1 : store) (image_path output_dir : string)
  (parts : string * string * string) (raised : option exn) :
  let output_prefix := Path.join output_dir (snd (fst parts)) in
  let extract :=
    extract_minutiae_from_image makedirs_env remove_env run_mindtct
      get_file_name_and_ext fs image_path output_dir in
  makedirs makedirs_env output_dir = Ok tt ->
  get_file_name_and_ext image_path = Ok parts ->
  run_mindtct fs image_path output_prefix = (fs1, raised) ->
  (is_Some raised \/ fs1 !! (output_prefix +:+ ".min") = None ->
   forall keep_all_files, extract keep_all_files = Ok (fs1, None))
  /\ (raised = None ->
      forall content,
        fs1 !! (output_prefix +:+ ".min") = Some content ->
        extract true = Ok (fs1, Some (output_prefix +:+ ".min"))
        /\ (forall fs2 returned,
               extract false = Ok (fs2, returned) ->
               returned = Some (output_prefix +:+ ".min")
               /\ fs2 !! (output_prefix +:+ ".min") = Some content
               /\ (forall ext,
                      ext ∈ extensions_to_remove ->
                      fs2 !! (output_prefix +:+ "." +:+ ext) = None)
               /\ (forall p,
                      (forall ext,
                          ext ∈ extensions_to_remove ->
                          p <> output_prefix +:+ "." +:+ ext) ->
                      fs2 !! p = fs1 !! p))
        /\ ((forall p, remove_env p = None) ->
            exists fs2,
              extract false = Ok (fs2, Some (output_prefix +:+ ".min")))).
Proof.
  intros output_prefix extract Hmk Hname Hrun.
  assert (Hother : forall ext,
             ext ∈ extensions_to_remove ->
             output_prefix +:+ ".min" <> output_prefix +:+ "." +:+ ext).
  { intros ext Hext Heq. apply append_cancel_l in Heq.
    unfold extensions_to_remove in Hext.
    repeat (apply elem_of_cons in Hext as [-> | Hext]; [done|]).
    by apply elem_of_nil in Hext. }
  assert (Hcleaned : forall fs2 content,
             fs1 !! (output_prefix +:+ ".min") = Some content ->
             Py.fold (remove_step remove_env output_prefix)
               extensions_to_remove fs1 = Ok fs2 ->
             fs2 !! (output_prefix +:+ ".min") = Some content
             /\ (forall ext,
                    ext ∈ extensions_to_remove ->
                    fs2 !! (output_prefix +:+ "." +:+ ext) = None)
             /\ (forall p,
                    (forall ext,
                        ext ∈ extensions_to_remove ->
                        p <> output_prefix +:+ "." +:+ ext) ->
                    fs2 !! p = fs1 !! p)).
  { intros fs2 content Hmin ->%remove_loop_returned. split; [|split].
    - rewrite (fold_delete_other (fun ext => output_prefix +:+ "." +:+ ext))
        by done.
      exact Hmin.
    - intros ext Hext.
      apply (fold_delete_gone (fun ext => output_prefix +:+ "." +:+ ext)).
      apply list_elem_of_fmap. by exists ext.
    - intros p Hp.
      by apply (fold_delete_other (fun ext => output_prefix +:+ "." +:+ ext)). }
  assert (Hbody : forall keep,
             extract keep
             = (let '(fs1, ok) :=
                  call_mindtct run_mindtct fs image_path output_prefix in
                if negb ok then Ok (fs1, None)
                else
                  fs2 <-! (if keep then Ok fs1
                           else Py.fold (remove_step remove_env output_prefix)
                                  extensions_to_remove fs1);
                  Ok (fs2,
                      if exists_file fs2 (output_prefix +:+ ".min")
                      then Some (output_prefix +:+ ".min") else None))).
  { intros keep. unfold extract, extract_minutiae_from_image.
    rewrite Hmk. cbn [Py.bind]. rewrite Hname. reflexivity. }
  assert (Hexists : forall m content,
             m !! (output_prefix +:+ ".min") = Some content ->
             exists_file m (output_prefix +:+ ".min") = true).
  { intros m content Hm. unfold exists_file.
    apply bool_decide_eq_true. by rewrite Hm. }
  split.
  - intros Hfail keep. rewrite Hbody. unfold call_mindtct. rewrite Hrun.
    destruct raised as [e|]; [done|].
    destruct Hfail as [[e He]|Hnone]; [done|].
    assert (Hex : exists_file fs1 (output_prefix +:+ ".min") = false).
    { unfold exists_file. apply bool_decide_eq_false. rewrite Hnone.
      by intros [? ?]. }
    by rewrite Hex.
  - intros -> content Hmin.
    assert (Hcall : call_mindtct run_mindtct fs image_path output_prefix
                    = (fs1, true)).
    { unfold call_mindtct. rewrite Hrun. by rewrite (Hexists fs1 content). }
    split; [|split].
    + rewrite Hbody, Hcall. cbn [negb Py.bind].
      by rewrite (Hexists fs1 content).
    + intros fs2 returned. rewrite Hbody, Hcall. cbn [negb].
      remember (Py.fold _ _ _) as cleaned eqn:Hfold in |- *.
      destruct cleaned as [fs2'|e]; cbn [Py.bind]; [|done].
      symmetry in Hfold.
      destruct (Hcleaned fs2' content Hmin Hfold) as (Hkeep & Hgone & Hrest).
      rewrite (Hexists fs2' content Hkeep). by intros [= <- <-].
    + intros Hrm. rewrite Hbody, Hcall. cbn [negb].
      destruct (remove_loop_returns remove_env output_prefix
                  extensions_to_remove Hrm fs1) as [fs2 Hfold].
      rewrite Hfold. cbn [Py.bind].
      destruct (Hcleaned fs2 content Hmin Hfold) as (Hkeep & _).
      rewrite (Hexists fs2 content Hkeep). by exists fs2.
Qed.

End Cleanup.

Lemma extraction_cleans_up_witness :
  exists fs2,
    extract_minutiae_from_image Sample.dirs_ok Sample.removable
      (fun fs _ prefix =>
         (<[prefix +:+ ".min" := "m"]> (<[prefix +:+ ".xyt" := "x"]> fs),
          None))
      (fun _ => Ok ("in", "scan", ".png")) ∅ "in/scan.png" "out" false
    = Ok (fs2, Some "out/scan.min")
    /\ fs2 !! "out/scan.min" = Some "m"
    /\ fs2 !! "out/scan.xyt" = None.
Proof.
  destruct (extraction_cleans_up Sample.dirs_ok Sample.removable
              (fun fs _ prefix =>
                 (<[prefix +:+ ".min" := "m"]>
                    (<[prefix +:+ ".xyt" := "x"]> fs), None))
              (fun _ => Ok ("in", "scan", ".png")) ∅
              (<["out/scan.min" := "m"]> (<["out/scan.xyt" := "x"]> ∅))
              "in/scan.png" "out" ("in", "scan", ".png") None
              eq_refl eq_refl eq_refl) as [_ Hsome].
  destruct (Hsome eq_refl "m" eq_refl) as (_ & Hreturned & Hreturns).
  destruct (Hreturns (fun _ => eq_refl)) as [fs2 Hcall].
  destruct (Hreturned fs2 _ Hcall) as (_ & Hmin & Hgone & _).
  exists fs2. split; [exact Hcall|]. split; [exact Hmin|].
  apply (Hgone "xyt"). unfold extensions_to_remove.
  repeat (apply elem_of_cons; first [by left | right]).
Defined.

(** ** The orientation raster *)

Lemma zeros_ok_rect target g :
  zeros target = Ok g ->
  rect g (Z.to_nat (fst target)) (Z.to_nat (snd target)).
Proof.
  intros Hz. destruct target as [h w].
  unfold zeros in Hz. cbn [fst snd] in *.
  destruct (h <? 0) eqn:E1; [done|]. destruct (w <? 0) eqn:E2; [done|].
  destruct (rect_zeros h w) as (g0 & Hg0 & Hrect); [lia|lia|].
  unfold zeros in Hg0. cbn [fst snd] in Hg0. rewrite E1, E2 in Hg0.
  cbn in Hz, Hg0. congruence.
Qed.

Section Segments.

Variable np_cos np_sin : F.float -> F.float.
Variable line_nd : Z * Z -> Z * Z -> result (list (Z * Z)).

Lemma draw_line_segments target g ys xs y2 x2 g' :
  segments_only line_nd target g ->
  draw_line line_nd g target ys xs y2 x2 = Ok g' ->
  segments_only line_nd target g'.
Proof.
  intros [Hrect Hpix]. unfold draw_line.
  destruct (F.to_int y2) as [y2i|]; cbn [Py.bind]; [|done].
  destruct (F.to_int x2) as [x2i|]; cbn [Py.bind]; [|done].
  destruct (line_nd (ys, xs) (y2i, x2i)) as [coords|] eqn:Hline;
    cbn [Py.bind]; [|done].
  set (valid := filter _ coords).
  assert (Hvalid : forall p, p ∈ valid ->
             p ∈ coords
             /\ 0 <= fst p < fst target /\ 0 <= snd p < snd target).
  { intros p [Hp Hin]%list_elem_of_filter. split; [done|].
    apply Is_true_true in Hp.
    apply andb_prop in Hp as [Hp H4]. apply andb_prop in Hp as [Hp H3].
    apply andb_prop in Hp as [H1 H2]. lia. }
  destruct (set_pixels_spec valid 255 (Z.to_nat (fst target))
              (Z.to_nat (snd target))) with (g := g)
    as (g1 & Hset & Hg1 & _ & _ & Hback); [|done|].
  { apply Forall_forall. intros p Hp. apply Hvalid in Hp. lia. }
  rewrite Hset. intros [= <-]. split; [done|].
  intros y x v Hv.
  destruct (Hback _ _ _ Hv) as [[Hin ->] | Hold]; [|by apply Hpix].
  right. split; [done|].
  exists (ys, xs), (y2i, x2i), coords. split; [done|].
  by apply Hvalid in Hin as [? _].
Qed.

Lemma draw_lines_segments target sy sx len_ points :
  forall g g',
    segments_only line_nd target g ->
    draw_lines np_cos np_sin line_nd g target sy sx len_ points = Ok g' ->
    segments_only line_nd target g'.
Proof.
  induction points as [|[[x y] o] points IH]; intros g g' Hg;
    cbn [draw_lines].
  - by intros [= <-].
  - destruct (F.to_int (F.mul x sx)) as [xs|]; cbn [Py.bind]; [|done].
    destruct (F.to_int (F.mul y sy)) as [ys|]; cbn [Py.bind]; [|done].
    destruct (F.of_int len_) as [lf|]; cbn [Py.bind]; [|done].
    destruct (F.of_int xs) as [xf|]; cbn [Py.bind]; [|done].
    destruct (F.of_int ys) as [yf|]; cbn [Py.bind]; [|done].
    apply IH. unfold Py.try_except.
    destruct (draw_line _ _ _ _ _ _ _) as [g1|] eqn:Hdraw; [|done].
    by eapply draw_line_segments.
Qed.

(** X16. Whatever the line routine and the trigonometric functions
    return, a raster that create_orientation_map returns has the
    target size and holds only 0 and 255, and every pixel at 255 is a
    sample of a segment that the line routine returned: samples
    outside the raster are dropped, not moved to the border, and a
    segment that fails to draw leaves the raster as it was. *)
Theorem orientation_map_only_segments
  (minutiae : ndarray) (orig_size target_size : Z * Z) (line_length : Z)
  (g : grid Z) :
  create_orientation_map np_cos np_sin line_nd minutiae orig_size
    target_size line_length = Ok g ->
  segments_only line_nd target_size g.
Proof.
  assert (Hzero : forall g0, zeros target_size = Ok g0 ->
                             segments_only line_nd target_size g0).
  { intros g0 Hz. split; [by apply zeros_ok_rect|].
    intros y x v Hv. left. by eapply zeros_pixel. }
  unfold create_orientation_map.
  destruct (len minutiae) as [n|]; cbn [Py.bind]; [|done].
  destruct (n =? 0)%nat; [apply Hzero|].
  destruct (F.int_truediv _ _) as [sy|]; cbn [Py.bind]; [|done].
  destruct (F.int_truediv _ _) as [sx|]; cbn [Py.bind]; [|done].
  destruct (F.of_int line_length) as [ll|]; cbn [Py.bind]; [|done].
  destruct (F.to_int _) as [sl|]; cbn [Py.bind]; [|done].
  destruct (zeros target_size) as [g0|] eqn:Hz; cbn [Py.bind]; [|done].
  destruct (column 1 minutiae) as [xs|]; cbn [Py.bind]; [|done].
  destruct (column 2 minutiae) as [ys|]; cbn [Py.bind]; [|done].
  destruct (column 3 minutiae) as [os|]; cbn [Py.bind]; [|done].
  apply draw_lines_segments. by apply Hzero.
Qed.

End Segments.

Lemma orientation_map_only_segments_witness :
  exists g,
    create_orientation_map (fun _ => F.of_Z 1) (fun _ => F.of_Z 0)
      (fun a b => Ok [a; b]) Sample.point_3_1 (4, 4) (4, 4) 2 = Ok g
    /\ pixel g 1 3 = Some 255
    /\ pixel g 1 2 = Some 0
    /\ segments_only (fun a b => Ok [a; b]) (4, 4) g.
Proof.
  eexists. split; [vm_compute; reflexivity|].
  split; [reflexivity|]. split; [reflexivity|].
  apply (orientation_map_only_segments (fun _ => F.of_Z 1) (fun _ => F.of_Z 0)
           (fun a b => Ok [a; b]) Sample.point_3_1 (4, 4) (4, 4) 2).
  vm_compute. reflexivity.
Defined.

(** ** The minimum count at 1 or below *)

Lemma convert_step_written mk out q n fs s t f fs1 txt :
  n <= 1 ->
  convert_min_to_txt mk fs f out q = (fs1, Some txt) ->
  convert_step mk out q n (fs, s, t) f = (fs1, s + 1, t + 1).
Proof.
  intros Hn Hconv. unfold convert_step. rewrite Hconv.
  destruct (convert_min_to_txt_written _ _ _ _ _ _ _ Hconv)
    as (data & Hne & Hchars & -> & ->).
  rewrite output_path_nonempty. unfold read_file.
  rewrite lookup_insert_eq.
  destruct (file_text_one_line data Hne Hchars) as [_ ->].
  destruct (n <=? 1) eqn:Hle; [done|lia].
Qed.

Lemma convert_step_no_delete mk out q n st f p :
  n <= 1 ->
  is_Some (batch_store st !! p) ->
  is_Some (batch_store (convert_step mk out q n st f) !! p).
Proof.
  intros Hn Hp. destruct st as [[fs s] t]. cbn [batch_store fst] in Hp.
  destruct (convert_min_to_txt mk fs f out q) as [fs1 [txt|]] eqn:Hconv.
  - rewrite (convert_step_written mk out q n fs s t f fs1 txt Hn Hconv).
    cbn [batch_store fst].
    destruct (convert_min_to_txt_written _ _ _ _ _ _ _ Hconv)
      as (data & _ & _ & -> & ->).
    destruct (decide (p = output_path f out)) as [->|Hneq].
    + rewrite lookup_insert_eq. by eexists.
    + by rewrite lookup_insert_ne.
  - unfold convert_step. rewrite Hconv. cbn [batch_store fst].
    destruct (convert_min_to_txt_cases mk fs f out q)
      as [Hnone | (data & _ & _ & _ & Hsome)]; [|congruence].
    rewrite Hnone in Hconv. by injection Hconv as <-.
Qed.

(** X17. With a minimum count of 1 or less the count check never
    rejects a file: an iteration of the batch loop whose conversion
    writes a file counts it as a success and leaves it in place, and
    a batch that returns has removed no file that was in the store
    before it ran. *)
Theorem batch_conversion_keeps_all
  (makedirs_env : string -> result unit)
  (output_dir : string) (q : F.float) (min_minutiae_count : Z) :
  min_minutiae_count <= 1 ->
  (forall fs successful total min_file_path fs1 txt,
      convert_min_to_txt makedirs_env fs min_file_path output_dir q
      = (fs1, Some txt) ->
      convert_step makedirs_env output_dir q min_minutiae_count
        (fs, successful, total) min_file_path
      = (fs1, successful + 1, total + 1))
  /\ (forall fs walk fs' counts p,
         convert_all_minutiae_files makedirs_env fs walk output_dir q
           min_minutiae_count = Ok (fs', counts) ->
         is_Some (fs !! p) -> is_Some (fs' !! p))
  /\ (makedirs makedirs_env output_dir = Ok tt ->
      forall fs walk,
        exists fs' counts,
          convert_all_minutiae_files makedirs_env fs walk output_dir q
            min_minutiae_count = Ok (fs', counts)).
Proof.
  intros Hn. split; [|split].
  - intros fs s t f fs1 txt Hconv.
    by apply (convert_step_written _ _ _ _ _ _ _ _ _ txt).
  - intros fs walk fs' counts p.
    unfold convert_all_minutiae_files, convert_loop.
    destruct (makedirs makedirs_env output_dir) as [[]|e]; cbn [Py.bind];
      [|done].
    assert (Hloop : forall files st,
               is_Some (batch_store st !! p) ->
               is_Some (batch_store
                          (fold_left (convert_step makedirs_env output_dir q
                                        min_minutiae_count) files st) !! p)).
    { induction files as [|f files IH]; intros st Hst; cbn [fold_left];
        [done|].
      apply IH. by apply convert_step_no_delete. }
    specialize (Hloop (find_min_files walk) (fs, 0, 0)).
    destruct (fold_left _ _ _) as [[fs1 s] t].
    intros [= <- <-]. exact Hloop.
  - intros Hmk fs walk. unfold convert_all_minutiae_files.
    rewrite Hmk. cbn [Py.bind].
    destruct (convert_loop _ _ _ _ _ _) as [[fs1 s] t]. by eexists _, _.
Qed.

Lemma batch_conversion_keeps_all_witness :
  convert_all_minutiae_files Sample.dirs_ok
    (Sample.in_store Sample.scenario_quality_first)
    [("in", ["scan.min"])] "out" Sample.no_threshold 1
  = Ok (<["out/scan.txt" := "1 10 20 90.0\n2 30 40 0.0\n"]>
          (Sample.in_store Sample.scenario_quality_first), (1, 1)).
Proof.
  destruct (batch_conversion_keeps_all Sample.dirs_ok "out"
              Sample.no_threshold 1) as [Hstep _]; [lia|].
  unfold convert_all_minutiae_files, convert_loop.
  change (makedirs Sample.dirs_ok "out") with (@Ok unit tt). cbn [Py.bind].
  change (find_min_files [("in", ["scan.min"])]) with ["in/scan.min"].
  cbn [fold_left].
  rewrite (Hstep (Sample.in_store Sample.scenario_quality_first) 0 0
             "in/scan.min"
             (<["out/scan.txt" := "1 10 20 90.0\n2 30 40 0.0\n"]>
                (Sample.in_store Sample.scenario_quality_first))
             "out/scan.txt").
  - reflexivity.
  - vm_compute. reflexivity.
Defined.

(** ** The width of a parsed table *)

Lemma parse_minutiae_file_body_columns fs p t :
  parse_minutiae_file_body fs p = Ok t ->
  exists n c rows, t = Arr2 n c rows /\ (4 <= c)%nat.
Proof.
  unfold parse_minutiae_file_body.
  destruct (loadtxt fs p) as [[x|v|n c rows]|]; cbn [Py.bind]; [done| | |done].
  - destruct (3 <? length v)%nat eqn:Hc; [|done].
    apply Nat.ltb_lt in Hc. intros [= <-]. do 3 eexists. split; [done|lia].
  - destruct (3 <? c)%nat eqn:Hc; [|done].
    apply Nat.ltb_lt in Hc. intros [= <-]. do 3 eexists. split; [done|lia].
Qed.

(** X18. Every table that parse_minutiae_file returns has at least
    four columns and rows of that width, so that the columns 0 to 3
    that the rendering reads can always be taken. *)
Theorem parsed_table_has_four_columns (fs : store) (file_path : string) :
  exists n c rows,
    parse_minutiae_file fs file_path = Ok (Arr2 n c rows)
    /\ (4 <= c)%nat
    /\ length rows = n
    /\ Forall (fun r => length r = c) rows
    /\ (forall j, (j < 4)%nat ->
                  exists col, column j (Arr2 n c rows) = Ok col).
Proof.
  unfold parse_minutiae_file.
  destruct (parse_minutiae_file_body fs file_path) as [t|e] eqn:Hbody.
  - destruct (parse_minutiae_file_body_columns _ _ _ Hbody)
      as (n & c & rows & -> & Hc).
    apply parse_minutiae_file_body_2d in Hbody as [_ [Hn Hrows]].
    exists n, c, rows. cbn [Py.try_except].
    split; [done|]. split; [done|]. split; [done|]. split; [done|].
    intros j Hj. unfold column.
    destruct (j <? c)%nat eqn:E; [by eexists|].
    apply Nat.ltb_ge in E. lia.
  - exists 0%nat, 4%nat, []. cbn [Py.try_except].
    split; [done|]. split; [lia|]. split; [done|]. split; [constructor|].
    intros j Hj. unfold column.
    destruct (j <? 4)%nat eqn:E; [by eexists|].
    apply Nat.ltb_ge in E. lia.
Qed.

(** X19. A file with a single column of four or more numbers is not
    rejected: the loader returns a vector, the reshape turns it into
    one row, and parse_minutiae_file answers a table of one row whose
    entries are the numbers of the column, the fourth converted to
    radians. *)
Theorem single_column_read_as_one_row
  (fs : store) (file_path content : string) (rows : list (list F.float)) :
  fs !! file_path = Some content ->
  table_rows None (Text.readlines content) = Ok rows ->
  Forall (fun r => length r = 1%nat) rows ->
  (4 <= length rows)%nat ->
  parse_minutiae_file fs file_path
  = Ok (Arr2 1 (length rows)
          [alter to_radians 3%nat (map (fun r => nth 0 r S754_nan) rows)]).
Proof.
  intros Hread Hrows Hone Hlen.
  unfold parse_minutiae_file, parse_minutiae_file_body, loadtxt, read_file.
  rewrite Hread. cbn [Py.bind]. rewrite Hrows. cbn [Py.bind].
  destruct rows as [|r1 [|r2 rows]]; [cbn in Hlen; lia|cbn in Hlen; lia|].
  inversion Hone as [|? ? Hr1 _]; subst.
  destruct r1 as [|x [|? ?]]; [done| |done].
  cbn [Py.bind]. rewrite !length_map.
  match goal with
  | |- context [if ?b then _ else _] => destruct b eqn:E
  end; [reflexivity|].
  apply Nat.ltb_ge in E. unfold F.float in *. cbn [length] in *. lia.
Qed.

Lemma single_column_read_as_one_row_witness :
  parse_minutiae_file single_column_file "out/scan.txt"
  = Ok (Arr2 1 4 [[F.of_Z 1; F.of_Z 20; F.of_Z 30; to_radians (F.of_Z 90)]]).
Proof.
  apply (single_column_read_as_one_row single_column_file "out/scan.txt"
           (Sample.unlines ["1"; "20"; "30"; "90.0"])
           [[F.of_Z 1]; [F.of_Z 20]; [F.of_Z 30]; [F.of_Z 90]]).
  - reflexivity.
  - vm_compute. reflexivity.
  - repeat constructor.
  - cbn. lia.
Defined.

(** ** What the template batch writes *)

Section TemplateFrame.

Variable np_cos np_sin : F.float -> F.float.
Variable line_nd : Z * Z -> Z * Z -> result (list (Z * Z)).
Variable gaussian_filter : grid F.float -> F.float -> grid F.float.
Variable imsave : store -> string -> list (grid Z) -> result store.

(** The image writer changes no file but the one it is given. *)
Hypothesis imsave_frame :
  forall fs path image fs',
    imsave fs path image = Ok fs' ->
    forall q, q <> path -> fs' !! q = fs !! q.

Lemma template_step_frame minutiae_dir output_dir target_size
  include_singular config st filename q :
  q <> Path.join output_dir (fst (Path.splitext filename) +:+ ".png") ->
  batch_store (template_step np_cos np_sin line_nd gaussian_filter imsave
                 minutiae_dir output_dir target_size include_singular config
                 st filename) !! q
  = batch_store st !! q.
Proof.
  intros Hq. destruct st as [[fs s] t]. unfold template_step.
  destruct (create_template_from_file _ _ _ _ _ _ _ _ _ _) as [image|];
    [|done].
  destruct (imsave fs _ image) as [fs'|] eqn:Hsave; [|done].
  cbn [batch_store fst]. by eapply imsave_frame.
Qed.

(** X20. When the image writer changes only the file it is given, a
    run of create_templates_from_folder that returns has changed
    nothing but the images <output_dir>/<stem>.png of the listed .txt
    files: every other path, the minutiae files included, is left as
    it was. *)
Theorem templates_touch_only_images
  (makedirs_env : string -> result unit)
  (fs fs' : store) (listing : result (list string)) (names : list string)
  (minutiae_dir output_dir : string)
  (target_size : Z * Z) (include_singular : bool) (config : Config)
  (counts : Z * Z) (q : string) :
  create_templates_from_folder np_cos np_sin line_nd gaussian_filter
    imsave makedirs_env fs listing minutiae_dir output_dir target_size
    include_singular config = Ok (fs', counts) ->
  listing = Ok names ->
  (forall f,
      f ∈ names -> Text.endswith f ".txt" = true ->
      q <> Path.join output_dir (fst (Path.splitext f) +:+ ".png")) ->
  fs' !! q = fs !! q.
Proof.
  intros Hrun -> Hq. revert Hrun. unfold create_templates_from_folder.
  destruct (makedirs makedirs_env output_dir) as [[]|e]; cbn [Py.bind];
    [|done].
  assert (Hloop : forall files st,
             (forall f, f ∈ files ->
                q <> Path.join output_dir (fst (Path.splitext f) +:+ ".png")) ->
             batch_store
               (fold_left (template_step np_cos np_sin line_nd gaussian_filter
                             imsave minutiae_dir output_dir target_size
                             include_singular config) files st) !! q
             = batch_store st !! q).
  { induction files as [|f files IH]; intros st Hfiles; cbn [fold_left];
      [done|].
    rewrite IH by (intros f' Hf'; apply Hfiles; by apply elem_of_cons; right).
    apply template_step_frame, Hfiles. by apply elem_of_cons; left. }
  specialize (Hloop (filter (fun f => Text.endswith f ".txt") names)
                (fs, 0, 0)).
  destruct (fold_left _ _ _) as [[fs1 s] t].
  cbn [batch_store fst] in *. intros [= <- <-]. apply Hloop.
  intros f [Hf Hin]%list_elem_of_filter. apply Hq; [done|].
  by apply Is_true_true.
Qed.

End TemplateFrame.

Lemma templates_touch_only_images_witness :
  exists fs' counts,
    create_templates_from_folder (fun x => x) (fun x => x)
      (fun _ _ => Ok []) (fun g _ => g)
      (fun fs path _ => Ok (<[path := "png"]> fs)) Sample.dirs_ok
      unknown_type_file (Ok ["scan.txt"]) "out" "img" (2, 3) false
      get_default_config = Ok (fs', counts)
    /\ fs' !! "out/scan.txt" = unknown_type_file !! "out/scan.txt"
    /\ is_Some (fs' !! "img/scan.png").
Proof.
  remember (create_templates_from_folder _ _ _ _ _ _ _ _ _ _ _ _ _) as r
    eqn:Hr.
  assert (Hrun : match r with
                 | Ok (fs', _) =>
                     match fs' !! "img/scan.png" with
                     | Some _ => true
                     | None => false
                     end
                 | Raise _ => false
                 end = true)
    by (rewrite Hr; vm_compute; reflexivity).
  destruct r as [[fs' counts]|e]; [|discriminate Hrun].
  symmetry in Hr.
  assert (Hframe : forall (fs : store) (path : string) (image : list (grid Z))
                          (fs0 : store),
             (fun fs path (_ : list (grid Z)) => Ok (<[path := "png"]> fs))
               fs path image = Ok fs0 ->
             forall q, q <> path -> fs0 !! q = fs !! q).
  { intros fs path image fs0 [= <-] q Hq. by apply lookup_insert_ne. }
  exists fs', counts. split; [reflexivity|]. split.
  - apply (templates_touch_only_images (fun x => x) (fun x => x)
             (fun _ _ => Ok []) (fun g _ => g)
             (fun fs path _ => Ok (<[path := "png"]> fs)) Hframe
             Sample.dirs_ok unknown_type_file fs' (Ok ["scan.txt"])
             ["scan.txt"] "out" "img" (2, 3) false get_default_config counts
             "out/scan.txt" Hr eq_refl).
    intros f Hf _. apply list_elem_of_singleton in Hf as ->.
    vm_compute. discriminate.
  - clear Hr. destruct (fs' !! "img/scan.png") as [c|]; [by eexists|].
    discriminate Hrun.
Defined.
